(** * Subscription lifecycle, pricing and audit log of the sea-catering backend

    A shallow embedding of the Go sources

      - [internal/entity/subscription.go], [internal/entity/meal_plan.go]
      - [internal/api/subscriptions/error.go], [dto.go], [handler]
      - [internal/api/subscriptions/repository] (subscriptionRepository)
      - [internal/api/subscriptions/service]    (subscriptionService)
      - [internal/api/meal_plans/repository]    (mealPlanRepository.GetByID)
      - [internal/api/admin/repository], [internal/api/admin/service]
      - [pkg/utils/utils.go]

    Conventions of the embedding.

      - [float64] is Rocq's primitive binary64 float; every product and
        quotient is the IEEE operation, in the order the source writes it.
      - [time.Time] is an integer instant; [After] and [Before] are the
        strict orders.  One operation reads one clock value.
      - The relational store is a record of tables.  Each repository method
        issues the SQL statements of the source, in order; a statement is
        appended to [issued] when it is sent, and the head of [faults] says
        whether the driver reports an error for it (lost connection, expired
        context, a constraint of the schema, ...).  The theorems quantify over
        every such fault plan.  A column holds the value the statement gives
        it: the precision of the column types (DATE, DECIMAL(10,2)) is not
        modelled.
      - A Go [string] is the sequence of its bytes; [strings.ToLower] is
        modelled with the UTF-8 decoder of [unicode/utf8] and the lower-case
        mappings of [unicode] (Unicode 15.0.0, as in Go 1.21).
      - A Go result [(value, error)] is a pair of options, [nil] being [None].
      - Logger calls only write to the log and are left out. *)

From Stdlib Require Import ZArith String Ascii List Bool Floats Lia.
From stdpp Require Import gmap strings sorting.

Local Open Scope string_scope.
Local Open Scope Z_scope.

(** ** Machine numbers *)

(** Go's [int] on a 64-bit platform: the two's complement wrap-around. *)
Definition wrap64 (z : Z) : Z := (z + 2 ^ 63) mod 2 ^ 64 - 2 ^ 63.

(** The conversion [float64(i)] of an [int] (from [- 2 ^ 63] to
    [2 ^ 63 - 1]): the nearest binary64 number, ties to even. *)
Definition float64_of_int (i : Z) : float :=
  if 0 <=? i then PrimFloat.of_uint63 (Uint63.of_Z i)
  else if i =? - 2 ^ 63 then (- 0x1p+63)%float
  else PrimFloat.opp (PrimFloat.of_uint63 (Uint63.of_Z (- i))).

(** The conversion [int(f)] of a [float64]: the fraction is discarded
    (truncation towards zero).  Outside the range of [int] (and for NaN
    and the infinities) the Go specification leaves the value to the
    implementation; amd64 yields the least integer. *)
Definition int_of_float64 (f : float) : Z :=
  match Prim2SF f with
  | S754_zero _ => 0
  | S754_finite s m e =>
      let v := if 0 <=? e then Z.shiftl (Z.pos m) e else Z.shiftr (Z.pos m) (- e) in
      let v := if s then - v else v in
      if (- 2 ^ 63 <=? v) && (v <? 2 ^ 63) then v else - 2 ^ 63
  | _ => - 2 ^ 63
  end.

(** ** Time *)

Definition Time : Type := Z.

Definition After (t u : Time) : bool := u <? t.
Definition Before (t u : Time) : bool := t <? u.

(** ** internal/entity *)

Inductive SubscriptionStatus : Type :=
| StatusActive
| StatusPaused
| StatusCancelled.

(** The string a status is in Go ([type SubscriptionStatus string]). *)
Definition status_string (s : SubscriptionStatus) : string :=
  match s with
  | StatusActive => "active"
  | StatusPaused => "paused"
  | StatusCancelled => "cancelled"
  end.

#[global] Instance SubscriptionStatus_eq_dec : EqDecision SubscriptionStatus.
Proof. solve_decision. Defined.

(** [type MealType string], [type DeliveryDay string]. *)
Definition MealType : Type := string.
Definition DeliveryDay : Type := string.

Definition MealTypeBreakfast : MealType := "breakfast".
Definition MealTypeLunch : MealType := "lunch".
Definition MealTypeDinner : MealType := "dinner".

Definition DayMonday : DeliveryDay := "monday".
Definition DayTuesday : DeliveryDay := "tuesday".
Definition DayWednesday : DeliveryDay := "wednesday".
Definition DayThursday : DeliveryDay := "thursday".
Definition DayFriday : DeliveryDay := "friday".
Definition DaySaturday : DeliveryDay := "saturday".
Definition DaySunday : DeliveryDay := "sunday".

Record Subscription : Type := {
  ID : string;
  UserID : string;
  MealPlanID : string;
  MealTypes : list MealType;
  DeliveryDays : list DeliveryDay;
  Allergies : string;
  TotalPrice : float;
  Status : SubscriptionStatus;
  PauseStartDate : option Time;
  PauseEndDate : option Time;
  CreatedAt : Time;
  UpdatedAt : Time
}.

(** Field assignments on a [*entity.Subscription]. *)
Definition set_Status (v : SubscriptionStatus) (s : Subscription) : Subscription :=
  {| ID := ID s; UserID := UserID s; MealPlanID := MealPlanID s;
     MealTypes := MealTypes s; DeliveryDays := DeliveryDays s;
     Allergies := Allergies s; TotalPrice := TotalPrice s; Status := v;
     PauseStartDate := PauseStartDate s; PauseEndDate := PauseEndDate s;
     CreatedAt := CreatedAt s; UpdatedAt := UpdatedAt s |}.

Definition set_PauseStartDate (v : option Time) (s : Subscription) : Subscription :=
  {| ID := ID s; UserID := UserID s; MealPlanID := MealPlanID s;
     MealTypes := MealTypes s; DeliveryDays := DeliveryDays s;
     Allergies := Allergies s; TotalPrice := TotalPrice s; Status := Status s;
     PauseStartDate := v; PauseEndDate := PauseEndDate s;
     CreatedAt := CreatedAt s; UpdatedAt := UpdatedAt s |}.

Definition set_PauseEndDate (v : option Time) (s : Subscription) : Subscription :=
  {| ID := ID s; UserID := UserID s; MealPlanID := MealPlanID s;
     MealTypes := MealTypes s; DeliveryDays := DeliveryDays s;
     Allergies := Allergies s; TotalPrice := TotalPrice s; Status := Status s;
     PauseStartDate := PauseStartDate s; PauseEndDate := v;
     CreatedAt := CreatedAt s; UpdatedAt := UpdatedAt s |}.

Definition set_UpdatedAt (v : Time) (s : Subscription) : Subscription :=
  {| ID := ID s; UserID := UserID s; MealPlanID := MealPlanID s;
     MealTypes := MealTypes s; DeliveryDays := DeliveryDays s;
     Allergies := Allergies s; TotalPrice := TotalPrice s; Status := Status s;
     PauseStartDate := PauseStartDate s; PauseEndDate := PauseEndDate s;
     CreatedAt := CreatedAt s; UpdatedAt := v |}.

Module MealPlan.
Record t : Type := {
  ID : string;
  Name : string;
  Description : string;
  Price : float;
  ImageURL : string;
  Features : list string;
  IsActive : bool;
  CreatedAt : Time;
  UpdatedAt : Time
}.
End MealPlan.

Definition set_IsActive (v : bool) (p : MealPlan.t) : MealPlan.t :=
  {| MealPlan.ID := MealPlan.ID p; MealPlan.Name := MealPlan.Name p;
     MealPlan.Description := MealPlan.Description p; MealPlan.Price := MealPlan.Price p;
     MealPlan.ImageURL := MealPlan.ImageURL p; MealPlan.Features := MealPlan.Features p;
     MealPlan.IsActive := v; MealPlan.CreatedAt := MealPlan.CreatedAt p;
     MealPlan.UpdatedAt := MealPlan.UpdatedAt p |}.

Record SubscriptionWithDetails : Type := {
  Sub : Subscription;
  Plan : MealPlan.t
}.

(** ** Errors *)

(** The sentinel errors of [subscriptions/error.go] (compared by identity
    in Go, so by constructor here), the sentinels of the other packages
    that reach the subscription code, and [fmt.Errorf]: a fresh error with
    its message ([Errorf]) and, under [%w], the error it wraps ([Wrapf]). *)
Inductive error : Type :=
| ErrSubscriptionNotFound
| ErrInvalidMealPlan
| ErrInvalidMealTypes
| ErrInvalidDeliveryDays
| ErrSubscriptionAlreadyExists
| ErrSubscriptionCancelled
| ErrSubscriptionPaused
| ErrInvalidPauseDates
| ErrUnauthorizedAccess
| ErrSubscriptionActive
| ErrInvalidSubscriptionStatus
| ErrInvalidDateRange
| ErrSubscriptionUpdateFailed
| ErrMealPlanNotFound
| ErrNoRows
| ErrDriver
| Errorf (msg : string)
| Wrapf (msg : string) (wrapped : error).

(** [subscriptions.GetErrorMessage]. *)
Definition GetErrorMessage (err : error) : string :=
  match err with
  | ErrSubscriptionNotFound => "Subscription not found"
  | ErrInvalidMealPlan => "Selected meal plan is invalid or inactive"
  | ErrInvalidMealTypes =>
      "Invalid meal types selected. Please choose from: breakfast, lunch, dinner"
  | ErrInvalidDeliveryDays =>
      "Invalid delivery days selected. Please choose valid weekdays"
  | ErrSubscriptionAlreadyExists =>
      "You already have an active subscription for this meal plan"
  | ErrSubscriptionCancelled => "This subscription has been cancelled"
  | ErrSubscriptionPaused => "This subscription is currently paused"
  | ErrSubscriptionActive => "This subscription is already active"
  | ErrInvalidPauseDates =>
      "Invalid pause dates. Start date must be in the future and before end date"
  | ErrUnauthorizedAccess =>
      "You don't have permission to access this subscription"
  | ErrInvalidSubscriptionStatus =>
      "Current subscription status doesn't allow this operation"
  | ErrInvalidDateRange => "Invalid date range provided"
  | ErrSubscriptionUpdateFailed =>
      "Failed to update subscription. Please try again"
  | _ => "An unexpected error occurred"
  end.

(** [subscriptions.GetHTTPStatusCode]. *)
Definition GetHTTPStatusCode (err : error) : Z :=
  match err with
  | ErrSubscriptionNotFound => 404
  | ErrInvalidMealPlan | ErrInvalidMealTypes | ErrInvalidDeliveryDays
  | ErrInvalidPauseDates | ErrInvalidSubscriptionStatus | ErrInvalidDateRange => 400
  | ErrUnauthorizedAccess => 403
  | ErrSubscriptionAlreadyExists => 409
  | ErrSubscriptionUpdateFailed => 422
  | _ => 500
  end.

(** [subscriptions.CreateSubscriptionRequest] (dto.go). *)
Module CreateSubscriptionRequest.
Record t : Type := {
  Name : string;
  PhoneNumber : string;
  MealPlanID : string;
  MealTypes : list MealType;
  DeliveryDays : list DeliveryDay;
  Allergies : string
}.
End CreateSubscriptionRequest.

(** [subscriptions.SubscriptionStatsResponse] (dto.go). *)
Record SubscriptionStatsResponse : Type := {
  TotalSubscriptions : Z;
  ActiveSubscriptions : Z;
  PausedSubscriptions : Z;
  CancelledSubscriptions : Z;
  MonthlyRevenue : float;
  NewSubscriptions : Z;
  Reactivations : Z;
  SubscriptionsByPlan : gmap string Z
}.

(** The values a [context.Context] carries are of type [any]: a string, or
    a value of another dynamic type (an integer and a boolean stand for
    those). *)
Inductive any : Type :=
| AnyString (s : string)
| AnyInt (i : Z)
| AnyBool (b : bool).

Definition Context : Type := gmap string any.

(** [ctx.Value(key)]: [nil] when the key is absent. *)
Definition Value (ctx : Context) (key : string) : option any := ctx !! key.

(** [contexts.WithValue]. *)
Definition WithValue (ctx : Context) (key : string) (v : any) : Context :=
  <[key := v]> ctx.

(** A Go call either returns or panics. *)
Inductive outcome (A : Type) : Type :=
| Returned (a : A)
| Panicked.
Arguments Returned {A} a.
Arguments Panicked {A}.

(** ** pkg/utils *)

Module Utils.

Fixpoint StringSliceContains (slice : list string) (item : string) : bool :=
  match slice with
  | [] => false
  | s :: rest => if String.eqb s item then true else StringSliceContains rest item
  end.

(** *** [unicode/utf8]

    A Go string is its bytes, a [rune] is a code point. *)

Definition rune : Type := Z.

Definition RuneError : rune := 0xFFFD.
Definition RuneSelf : Z := 0x80.
Definition MaxRune : rune := 0x10FFFF.

Definition byte_of (c : ascii) : Z := Z.of_N (N_of_ascii c).
Definition of_byte (b : Z) : ascii := ascii_of_N (Z.to_N b).

(** [s[i]], for [i] below [len(s)]. *)
Definition byte_at (i : nat) (s : string) : Z :=
  match String.get i s with
  | Some c => byte_of c
  | None => 0
  end.

(** [s[n:]], for [n] up to [len(s)]. *)
Fixpoint slice_from (n : nat) (s : string) : string :=
  match n, s with
  | S n, String _ rest => slice_from n rest
  | _, _ => s
  end.

(** The table [first] with [acceptRanges]: for a byte that can lead an
    encoding of more than one byte, the length of the encoding and the
    bounds of its second byte. *)
Definition leading (s0 : Z) : option (nat * Z * Z) :=
  if (0xC2 <=? s0) && (s0 <=? 0xDF) then Some (2%nat, 0x80, 0xBF)
  else if s0 =? 0xE0 then Some (3%nat, 0xA0, 0xBF)
  else if (0xE1 <=? s0) && (s0 <=? 0xEC) then Some (3%nat, 0x80, 0xBF)
  else if s0 =? 0xED then Some (3%nat, 0x80, 0x9F)
  else if (0xEE <=? s0) && (s0 <=? 0xEF) then Some (3%nat, 0x80, 0xBF)
  else if s0 =? 0xF0 then Some (4%nat, 0x90, 0xBF)
  else if (0xF1 <=? s0) && (s0 <=? 0xF3) then Some (4%nat, 0x80, 0xBF)
  else if s0 =? 0xF4 then Some (4%nat, 0x80, 0x8F)
  else None.

(** A continuation byte, [locb <= b <= hicb]. *)
Definition continues (b : Z) : bool := (0x80 <=? b) && (b <=? 0xBF).

(** The payload bits of a continuation byte, [b & maskx]. *)
Definition payload (b : Z) : Z := Z.land b 0x3F.

(** [utf8.DecodeRuneInString]: the rune the string starts with and the
    number of its bytes; [(RuneError, 1)] for an encoding that is not
    valid (overlong forms, surrogates and values above [MaxRune]
    included) or not complete, [(RuneError, 0)] for the empty string. *)
Definition DecodeRuneInString (s : string) : rune * nat :=
  let n := String.length s in
  if (n <? 1)%nat then (RuneError, 0%nat)
  else
    let s0 := byte_at 0 s in
    if s0 <? RuneSelf then (s0, 1%nat)
    else
      match leading s0 with
      | None => (RuneError, 1%nat)
      | Some (sz, lo, hi) =>
          if (n <? sz)%nat then (RuneError, 1%nat)
          else
            let b1 := byte_at 1 s in
            if (b1 <? lo) || (hi <? b1) then (RuneError, 1%nat)
            else if (sz <=? 2)%nat
            then (Z.lor (Z.shiftl (Z.land s0 0x1F) 6) (payload b1), 2%nat)
            else
              let b2 := byte_at 2 s in
              if negb (continues b2) then (RuneError, 1%nat)
              else if (sz <=? 3)%nat
              then (Z.lor (Z.shiftl (Z.land s0 0x0F) 12)
                      (Z.lor (Z.shiftl (payload b1) 6) (payload b2)), 3%nat)
              else
                let b3 := byte_at 3 s in
                if negb (continues b3) then (RuneError, 1%nat)
                else (Z.lor (Z.shiftl (Z.land s0 0x07) 18)
                        (Z.lor (Z.shiftl (payload b1) 12)
                           (Z.lor (Z.shiftl (payload b2) 6) (payload b3))),
                      4%nat)
      end.

(** The bytes [utf8.AppendRune] appends for [r]; a rune that is out of
    range or a surrogate is written as [RuneError]. *)
Definition EncodeRune (r : rune) : string :=
  let tail_byte (v : Z) := of_byte (Z.lor 0x80 (payload v)) in
  if (0 <=? r) && (r <=? 0x7F) then String (of_byte r) ""
  else if (0 <=? r) && (r <=? 0x7FF)
  then String (of_byte (Z.lor 0xC0 (Z.shiftr r 6))) (String (tail_byte r) "")
  else
    let r := if (r <? 0) || (MaxRune <? r) || ((0xD800 <=? r) && (r <=? 0xDFFF))
             then RuneError else r in
    if r <=? 0xFFFF
    then String (of_byte (Z.lor 0xE0 (Z.shiftr r 12)))
           (String (tail_byte (Z.shiftr r 6)) (String (tail_byte r) ""))
    else String (of_byte (Z.lor 0xF0 (Z.shiftr r 18)))
           (String (tail_byte (Z.shiftr r 12))
              (String (tail_byte (Z.shiftr r 6)) (String (tail_byte r) ""))).

(** *** [unicode] *)

(** The lower-case entry of a [CaseRange]: a number to add, or the mark
    [UpperLower] of a range that alternates upper-case and lower-case
    letters. *)
Inductive delta : Type :=
| Delta (d : Z)
| UpperLower.

(** The ranges of [unicode.CaseRanges] (Unicode 15.0.0, the tables of
    Go 1.21) whose runes have a lower-case mapping, in ascending order,
    each with its lower-case entry. *)
Definition caseRanges : list (Z * Z * delta) :=
  [(0x0041, 0x005A, Delta 32); (0x00C0, 0x00D6, Delta 32);
   (0x00D8, 0x00DE, Delta 32); (0x0100, 0x012F, UpperLower);
   (0x0130, 0x0130, Delta (-199)); (0x0132, 0x0137, UpperLower);
   (0x0139, 0x0148, UpperLower); (0x014A, 0x0177, UpperLower);
   (0x0178, 0x0178, Delta (-121)); (0x0179, 0x017E, UpperLower);
   (0x0181, 0x0181, Delta 210); (0x0182, 0x0185, UpperLower);
   (0x0186, 0x0186, Delta 206); (0x0187, 0x0187, Delta 1);
   (0x0189, 0x018A, Delta 205); (0x018B, 0x018B, Delta 1);
   (0x018E, 0x018E, Delta 79); (0x018F, 0x018F, Delta 202);
   (0x0190, 0x0190, Delta 203); (0x0191, 0x0191, Delta 1);
   (0x0193, 0x0193, Delta 205); (0x0194, 0x0194, Delta 207);
   (0x0196, 0x0196, Delta 211); (0x0197, 0x0197, Delta 209);
   (0x0198, 0x0198, Delta 1); (0x019C, 0x019C, Delta 211);
   (0x019D, 0x019D, Delta 213); (0x019F, 0x019F, Delta 214);
   (0x01A0, 0x01A5, UpperLower); (0x01A6, 0x01A6, Delta 218);
   (0x01A7, 0x01A7, Delta 1); (0x01A9, 0x01A9, Delta 218);
   (0x01AC, 0x01AC, Delta 1); (0x01AE, 0x01AE, Delta 218);
   (0x01AF, 0x01AF, Delta 1); (0x01B1, 0x01B2, Delta 217);
   (0x01B3, 0x01B6, UpperLower); (0x01B7, 0x01B7, Delta 219);
   (0x01B8, 0x01B8, Delta 1); (0x01BC, 0x01BC, Delta 1);
   (0x01C4, 0x01C4, Delta 2); (0x01C5, 0x01C5, Delta 1);
   (0x01C7, 0x01C7, Delta 2); (0x01C8, 0x01C8, Delta 1);
   (0x01CA, 0x01CA, Delta 2); (0x01CB, 0x01DC, UpperLower);
   (0x01DE, 0x01EF, UpperLower); (0x01F1, 0x01F1, Delta 2);
   (0x01F2, 0x01F5, UpperLower); (0x01F6, 0x01F6, Delta (-97));
   (0x01F7, 0x01F7, Delta (-56)); (0x01F8, 0x021F, UpperLower);
   (0x0220, 0x0220, Delta (-130)); (0x0222, 0x0233, UpperLower);
   (0x023A, 0x023A, Delta 10795); (0x023B, 0x023B, Delta 1);
   (0x023D, 0x023D, Delta (-163)); (0x023E, 0x023E, Delta 10792);
   (0x0241, 0x0241, Delta 1); (0x0243, 0x0243, Delta (-195));
   (0x0244, 0x0244, Delta 69); (0x0245, 0x0245, Delta 71);
   (0x0246, 0x024F, UpperLower); (0x0370, 0x0373, UpperLower);
   (0x0376, 0x0376, Delta 1); (0x037F, 0x037F, Delta 116);
   (0x0386, 0x0386, Delta 38); (0x0388, 0x038A, Delta 37);
   (0x038C, 0x038C, Delta 64); (0x038E, 0x038F, Delta 63);
   (0x0391, 0x03A1, Delta 32); (0x03A3, 0x03AB, Delta 32);
   (0x03CF, 0x03CF, Delta 8); (0x03D8, 0x03EF, UpperLower);
   (0x03F4, 0x03F4, Delta (-60)); (0x03F7, 0x03F7, Delta 1);
   (0x03F9, 0x03F9, Delta (-7)); (0x03FA, 0x03FA, Delta 1);
   (0x03FD, 0x03FF, Delta (-130)); (0x0400, 0x040F, Delta 80);
   (0x0410, 0x042F, Delta 32); (0x0460, 0x0481, UpperLower);
   (0x048A, 0x04BF, UpperLower); (0x04C0, 0x04C0, Delta 15);
   (0x04C1, 0x04CE, UpperLower); (0x04D0, 0x052F, UpperLower);
   (0x0531, 0x0556, Delta 48); (0x10A0, 0x10C5, Delta 7264);
   (0x10C7, 0x10C7, Delta 7264); (0x10CD, 0x10CD, Delta 7264);
   (0x13A0, 0x13EF, Delta 38864); (0x13F0, 0x13F5, Delta 8);
   (0x1C90, 0x1CBA, Delta (-3008)); (0x1CBD, 0x1CBF, Delta (-3008));
   (0x1E00, 0x1E95, UpperLower); (0x1E9E, 0x1E9E, Delta (-7615));
   (0x1EA0, 0x1EFF, UpperLower); (0x1F08, 0x1F0F, Delta (-8));
   (0x1F18, 0x1F1D, Delta (-8)); (0x1F28, 0x1F2F, Delta (-8));
   (0x1F38, 0x1F3F, Delta (-8)); (0x1F48, 0x1F4D, Delta (-8));
   (0x1F59, 0x1F59, Delta (-8)); (0x1F5B, 0x1F5B, Delta (-8));
   (0x1F5D, 0x1F5D, Delta (-8)); (0x1F5F, 0x1F5F, Delta (-8));
   (0x1F68, 0x1F6F, Delta (-8)); (0x1F88, 0x1F8F, Delta (-8));
   (0x1F98, 0x1F9F, Delta (-8)); (0x1FA8, 0x1FAF, Delta (-8));
   (0x1FB8, 0x1FB9, Delta (-8)); (0x1FBA, 0x1FBB, Delta (-74));
   (0x1FBC, 0x1FBC, Delta (-9)); (0x1FC8, 0x1FCB, Delta (-86));
   (0x1FCC, 0x1FCC, Delta (-9)); (0x1FD8, 0x1FD9, Delta (-8));
   (0x1FDA, 0x1FDB, Delta (-100)); (0x1FE8, 0x1FE9, Delta (-8));
   (0x1FEA, 0x1FEB, Delta (-112)); (0x1FEC, 0x1FEC, Delta (-7));
   (0x1FF8, 0x1FF9, Delta (-128)); (0x1FFA, 0x1FFB, Delta (-126));
   (0x1FFC, 0x1FFC, Delta (-9)); (0x2126, 0x2126, Delta (-7517));
   (0x212A, 0x212A, Delta (-8383)); (0x212B, 0x212B, Delta (-8262));
   (0x2132, 0x2132, Delta 28); (0x2160, 0x216F, Delta 16);
   (0x2183, 0x2183, Delta 1); (0x24B6, 0x24CF, Delta 26);
   (0x2C00, 0x2C2F, Delta 48); (0x2C60, 0x2C60, Delta 1);
   (0x2C62, 0x2C62, Delta (-10743)); (0x2C63, 0x2C63, Delta (-3814));
   (0x2C64, 0x2C64, Delta (-10727)); (0x2C67, 0x2C6C, UpperLower);
   (0x2C6D, 0x2C6D, Delta (-10780)); (0x2C6E, 0x2C6E, Delta (-10749));
   (0x2C6F, 0x2C6F, Delta (-10783)); (0x2C70, 0x2C70, Delta (-10782));
   (0x2C72, 0x2C72, Delta 1); (0x2C75, 0x2C75, Delta 1);
   (0x2C7E, 0x2C7F, Delta (-10815)); (0x2C80, 0x2CE3, UpperLower);
   (0x2CEB, 0x2CEE, UpperLower); (0x2CF2, 0x2CF2, Delta 1);
   (0xA640, 0xA66D, UpperLower); (0xA680, 0xA69B, UpperLower);
   (0xA722, 0xA72F, UpperLower); (0xA732, 0xA76F, UpperLower);
   (0xA779, 0xA77C, UpperLower); (0xA77D, 0xA77D, Delta (-35332));
   (0xA77E, 0xA787, UpperLower); (0xA78B, 0xA78B, Delta 1);
   (0xA78D, 0xA78D, Delta (-42280)); (0xA790, 0xA793, UpperLower);
   (0xA796, 0xA7A9, UpperLower); (0xA7AA, 0xA7AA, Delta (-42308));
   (0xA7AB, 0xA7AB, Delta (-42319)); (0xA7AC, 0xA7AC, Delta (-42315));
   (0xA7AD, 0xA7AD, Delta (-42305)); (0xA7AE, 0xA7AE, Delta (-42308));
   (0xA7B0, 0xA7B0, Delta (-42258)); (0xA7B1, 0xA7B1, Delta (-42282));
   (0xA7B2, 0xA7B2, Delta (-42261)); (0xA7B3, 0xA7B3, Delta 928);
   (0xA7B4, 0xA7C3, UpperLower); (0xA7C4, 0xA7C4, Delta (-48));
   (0xA7C5, 0xA7C5, Delta (-42307)); (0xA7C6, 0xA7C6, Delta (-35384));
   (0xA7C7, 0xA7CA, UpperLower); (0xA7D0, 0xA7D0, Delta 1);
   (0xA7D6, 0xA7D9, UpperLower); (0xA7F5, 0xA7F5, Delta 1);
   (0xFF21, 0xFF3A, Delta 32); (0x10400, 0x10427, Delta 40);
   (0x104B0, 0x104D3, Delta 40); (0x10570, 0x1057A, Delta 39);
   (0x1057C, 0x1058A, Delta 39); (0x1058C, 0x10592, Delta 39);
   (0x10594, 0x10595, Delta 39); (0x10C80, 0x10CB2, Delta 64);
   (0x118A0, 0x118BF, Delta 32); (0x16E40, 0x16E5F, Delta 32);
   (0x1E900, 0x1E921, Delta 34)].

(** [unicode.To(unicode.LowerCase, r)] over [ranges]: the range that holds
    [r] decides; a rune in no range is kept. *)
Fixpoint to_lower (ranges : list (Z * Z * delta)) (r : rune) : rune :=
  match ranges with
  | [] => r
  | (lo, hi, d) :: rest =>
      if (lo <=? r) && (r <=? hi) then
        match d with
        | Delta d => r + d
        | UpperLower => lo + Z.lor (Z.land (r - lo) (Z.lnot 1)) 1
        end
      else to_lower rest r
  end.

(** [unicode.ToLower]. *)
Definition unicode_ToLower (r : rune) : rune :=
  if r <=? 0x7F then
    if (0x41 <=? r) && (r <=? 0x5A) then r + 0x20 else r
  else to_lower caseRanges r.

(** *** [strings] *)

(** The loop [for _, c := range s] of [strings.Map]: every rune of [s],
    an invalid byte counting as [RuneError], is mapped and written, unless
    the mapping gives a negative number.  [fuel] bounds the number of
    runes. *)
Fixpoint map_runes (fuel : nat) (mapping : rune -> rune) (s : string) : string :=
  match fuel, s with
  | S fuel, String _ _ =>
      let '(c, width) := DecodeRuneInString s in
      let r := mapping c in
      (if 0 <=? r then EncodeRune r else "")
      ++ map_runes fuel mapping (slice_from width s)
  | _, _ => ""
  end.

(** [strings.Map].  (The source returns [s] itself as long as no rune
    changes; writing a valid rune back gives its bytes again.) *)
Definition Map (mapping : rune -> rune) (s : string) : string :=
  map_runes (String.length s) mapping s.

(** The byte step of the ASCII path of [strings.ToLower]:
    [if 'A' <= c && c <= 'Z' { c += 'a' - 'A' }]. *)
Definition lower_ascii (c : ascii) : ascii :=
  let n := nat_of_ascii c in
  if (Nat.leb 65 n && Nat.leb n 90)%bool then ascii_of_nat (n + 32) else c.

Fixpoint lower_bytes (s : string) : string :=
  match s with
  | EmptyString => EmptyString
  | String c rest => String (lower_ascii c) (lower_bytes rest)
  end.

(** Whether every byte of [s] is below [utf8.RuneSelf]. *)
Fixpoint isASCII (s : string) : bool :=
  match s with
  | EmptyString => true
  | String c rest => (byte_of c <? RuneSelf) && isASCII rest
  end.

(** Whether [s] has a byte from ['A'] to ['Z']. *)
Fixpoint hasUpper (s : string) : bool :=
  match s with
  | EmptyString => false
  | String c rest => ((0x41 <=? byte_of c) && (byte_of c <=? 0x5A)) || hasUpper rest
  end.

(** [strings.ToLower]: byte by byte on a string of ASCII, and through
    [strings.Map] with [unicode.ToLower] on any other string. *)
Definition ToLower (s : string) : string :=
  if isASCII s then
    if hasUpper s then lower_bytes s else s
  else Map unicode_ToLower s.

Definition validMealTypes : list string := ["breakfast"; "lunch"; "dinner"].

Definition validDays : list string :=
  ["monday"; "tuesday"; "wednesday"; "thursday"; "friday"; "saturday"; "sunday"].

(** The loop of [ValidateMealTypes] and of [ValidateDeliveryDays]: the
    first entry outside [valid] ends it with an error. *)
Fixpoint validate_each (valid : list string) (what : string) (items : list string)
  : option error :=
  match items with
  | [] => None
  | item :: rest =>
      if negb (StringSliceContains valid (ToLower item))
      then Some (Errorf (what ++ item))
      else validate_each valid what rest
  end.

Definition ValidateMealTypes (mealTypes : list string) : option error :=
  if (length mealTypes =? 0)%nat
  then Some (Errorf "at least one meal type must be selected")
  else validate_each validMealTypes "invalid meal type: " mealTypes.

Definition ValidateDeliveryDays (deliveryDays : list string) : option error :=
  if (length deliveryDays =? 0)%nat
  then Some (Errorf "at least one delivery day must be selected")
  else validate_each validDays "invalid delivery day: " deliveryDays.

(** The constant [4.3] of the source as a [float64]: the binary64 number
    nearest to 43/10. *)
Definition weeks_per_month : float := 0x1.1333333333333p+2%float.

(** [planPrice * float64(len(mealTypes)) * float64(len(deliveryDays)) * 4.3] *)
Definition CalculateSubscriptionPrice
    (planPrice : float) (mealTypes deliveryDays : list string) : float :=
  (planPrice
   * float64_of_int (Z.of_nat (length mealTypes))
   * float64_of_int (Z.of_nat (length deliveryDays))
   * weeks_per_month)%float.

(** [StringSliceRemove]: the entries other than [item], in their order. *)
Fixpoint StringSliceRemove (slice : list string) (item : string) : list string :=
  match slice with
  | [] => []
  | s :: rest =>
      if negb (String.eqb s item) then s :: StringSliceRemove rest item
      else StringSliceRemove rest item
  end.

(** The loop of [StringSliceUnique] and of [IntSliceUnique]: [keys] is the
    [map[T]bool] of the entries met so far (only [true] is ever stored, so
    it is a set), [result] the slice the loop appends to. *)
Fixpoint unique_loop {A : Type} `{Countable A}
    (keys : gset A) (result slice : list A) : list A :=
  match slice with
  | [] => result
  | item :: rest =>
      if negb (bool_decide (item ∈ keys))
      then unique_loop ({[item]} ∪ keys) (result ++ [item])%list rest
      else unique_loop keys result rest
  end.

Definition StringSliceUnique (slice : list string) : list string :=
  unique_loop ∅ [] slice.

Fixpoint IntSliceContains (slice : list Z) (item : Z) : bool :=
  match slice with
  | [] => false
  | i :: rest => if i =? item then true else IntSliceContains rest item
  end.

Definition IntSliceUnique (slice : list Z) : list Z :=
  unique_loop ∅ [] slice.

(** [TruncateString].  [len] and the slice expressions count bytes;
    [text[:n]] panics for a negative [n]. *)
Definition TruncateString (text : string) (maxLength : Z) : outcome string :=
  if Z.of_nat (String.length text) <=? maxLength then Returned text
  else if maxLength <=? 3 then
    if maxLength <? 0 then Panicked
    else Returned (substring 0 (Z.to_nat maxLength) text)
  else Returned (substring 0 (Z.to_nat (maxLength - 3)) text ++ "...").

(** [ValidatePagination]. *)
Definition ValidatePagination (page limit : Z) : Z * Z :=
  let page := if page <=? 0 then 1 else page in
  let limit := if limit <=? 0 then 10 else if 100 <? limit then 100 else limit in
  (page, limit).

(** [CalculateOffset]: the product is taken in [int]. *)
Definition CalculateOffset (page limit : Z) : Z :=
  let page := if page <=? 0 then 1 else page in
  wrap64 ((page - 1) * limit).

(** [math.Ceil]: the least integral value not below [f]; zeros, infinities
    and NaN are returned as they are, and a value between -1 and 0 gives
    the negative zero. *)
Definition Ceil (f : float) : float :=
  match Prim2SF f with
  | S754_finite s m e =>
      if 0 <=? e then f
      else
        let v := Z.shiftr (Z.pos m) (- e) in
        if s then (if v =? 0 then (- 0)%float else float64_of_int (- v))
        else if Z.shiftl v (- e) =? Z.pos m then float64_of_int v
        else float64_of_int (v + 1)
  | _ => f
  end.

(** [CalculateTotalPages]:
    [int(math.Ceil(float64(totalItems) / float64(limit)))]. *)
Definition CalculateTotalPages (totalItems limit : Z) : Z :=
  if limit <=? 0 then 0
  else int_of_float64 (Ceil (float64_of_int totalItems / float64_of_int limit)%float).

End Utils.

(** ** The store *)

(** A row of [subscription_audit].  The id is
    [fmt.Sprintf("%s-%s", subscriptionID, time.Now().Format(...))]: the
    subscription id and the clock reading it is printed from. *)
Record AuditRecord : Type := {
  audit_id : string * Time;
  subscription_id : string;
  user_id : string;
  old_status : string;
  new_status : string;
  action : string;
  created_at : Time
}.

(** The SQL statements of the repositories. *)
Inductive stmt : Type :=
| SelectAuditTableExists
| InsertSubscriptionAudit (r : AuditRecord)
| SelectSubscriptionRow (id : string)
| SelectSubscriptionJoinPlan (id : string)
| SelectSubscriptionStatus (id : string)
| InsertSubscription (id : string)
| UpdateSubscriptionRow (id : string)
| SelectExpiredSubscriptions
| UpdateStatusWhereIdAny (ids : list string) (status : SubscriptionStatus)
| UpdateForceCancel (id : string)
| SelectMealPlan (id : string).

Record World : Type := {
  subscriptions : gmap string Subscription;  (* table subscriptions, by primary key *)
  meal_plans : gmap string MealPlan.t;       (* table meal_plans, by primary key *)
  subscription_audit : option (list AuditRecord);
                                             (* table subscription_audit, oldest row
                                                first; [None]: the table is absent *)
  issued : list stmt;                        (* statements sent so far, oldest first *)
  faults : list bool;                        (* [true]: the next statement fails *)
  clock : Time;                              (* time.Now() *)
  ulids : list string                        (* what GenerateULID returns next *)
}.

Definition set_subscriptions (f : gmap string Subscription -> gmap string Subscription)
    (w : World) : World :=
  {| subscriptions := f (subscriptions w); meal_plans := meal_plans w;
     subscription_audit := subscription_audit w; issued := issued w;
     faults := faults w; clock := clock w; ulids := ulids w |}.

Definition set_subscription_audit (a : option (list AuditRecord)) (w : World) : World :=
  {| subscriptions := subscriptions w; meal_plans := meal_plans w;
     subscription_audit := a; issued := issued w;
     faults := faults w; clock := clock w; ulids := ulids w |}.

Definition set_meal_plans (f : gmap string MealPlan.t -> gmap string MealPlan.t)
    (w : World) : World :=
  {| subscriptions := subscriptions w; meal_plans := f (meal_plans w);
     subscription_audit := subscription_audit w; issued := issued w;
     faults := faults w; clock := clock w; ulids := ulids w |}.

Definition set_faults (fs : list bool) (w : World) : World :=
  {| subscriptions := subscriptions w; meal_plans := meal_plans w;
     subscription_audit := subscription_audit w; issued := issued w;
     faults := fs; clock := clock w; ulids := ulids w |}.

Definition set_ulids (u : list string) (w : World) : World :=
  {| subscriptions := subscriptions w; meal_plans := meal_plans w;
     subscription_audit := subscription_audit w; issued := issued w;
     faults := faults w; clock := clock w; ulids := u |}.

(** Sending statement [s]: it is recorded, and the next fault flag is used up. *)
Definition send (s : stmt) (w : World) : World :=
  {| subscriptions := subscriptions w; meal_plans := meal_plans w;
     subscription_audit := subscription_audit w; issued := (issued w ++ [s])%list;
     faults := tail (faults w); clock := clock w; ulids := ulids w |}.

(** Whether a query found a row (or a table). *)
Definition present {A : Type} (o : option A) : bool :=
  match o with
  | Some _ => true
  | None => false
  end.

(** ** Stateful code: a state monad over the store *)

Definition M (A : Type) : Type := World -> A * World.

Definition ret {A : Type} (a : A) : M A := fun w => (a, w).

Definition bind {A B : Type} (m : M A) (k : A -> M B) : M B :=
  fun w => let '(a, w') := m w in k a w'.

Notation "x <- m ; k" := (bind m (fun x => k))
  (at level 20, m at level 100, k at level 200, only parsing).

Notation "' p <- m ; k" := (bind m (fun p : _ => k))
  (at level 20, p pattern, m at level 100, k at level 200, only parsing).

Definition gets {A : Type} (f : World -> A) : M A := fun w => (f w, w).
Definition modify (f : World -> World) : M unit := fun w => (tt, f w).

(** The fault flag of the statement sent after [n] more statements. *)
Definition fault_at (n : nat) (w : World) : bool := hd false (drop n (faults w)).

(** One round trip to the database; the result is [true] when the driver
    reports an error. *)
Definition dbCall (s : stmt) : M bool :=
  fun w => (hd false (faults w), send s w).

Definition skip : M unit := ret tt.

Definition timeNow : M Time := gets clock.

(** [utils.GenerateULID]. *)
Definition GenerateULID : M string :=
  fun w => (hd "" (ulids w), set_ulids (tail (ulids w)) w).

(** One round trip for a query that [stmt] has no name for (the listings
    and the statistics): the next fault flag is used up as by [dbCall];
    [issued] lists the named statements only. *)
Definition roundTrip : M bool :=
  fun w => (hd false (faults w), set_faults (tail (faults w)) w).

(** ** internal/api/subscriptions/repository *)

Module SubscriptionRepository.

(** [LogSubscriptionAction]: the table check, then the INSERT.  Both
    failures are logged and dropped; every path ends in [return nil]. *)
Definition LogSubscriptionAction
    (subscriptionID userID action oldStatus newStatus : string) : M (option error) :=
  failed <- dbCall SelectAuditTableExists ;
  tableExists <- gets (λ w, present (subscription_audit w)) ;
  if failed || negb tableExists then ret None
  else
    now <- timeNow ;
    let r := {| audit_id := (subscriptionID, now);
                subscription_id := subscriptionID; user_id := userID;
                old_status := oldStatus; new_status := newStatus;
                action := action; created_at := now |} in
    failed <- dbCall (InsertSubscriptionAudit r) ;
    _ <- (if failed then skip
         else modify (λ w, set_subscription_audit
                             ((λ rows, (rows ++ [r])%list) <$> subscription_audit w) w)) ;
    ret None.

(** [GetSubscriptionByIDForReactivation]: the row alone, without the join.
    It returns either [(&sub, nil)] or [(nil, err)], a sum here. *)
Definition GetSubscriptionByIDForReactivation (id : string)
    : M (Subscription + error) :=
  failed <- dbCall (SelectSubscriptionRow id) ;
  row <- gets (λ w, subscriptions w !! id) ;
  if failed then ret (inr ErrDriver)
  else match row with
       | None => ret (inr (Errorf "subscription not found"))
       | Some sub => ret (inl sub)
       end.

(** [Create]: the INSERT names no pause column, so both are NULL in the new
    row; a second row under the same primary key is refused by the store. *)
Definition Create (subscription : Subscription) : M (option error) :=
  failed <- dbCall (InsertSubscription (ID subscription)) ;
  taken <- gets (λ w, present (subscriptions w !! ID subscription)) ;
  if failed || taken then ret (Some ErrDriver)
  else
    _ <- modify (set_subscriptions
                  (insert (ID subscription)
                     {| ID := ID subscription; UserID := UserID subscription;
                        MealPlanID := MealPlanID subscription;
                        MealTypes := MealTypes subscription;
                        DeliveryDays := DeliveryDays subscription;
                        Allergies := Allergies subscription;
                        TotalPrice := TotalPrice subscription;
                        Status := Status subscription;
                        PauseStartDate := None; PauseEndDate := None;
                        CreatedAt := CreatedAt subscription;
                        UpdatedAt := UpdatedAt subscription |})) ;
    _ <- LogSubscriptionAction (ID subscription) (UserID subscription)
          "created" "" (status_string (Status subscription)) ;
    ret None.

(** The plan columns [GetByID] scans from the join; [IsActive] and the
    plan's timestamps are not selected and keep their zero values. *)
Definition joined_plan (sub : Subscription) (mp : MealPlan.t) : MealPlan.t :=
  {| MealPlan.ID := MealPlanID sub;
     MealPlan.Name := MealPlan.Name mp;
     MealPlan.Description := MealPlan.Description mp;
     MealPlan.Price := MealPlan.Price mp;
     MealPlan.ImageURL := MealPlan.ImageURL mp;
     MealPlan.Features := MealPlan.Features mp;
     MealPlan.IsActive := false;
     MealPlan.CreatedAt := 0;
     MealPlan.UpdatedAt := 0 |}.

(** [FROM subscriptions s JOIN meal_plans mp ON s.meal_plan_id = mp.id
    WHERE s.id = $1]. *)
Definition joined_row (w : World) (id : string) : option SubscriptionWithDetails :=
  match subscriptions w !! id with
  | Some sub =>
      match meal_plans w !! MealPlanID sub with
      | Some mp => Some {| Sub := sub; Plan := joined_plan sub mp |}
      | None => None
      end
  | None => None
  end.

(** [GetByID]: the row joined with its meal plan; no row is [(nil, nil)]. *)
Definition GetByID (id : string) : M (option SubscriptionWithDetails * option error) :=
  failed <- dbCall (SelectSubscriptionJoinPlan id) ;
  row <- gets (λ w, joined_row w id) ;
  if failed then ret (None, Some ErrDriver)
  else match row with
       | None => ret (None, None)
       | Some d => ret (Some d, None)
       end.

(** The audit label [Update] derives from the status read before the
    UPDATE and the status written. *)
Definition update_action (oldStatus : string) (status : SubscriptionStatus) : string :=
  if negb (String.eqb oldStatus (status_string status)) then
    if String.eqb oldStatus "cancelled" && bool_decide (status = StatusActive)
    then "reactivated"
    else if bool_decide (status = StatusCancelled) then "cancelled"
    else if bool_decide (status = StatusPaused) then "paused"
    else if bool_decide (status = StatusActive) && String.eqb oldStatus "paused"
    then "resumed"
    else "updated"
  else "updated".

(** [Update].  The error of the status query is not looked at: on failure
    [oldStatus] stays the empty string.  The UPDATE writes the meal types,
    the delivery days, the allergies, the price, the status, the two pause
    dates and [updated_at]; not the user, the meal plan or [created_at]. *)
Definition Update (subscription : Subscription) : M (option error) :=
  failed <- dbCall (SelectSubscriptionStatus (ID subscription)) ;
  found <- gets (λ w, subscriptions w !! ID subscription) ;
  let oldStatus :=
    if failed then "" else from_option (λ r, status_string (Status r)) "" found in
  failed <- dbCall (UpdateSubscriptionRow (ID subscription)) ;
  if failed then ret (Some ErrDriver)
  else
    row <- gets (λ w, subscriptions w !! ID subscription) ;
    match row with
    | None => ret (Some ErrNoRows)
    | Some r =>
        now <- timeNow ;
        _ <- modify (set_subscriptions
                      (insert (ID subscription)
                         {| ID := ID r; UserID := UserID r; MealPlanID := MealPlanID r;
                            MealTypes := MealTypes subscription;
                            DeliveryDays := DeliveryDays subscription;
                            Allergies := Allergies subscription;
                            TotalPrice := TotalPrice subscription;
                            Status := Status subscription;
                            PauseStartDate := PauseStartDate subscription;
                            PauseEndDate := PauseEndDate subscription;
                            CreatedAt := CreatedAt r;
                            UpdatedAt := now |})) ;
        let action := update_action oldStatus (Status subscription) in
        _ <- LogSubscriptionAction (ID subscription) (UserID subscription) action
              oldStatus (status_string (Status subscription)) ;
        ret None
    end.

(** The condition of [GetExpiredSubscriptions]:
    [status = 'paused' AND pause_end_date < NOW()]. *)
Definition expired (now : Time) (sub : Subscription) : bool :=
  bool_decide (Status sub = StatusPaused)
  && match PauseEndDate sub with
     | Some e => e <? now
     | None => false
     end.

Definition GetExpiredSubscriptions : M (list Subscription * option error) :=
  failed <- dbCall SelectExpiredSubscriptions ;
  now <- timeNow ;
  rows <- gets (λ w, List.filter (expired now)
                       (snd <$> map_to_list (subscriptions w))) ;
  if failed then ret ([], Some ErrDriver) else ret (rows, None).

(** [BulkUpdateStatus]: [SET status = $1, updated_at = $2 WHERE id = ANY($3)]. *)
Definition BulkUpdateStatus (ids : list string) (status : SubscriptionStatus)
    : M (option error) :=
  if (length ids =? 0)%nat then ret None
  else
    failed <- dbCall (UpdateStatusWhereIdAny ids status) ;
    if failed then ret (Some ErrDriver)
    else
      now <- timeNow ;
      _ <- modify (set_subscriptions
                    (fmap (λ r, if bool_decide (ID r ∈ ids)
                                then {| ID := ID r; UserID := UserID r;
                                        MealPlanID := MealPlanID r;
                                        MealTypes := MealTypes r;
                                        DeliveryDays := DeliveryDays r;
                                        Allergies := Allergies r;
                                        TotalPrice := TotalPrice r;
                                        Status := status;
                                        PauseStartDate := PauseStartDate r;
                                        PauseEndDate := PauseEndDate r;
                                        CreatedAt := CreatedAt r;
                                        UpdatedAt := now |}
                                else r))) ;
      ret None.

(** *** Listings and statistics *)

(** The rows of [subscriptions]. *)
Definition all_rows (w : World) : list Subscription :=
  snd <$> map_to_list (subscriptions w).

(** [FROM subscriptions s JOIN meal_plans mp ON s.meal_plan_id = mp.id]:
    the subscriptions whose plan exists, with the plan columns that
    [GetByID] scans. *)
Definition joined_rows (w : World) : list SubscriptionWithDetails :=
  omap (λ sub, match meal_plans w !! MealPlanID sub with
               | Some mp => Some {| Sub := sub; Plan := joined_plan sub mp |}
               | None => None
               end)
       (all_rows w).

(** [ORDER BY s.created_at DESC].  Rows created at the same instant come
    in an order the database does not promise; the sort keeps the order of
    the table for them. *)
Definition newer_first (a b : SubscriptionWithDetails) : Prop :=
  CreatedAt (Sub b) <= CreatedAt (Sub a).

#[global] Instance newer_first_dec a b : Decision (newer_first a b).
Proof. unfold newer_first. apply _. Defined.

(** [GetByUserID]: [WHERE s.user_id = $1 ORDER BY s.created_at DESC]. *)
Definition GetByUserID (userID : string)
    : M (list SubscriptionWithDetails * option error) :=
  failed <- roundTrip ;
  rows <- gets (λ w, merge_sort newer_first
                       (List.filter (λ d, String.eqb (UserID (Sub d)) userID)
                          (joined_rows w))) ;
  if failed then ret ([], Some ErrDriver) else ret (rows, None).

(** [GetActiveSubscriptions]: [WHERE s.status = 'active'
    ORDER BY s.created_at DESC]. *)
Definition GetActiveSubscriptions : M (list SubscriptionWithDetails * option error) :=
  failed <- roundTrip ;
  rows <- gets (λ w, merge_sort newer_first
                       (List.filter (λ d, bool_decide (Status (Sub d) = StatusActive))
                          (joined_rows w))) ;
  if failed then ret ([], Some ErrDriver) else ret (rows, None).

(** [ExistsByUserAndPlan]: [WHERE user_id = $1 AND meal_plan_id = $2
    AND status IN ('active', 'paused')]. *)
Definition ExistsByUserAndPlan (userID planID : string) : M (bool * option error) :=
  failed <- roundTrip ;
  found <- gets (λ w, existsb
                        (λ r, String.eqb (UserID r) userID
                              && String.eqb (MealPlanID r) planID
                              && (bool_decide (Status r = StatusActive)
                                  || bool_decide (Status r = StatusPaused)))
                        (all_rows w)) ;
  if failed then ret (false, Some ErrDriver) else ret (found, None).

(** [type SubscriptionStats struct].  A [nil] map reads as the empty map. *)
Module SubscriptionStats.
Record t : Type := {
  TotalSubscriptions : Z;
  ActiveSubscriptions : Z;
  PausedSubscriptions : Z;
  CancelledSubscriptions : Z;
  NewSubscriptions : Z;
  MonthlyRevenue : float;
  Reactivations : Z;
  SubscriptionsByPlan : gmap string Z
}.
End SubscriptionStats.

(** [COUNT(CASE WHEN p THEN 1 END)]. *)
Definition count_rows {A : Type} (p : A -> bool) (rows : list A) : Z :=
  Z.of_nat (length (List.filter p rows)).

(** [x BETWEEN $1 AND $2], both ends included. *)
Definition between (startDate endDate x : Time) : bool :=
  (startDate <=? x) && (x <=? endDate).

(** [COALESCE(SUM(CASE WHEN status = 'active' THEN total_price ELSE 0 END), 0)],
    the prices added in the order of the table. *)
Definition monthly_revenue (w : World) : float :=
  fold_left (λ acc r, (acc + (if bool_decide (Status r = StatusActive)
                              then TotalPrice r else 0))%float)
            (all_rows w) 0%float.

(** [SELECT mp.name, COUNT( * ) ... WHERE s.status = 'active' GROUP BY mp.name],
    read into a [map[string]int]. *)
Definition subscriptions_by_plan (w : World) : gmap string Z :=
  foldr (λ d m, <[MealPlan.Name (Plan d) :=
                    default 0 (m !! MealPlan.Name (Plan d)) + 1]> m)
        ∅
        (List.filter (λ d, bool_decide (Status (Sub d) = StatusActive)) (joined_rows w)).

(** [INTERVAL '1 hour'], instants counting nanoseconds as [time.Time] does. *)
Definition one_hour : Z := 3600 * 1000000000.

(** [COUNT(DISTINCT x)]. *)
Definition count_distinct (xs : list string) : Z :=
  Z.of_nat (size (list_to_set xs : gset string)).

(** The audit query of [GetReactivationsCount]. *)
Definition audit_reactivations (startDate endDate : Time) (rows : list AuditRecord) : Z :=
  count_distinct
    (subscription_id <$>
       List.filter (λ a, String.eqb (action a) "reactivated"
                         && between startDate endDate (created_at a)) rows).

(** Its fallback on the subscriptions table. *)
Definition fallback_reactivations (startDate endDate : Time) (w : World) : Z :=
  count_distinct
    (ID <$>
       List.filter (λ r, bool_decide (Status r = StatusActive)
                         && between startDate endDate (UpdatedAt r)
                         && (CreatedAt r <? startDate)
                         && (CreatedAt r + one_hour <? UpdatedAt r))
         (all_rows w)).

(** [GetReactivationsCount]: the audit query; when it fails (the table may
    be absent) the fallback query. *)
Definition GetReactivationsCount (startDate endDate : Time) : M (Z * option error) :=
  failed <- roundTrip ;
  audit <- gets subscription_audit ;
  match (if failed then None else audit) with
  | Some rows => ret (audit_reactivations startDate endDate rows, None)
  | None =>
      failed <- roundTrip ;
      count <- gets (fallback_reactivations startDate endDate) ;
      if failed then ret (0, Some ErrDriver) else ret (count, None)
  end.

(** [GetSubscriptionStats]: the counts, then the reactivations (an error
    there gives 0), then the counts by plan (an error there leaves the map
    [nil]). *)
Definition GetSubscriptionStats (startDate endDate : Time)
    : M (option SubscriptionStats.t * option error) :=
  failed <- roundTrip ;
  rows <- gets all_rows ;
  revenue <- gets monthly_revenue ;
  if failed then ret (None, Some ErrDriver)
  else
    '(reactivations, err) <- GetReactivationsCount startDate endDate ;
    let reactivations := if present err then 0 else reactivations in
    failed <- roundTrip ;
    byPlan <- gets subscriptions_by_plan ;
    ret (Some {| SubscriptionStats.TotalSubscriptions := count_rows (λ _, true) rows;
                 SubscriptionStats.ActiveSubscriptions :=
                   count_rows (λ r, bool_decide (Status r = StatusActive)) rows;
                 SubscriptionStats.PausedSubscriptions :=
                   count_rows (λ r, bool_decide (Status r = StatusPaused)) rows;
                 SubscriptionStats.CancelledSubscriptions :=
                   count_rows (λ r, bool_decide (Status r = StatusCancelled)) rows;
                 SubscriptionStats.NewSubscriptions :=
                   count_rows (λ r, between startDate endDate (CreatedAt r)) rows;
                 SubscriptionStats.MonthlyRevenue := revenue;
                 SubscriptionStats.Reactivations := reactivations;
                 SubscriptionStats.SubscriptionsByPlan :=
                   if failed then ∅ else byPlan |},
         None).

End SubscriptionRepository.

(** ** internal/api/meal_plans/repository *)

Module MealPlanRepository.

(** [GetByID]: the row under the id, whatever its [is_active]. *)
Definition GetByID (id : string) : M (option MealPlan.t * option error) :=
  failed <- dbCall (SelectMealPlan id) ;
  row <- gets (λ w, meal_plans w !! id) ;
  if failed then ret (None, Some (Wrapf "failed to get meal plan" ErrDriver))
  else match row with
       | None => ret (None, Some ErrMealPlanNotFound)
       | Some mealPlan => ret (Some mealPlan, None)
       end.

End MealPlanRepository.

(** ** internal/api/admin/repository *)

Module AdminRepository.

(** [ForceCancelSubscription]:
    [SET status = 'cancelled', pause_start_date = NULL, pause_end_date = NULL,
     updated_at = $2 WHERE id = $1 AND status != 'cancelled']. *)
Definition ForceCancelSubscription (subscriptionID reason adminComments : string)
    : M (option error) :=
  failed <- dbCall (UpdateForceCancel subscriptionID) ;
  if failed then ret (Some (Wrapf "failed to cancel subscription" ErrDriver))
  else
    row <- gets (λ w, subscriptions w !! subscriptionID) ;
    match row with
    | Some r =>
        if bool_decide (Status r ≠ StatusCancelled) then
          now <- timeNow ;
          _ <- modify (set_subscriptions
                         (insert subscriptionID
                            (set_UpdatedAt now
                               (set_PauseEndDate None
                                  (set_PauseStartDate None
                                     (set_Status StatusCancelled r)))))) ;
          ret None
        else ret (Some (Errorf "subscription not found or already cancelled"))
    | None => ret (Some (Errorf "subscription not found or already cancelled"))
    end.

End AdminRepository.

(** ** internal/api/subscriptions/service *)

Module SubscriptionService.

Import SubscriptionRepository.

Definition convertMealTypesToStrings (mealTypes : list MealType) : list string :=
  map (λ mt, mt) mealTypes.

Definition convertDeliveryDaysToStrings (deliveryDays : list DeliveryDay) : list string :=
  map (λ dd, dd) deliveryDays.

(** [CreateSubscription].  The owner is [ctx.Value("user_id").(string)], a
    type assertion without the comma-ok form: it panics on [nil] and on a
    value of another type. *)
Definition CreateSubscription (ctx : Context) (req : CreateSubscriptionRequest.t)
    : M (outcome (option SubscriptionWithDetails * option error)) :=
  match Utils.ValidateMealTypes
          (convertMealTypesToStrings (CreateSubscriptionRequest.MealTypes req)) with
  | Some _ => ret (Returned (None, Some ErrInvalidMealTypes))
  | None =>
  match Utils.ValidateDeliveryDays
          (convertDeliveryDaysToStrings (CreateSubscriptionRequest.DeliveryDays req)) with
  | Some _ => ret (Returned (None, Some ErrInvalidDeliveryDays))
  | None =>
    '(mealPlan, err) <- MealPlanRepository.GetByID (CreateSubscriptionRequest.MealPlanID req) ;
    match err, mealPlan with
    | Some _, _ => ret (Returned (None, Some ErrInvalidMealPlan))
    | None, None => ret (Returned (None, Some ErrInvalidMealPlan))
    | None, Some mealPlan =>
        let totalPrice :=
          Utils.CalculateSubscriptionPrice (MealPlan.Price mealPlan)
            (convertMealTypesToStrings (CreateSubscriptionRequest.MealTypes req))
            (convertDeliveryDaysToStrings (CreateSubscriptionRequest.DeliveryDays req)) in
        subscriptionID <- GenerateULID ;
        match Value ctx "user_id" with
        | Some (AnyString userID) =>
            now <- timeNow ;
            let subscription :=
              {| ID := subscriptionID;
                 UserID := userID;
                 MealPlanID := CreateSubscriptionRequest.MealPlanID req;
                 MealTypes := CreateSubscriptionRequest.MealTypes req;
                 DeliveryDays := CreateSubscriptionRequest.DeliveryDays req;
                 Allergies := CreateSubscriptionRequest.Allergies req;
                 TotalPrice := totalPrice;
                 Status := StatusActive;
                 PauseStartDate := None;
                 PauseEndDate := None;
                 CreatedAt := now;
                 UpdatedAt := now |} in
            err <- Create subscription ;
            match err with
            | Some e => ret (Returned (None, Some (Wrapf "failed to create subscription" e)))
            | None =>
                '(subscriptionDetails, err) <- GetByID subscriptionID ;
                match err with
                | Some e =>
                    ret (Returned
                           (None, Some (Wrapf "failed to get subscription details" e)))
                | None => ret (Returned (subscriptionDetails, None))
                end
            end
        | _ => ret Panicked
        end
    end
  end
  end.

Definition ReactivateSubscription (subscriptionID userID : string)
    : M (option SubscriptionWithDetails * option error) :=
  found <- GetSubscriptionByIDForReactivation subscriptionID ;
  match found with
  | inr e => ret (None, Some (Wrapf "failed to get subscription" e))
  | inl subscription =>
      if negb (String.eqb (UserID subscription) userID)
      then ret (None, Some ErrUnauthorizedAccess)
      else if negb (bool_decide (Status subscription = StatusCancelled))
      then ret (None,
                Some (Errorf
                        ("only cancelled subscriptions can be reactivated, current status: "
                         ++ status_string (Status subscription))))
      else
        now <- timeNow ;
        let subscription :=
          set_UpdatedAt now
            (set_PauseEndDate None
               (set_PauseStartDate None (set_Status StatusActive subscription))) in
        err <- Update subscription ;
        match err with
        | Some e => ret (None, Some (Wrapf "failed to reactivate subscription" e))
        | None =>
            '(subscriptionWithDetails, err) <- GetByID subscriptionID ;
            match err with
            | Some _ =>
                '(mealPlan, _) <- MealPlanRepository.GetByID (MealPlanID subscription) ;
                match mealPlan with
                | Some mp => ret (Some {| Sub := subscription; Plan := mp |}, None)
                | None => ret (subscriptionWithDetails, None)
                end
            | None => ret (subscriptionWithDetails, None)
            end
        end
  end.

(** [PauseSubscription].  The date test is
    [startDate.After(endDate) || startDate.Before(time.Now())]. *)
Definition PauseSubscription (subscriptionID userID : string) (startDate endDate : Time)
    : M (option error) :=
  invalid <- (if After startDate endDate then ret true
              else now <- timeNow ; ret (Before startDate now)) ;
  if invalid then ret (Some ErrInvalidPauseDates)
  else
    '(found, err) <- GetByID subscriptionID ;
    match err, found with
    | Some e, _ => ret (Some (Wrapf "failed to get subscription" e))
    | None, None => ret (Some ErrSubscriptionNotFound)
    | None, Some subscription =>
        if negb (String.eqb (UserID (Sub subscription)) userID)
        then ret (Some ErrUnauthorizedAccess)
        else if negb (bool_decide (Status (Sub subscription) = StatusActive))
        then ret (Some ErrSubscriptionCancelled)
        else
          err <- Update (set_PauseEndDate (Some endDate)
                           (set_PauseStartDate (Some startDate)
                              (set_Status StatusPaused (Sub subscription)))) ;
          match err with
          | Some e => ret (Some (Wrapf "failed to pause subscription" e))
          | None => ret None
          end
    end.

Definition ResumeSubscription (subscriptionID userID : string) : M (option error) :=
  '(found, err) <- GetByID subscriptionID ;
  match err, found with
  | Some e, _ => ret (Some (Wrapf "failed to get subscription" e))
  | None, None => ret (Some ErrSubscriptionNotFound)
  | None, Some subscription =>
      if negb (String.eqb (UserID (Sub subscription)) userID)
      then ret (Some ErrUnauthorizedAccess)
      else if negb (bool_decide (Status (Sub subscription) = StatusPaused))
      then ret (Some (Errorf "subscription is not paused"))
      else
        err <- Update (set_PauseEndDate None
                         (set_PauseStartDate None
                            (set_Status StatusActive (Sub subscription)))) ;
        match err with
        | Some e => ret (Some (Wrapf "failed to resume subscription" e))
        | None => ret None
        end
  end.

Definition CancelSubscription (subscriptionID userID : string) : M (option error) :=
  '(found, err) <- GetByID subscriptionID ;
  match err, found with
  | Some e, _ => ret (Some (Wrapf "failed to get subscription" e))
  | None, None => ret (Some ErrSubscriptionNotFound)
  | None, Some subscription =>
      if negb (String.eqb (UserID (Sub subscription)) userID)
      then ret (Some ErrUnauthorizedAccess)
      else if bool_decide (Status (Sub subscription) = StatusCancelled)
      then ret (Some (Errorf "subscription is already cancelled"))
      else
        err <- Update (set_PauseEndDate None
                         (set_PauseStartDate None
                            (set_Status StatusCancelled (Sub subscription)))) ;
        match err with
        | Some e => ret (Some (Wrapf "failed to cancel subscription" e))
        | None => ret None
        end
  end.

(** [UpdateSubscription]: the request is validated as in
    [CreateSubscription]; the status and the pause dates are those read. *)
Definition UpdateSubscription (subscriptionID userID : string)
    (req : CreateSubscriptionRequest.t)
    : M (option SubscriptionWithDetails * option error) :=
  match Utils.ValidateMealTypes
          (convertMealTypesToStrings (CreateSubscriptionRequest.MealTypes req)) with
  | Some _ => ret (None, Some ErrInvalidMealTypes)
  | None =>
  match Utils.ValidateDeliveryDays
          (convertDeliveryDaysToStrings (CreateSubscriptionRequest.DeliveryDays req)) with
  | Some _ => ret (None, Some ErrInvalidDeliveryDays)
  | None =>
    '(found, err) <- GetByID subscriptionID ;
    match err, found with
    | Some e, _ => ret (None, Some (Wrapf "failed to get subscription" e))
    | None, None => ret (None, Some ErrSubscriptionNotFound)
    | None, Some subscription =>
        if negb (String.eqb (UserID (Sub subscription)) userID)
        then ret (None, Some ErrUnauthorizedAccess)
        else if bool_decide (Status (Sub subscription) = StatusCancelled)
        then ret (None, Some (Errorf "cannot update cancelled subscription"))
        else
          '(mealPlan, err) <-
             MealPlanRepository.GetByID (CreateSubscriptionRequest.MealPlanID req) ;
          match err, mealPlan with
          | Some _, _ => ret (None, Some ErrInvalidMealPlan)
          | None, None => ret (None, Some ErrInvalidMealPlan)
          | None, Some mealPlan =>
              let totalPrice :=
                Utils.CalculateSubscriptionPrice (MealPlan.Price mealPlan)
                  (convertMealTypesToStrings (CreateSubscriptionRequest.MealTypes req))
                  (convertDeliveryDaysToStrings
                     (CreateSubscriptionRequest.DeliveryDays req)) in
              let s := Sub subscription in
              err <- Update
                       {| ID := ID s; UserID := UserID s;
                          MealPlanID := CreateSubscriptionRequest.MealPlanID req;
                          MealTypes := CreateSubscriptionRequest.MealTypes req;
                          DeliveryDays := CreateSubscriptionRequest.DeliveryDays req;
                          Allergies := CreateSubscriptionRequest.Allergies req;
                          TotalPrice := totalPrice;
                          Status := Status s;
                          PauseStartDate := PauseStartDate s;
                          PauseEndDate := PauseEndDate s;
                          CreatedAt := CreatedAt s; UpdatedAt := UpdatedAt s |} ;
              match err with
              | Some e => ret (None, Some (Wrapf "failed to update subscription" e))
              | None =>
                  '(updatedSubscription, err) <- GetByID subscriptionID ;
                  match err with
                  | Some e =>
                      ret (None, Some (Wrapf "failed to get updated subscription" e))
                  | None => ret (updatedSubscription, None)
                  end
              end
          end
    end
  end
  end.

(** [ProcessExpiredPauses]: the ids of the expired rows go to
    [BulkUpdateStatus] with [entity.StatusActive]. *)
Definition ProcessExpiredPauses : M (option error) :=
  '(expiredSubscriptions, err) <- GetExpiredSubscriptions ;
  match err with
  | Some e => ret (Some (Wrapf "failed to get expired subscriptions" e))
  | None =>
      if (length expiredSubscriptions =? 0)%nat then ret None
      else
        let ids := map ID expiredSubscriptions in
        err <- BulkUpdateStatus ids StatusActive ;
        match err with
        | Some e => ret (Some (Wrapf "failed to bulk resume subscriptions" e))
        | None => ret None
        end
  end.

Definition GetUserSubscriptions (userID : string)
    : M (list SubscriptionWithDetails * option error) :=
  '(subs, err) <- GetByUserID userID ;
  match err with
  | Some e => ret ([], Some (Wrapf "failed to get user subscriptions" e))
  | None => ret (subs, None)
  end.

Definition GetSubscriptionByID (subscriptionID : string)
    : M (option SubscriptionWithDetails * option error) :=
  '(subscription, err) <- GetByID subscriptionID ;
  match err, subscription with
  | Some e, _ => ret (None, Some (Wrapf "failed to get subscription" e))
  | None, None => ret (None, Some ErrSubscriptionNotFound)
  | None, Some d => ret (Some d, None)
  end.

(** [GetSubscriptionStats]: the repository's statistics, with the
    reactivations counted once more (an error there gives 0). *)
Definition GetSubscriptionStats (startDate endDate : Time)
    : M (outcome (option SubscriptionStatsResponse * option error)) :=
  '(stats, err) <- SubscriptionRepository.GetSubscriptionStats startDate endDate ;
  match err, stats with
  | Some e, _ => ret (Returned (None, Some (Wrapf "failed to get subscription stats" e)))
  | None, None => ret Panicked  (* [stats.TotalSubscriptions] on a nil pointer *)
  | None, Some stats =>
      '(reactivations, err) <- GetReactivationsCount startDate endDate ;
      let reactivations := if present err then 0 else reactivations in
      ret (Returned
             (Some {| TotalSubscriptions := SubscriptionStats.TotalSubscriptions stats;
                      ActiveSubscriptions := SubscriptionStats.ActiveSubscriptions stats;
                      PausedSubscriptions := SubscriptionStats.PausedSubscriptions stats;
                      CancelledSubscriptions :=
                        SubscriptionStats.CancelledSubscriptions stats;
                      MonthlyRevenue := SubscriptionStats.MonthlyRevenue stats;
                      NewSubscriptions := SubscriptionStats.NewSubscriptions stats;
                      Reactivations := reactivations;
                      SubscriptionsByPlan :=
                        SubscriptionStats.SubscriptionsByPlan stats |},
              None))
  end.

End SubscriptionService.

(** ** internal/api/subscriptions/handler *)

(** [calculateSubscriptionGrowth]. *)
Definition calculateSubscriptionGrowth (stats : SubscriptionStatsResponse) : float :=
  if TotalSubscriptions stats =? 0 then 0%float
  else
    let growth :=
      (float64_of_int (wrap64 (NewSubscriptions stats + Reactivations stats))
       / float64_of_int (TotalSubscriptions stats) * 100)%float in
    (float64_of_int (int_of_float64 (growth * 100)) / 100)%float.

(** The handlers, from the point where the request is authenticated
    ([userID] is the id in the token) and its body parsed and validated:
    the HTTP status they answer with. *)
Module SubscriptionHandler.

(** [err.Error()].  The text of a driver error is the driver's own: the
    parameter [driver]. *)
Fixpoint Error (driver : string) (err : error) : string :=
  match err with
  | ErrSubscriptionNotFound => "subscription not found"
  | ErrInvalidMealPlan => "invalid meal plan"
  | ErrInvalidMealTypes => "invalid meal types"
  | ErrInvalidDeliveryDays => "invalid delivery days"
  | ErrSubscriptionAlreadyExists => "subscription already exists"
  | ErrSubscriptionCancelled => "subscription is cancelled"
  | ErrSubscriptionPaused => "subscription is paused"
  | ErrInvalidPauseDates => "invalid pause dates"
  | ErrUnauthorizedAccess => "unauthorized access to subscription"
  | ErrSubscriptionActive => "subscription is already active"
  | ErrInvalidSubscriptionStatus => "invalid subscription status for this operation"
  | ErrInvalidDateRange => "invalid date range provided"
  | ErrSubscriptionUpdateFailed => "failed to update subscription"
  | ErrMealPlanNotFound => "meal plan not found"
  | ErrNoRows => "sql: no rows in result set"
  | ErrDriver => driver
  | Errorf msg => msg
  | Wrapf msg wrapped => msg ++ ": " ++ Error driver wrapped
  end.

(** [errHandler.Handle]: [response.InternalServerError], whatever the
    error. *)
Definition Handle (err : error) : Z := 500.

(** [GetSubscription]: the row is loaded, then its owner compared with the
    caller. *)
Definition GetSubscription (subscriptionID userID : string)
    : M (outcome (Z * option SubscriptionWithDetails)) :=
  '(subscription, err) <- SubscriptionService.GetSubscriptionByID subscriptionID ;
  match err, subscription with
  | Some e, _ => ret (Returned (Handle e, None))
  | None, None => ret Panicked  (* [subscription.UserID] on a nil pointer *)
  | None, Some d =>
      if negb (String.eqb (UserID (Sub d)) userID) then ret (Returned (403, None))
      else ret (Returned (200, Some d))
  end.

(** [ReactivateSubscription]: the errors are told apart by their text. *)
Definition ReactivateSubscription (driver : string) (subscriptionID userID : string)
    : M Z :=
  if String.eqb subscriptionID "" then ret 400
  else
    '(_, err) <- SubscriptionService.ReactivateSubscription subscriptionID userID ;
    match err with
    | Some e =>
        let text := Error driver e in
        if String.eqb text "failed to get subscription: subscription not found"
        then ret 404
        else if String.eqb text
                  "only cancelled subscriptions can be reactivated, current status: active"
        then ret 400
        else if String.eqb text
                  "only cancelled subscriptions can be reactivated, current status: paused"
        then ret 400
        else match e with
             | ErrUnauthorizedAccess => ret 403
             | _ => ret (Handle e)
             end
    | None => ret 200
    end.

(** [GetAllSubscriptions]: [page] and [limit] are read and clamped, and the
    service is asked for the subscriptions of the user [""]. *)
Definition GetAllSubscriptions (page limit : Z)
    : M (Z * list SubscriptionWithDetails) :=
  let page := if page <? 1 then 1 else page in
  let limit := if (limit <? 1) || (100 <? limit) then 10 else limit in
  '(subs, err) <- SubscriptionService.GetUserSubscriptions "" ;
  match err with
  | Some e => ret (Handle e, [])
  | None => ret (200, subs)
  end.

End SubscriptionHandler.

(** ** internal/api/admin/service *)

Module AdminService.

(** The subscription growth of [GetDashboardStatsWithFilter]
    (service.go, the block after the counts are copied from the
    repository's statistics). *)
Definition SubscriptionGrowth (activeSubscriptions newSubscriptions reactivations : Z)
    : float :=
  if 0 <? activeSubscriptions then
    let growthBase := float64_of_int (wrap64 (newSubscriptions + reactivations)) in
    let growth := (growthBase / float64_of_int activeSubscriptions * 100)%float in
    (float64_of_int (int_of_float64 (growth * 100)) / 100)%float
  else 0%float.

(** The revenue growth of [GetDashboardStatsWithFilter], from the revenue
    of the period and that of the period before. *)
Definition RevenueGrowth (monthlyRevenue prevMonthlyRevenue : float) : float :=
  if (0 <? prevMonthlyRevenue)%float then
    let revenueChange := (monthlyRevenue - prevMonthlyRevenue)%float in
    let growth := (revenueChange / prevMonthlyRevenue * 100)%float in
    (float64_of_int (int_of_float64 (growth * 100)) / 100)%float
  else if (0 <? monthlyRevenue)%float then 100%float
  else 0%float.

(** [GetDashboardStatsWithFilter] up to the two growth figures (the counts
    of testimonials and of users that follow read other tables).
    [prevStartDate] is [startDate.AddDate(0, -1, 0)], a date of the
    calendar; the period before ends one nanosecond before [startDate].
    The fields of the debug log written after the revenue growth include
    [prevStats.MonthlyRevenue], which is evaluated also when the query of
    the period before failed and [prevStats] is [nil]. *)
Definition DashboardGrowth (startDate endDate prevStartDate : Time)
    : M (outcome (option (float * float) * option error)) :=
  '(subscriptionStats, err) <-
     SubscriptionRepository.GetSubscriptionStats startDate endDate ;
  match err, subscriptionStats with
  | Some e, _ => ret (Returned (None, Some e))
  | None, None => ret Panicked  (* [subscriptionStats.TotalSubscriptions] on nil *)
  | None, Some stats =>
      let subscriptionGrowth :=
        SubscriptionGrowth
          (SubscriptionRepository.SubscriptionStats.ActiveSubscriptions stats)
          (SubscriptionRepository.SubscriptionStats.NewSubscriptions stats)
          (SubscriptionRepository.SubscriptionStats.Reactivations stats) in
      '(prevStats, err) <-
         SubscriptionRepository.GetSubscriptionStats prevStartDate (startDate - 1) ;
      match prevStats with
      | None => ret Panicked  (* [prevStats.MonthlyRevenue] on nil *)
      | Some prevStats =>
          let revenueGrowth :=
            if present err then 0%float
            else RevenueGrowth
                   (SubscriptionRepository.SubscriptionStats.MonthlyRevenue stats)
                   (SubscriptionRepository.SubscriptionStats.MonthlyRevenue prevStats) in
          ret (Returned (Some (subscriptionGrowth, revenueGrowth), None))
      end
  end.

End AdminService.

(** ** What the specification asks for, in its own words *)

(** Data model, pause dates: "both null, or both set with
    [pauseStartDate < pauseEndDate]; set only while paused, cleared on any
    other status". *)
Definition pause_dates_ok (s : Subscription) : bool :=
  match PauseStartDate s, PauseEndDate s with
  | None, None => true
  | Some b, Some e => (b <? e) && bool_decide (Status s = StatusPaused)
  | _, _ => false
  end.

(** Audit log writer, action label: "reactivated when old=cancelled and
    new=active; resumed when old=paused and new=active; paused when
    new=paused; cancelled when new=cancelled; else updated". *)
Definition spec_action_label (oldStatus : string) (newStatus : SubscriptionStatus)
    : string :=
  if String.eqb oldStatus "cancelled" && bool_decide (newStatus = StatusActive)
  then "reactivated"
  else if String.eqb oldStatus "paused" && bool_decide (newStatus = StatusActive)
  then "resumed"
  else if bool_decide (newStatus = StatusPaused) then "paused"
  else if bool_decide (newStatus = StatusCancelled) then "cancelled"
  else "updated".

(** Rounding a [float64] to the nearest integer, halves away from zero
    ([math.Round]), for the specification's "rounded to 2 decimals". *)
Definition round_float64 (f : float) : Z :=
  match Prim2SF f with
  | S754_finite s m e =>
      let v := if 0 <=? e then Z.shiftl (Z.pos m) e
               else Z.shiftr (Z.pos m) (- e)
                    + Z.b2z (Z.testbit (Z.pos m) (- e - 1)) in
      if s then - v else v
  | _ => 0
  end.

(** Stats aggregator, growth percentage:
    "(newInPeriod + reactivationsInPeriod) / activeCount x 100, rounded to
    2 decimals, 0 when activeCount == 0". *)
Definition spec_growth (stats : SubscriptionStatsResponse) : float :=
  if ActiveSubscriptions stats =? 0 then 0%float
  else
    let growth :=
      (float64_of_int (NewSubscriptions stats + Reactivations stats)
       / float64_of_int (ActiveSubscriptions stats) * 100)%float in
    (float64_of_int (round_float64 (growth * 100)) / 100)%float.

(** ** Sample data *)

Module Sample.

Definition plan (active : bool) : MealPlan.t :=
  {| MealPlan.ID := "plan-diet"; MealPlan.Name := "Diet Plan";
     MealPlan.Description := "Balanced low-calorie meals";
     MealPlan.Price := 30000%float; MealPlan.ImageURL := "";
     MealPlan.Features := ["low calorie"]; MealPlan.IsActive := active;
     MealPlan.CreatedAt := 0; MealPlan.UpdatedAt := 0 |}.

(** A store with the tables [subs] and [plans], an empty audit table, no
    faults ahead, the clock at 1000 and one ULID to hand out. *)
Definition store (subs : gmap string Subscription) (plans : gmap string MealPlan.t)
    : World :=
  {| subscriptions := subs; meal_plans := plans; subscription_audit := Some [];
     issued := []; faults := []; clock := 1000; ulids := ["01SUB"] |}.

Definition empty_store : World := store ∅ {[ "plan-diet" := plan true ]}.

Definition request (mealTypes : list MealType) : CreateSubscriptionRequest.t :=
  {| CreateSubscriptionRequest.Name := "Ann";
     CreateSubscriptionRequest.PhoneNumber := "";
     CreateSubscriptionRequest.MealPlanID := "plan-diet";
     CreateSubscriptionRequest.MealTypes := mealTypes;
     CreateSubscriptionRequest.DeliveryDays := [DayMonday; DayWednesday; DayFriday];
     CreateSubscriptionRequest.Allergies := "" |}.

Definition ctx_user : Context := WithValue ∅ "user_id" (AnyString "user-1").

(** A subscription of user-1 in a given status, with a given pause window. *)
Definition sub (id : string) (status : SubscriptionStatus) (pause : option (Time * Time))
    : Subscription :=
  {| ID := id; UserID := "user-1"; MealPlanID := "plan-diet";
     MealTypes := [MealTypeBreakfast; MealTypeLunch];
     DeliveryDays := [DayMonday; DayWednesday; DayFriday];
     Allergies := ""; TotalPrice := 774000%float; Status := status;
     PauseStartDate := fst <$> pause; PauseEndDate := snd <$> pause;
     CreatedAt := 10; UpdatedAt := 10 |}.

Definition one_sub (status : SubscriptionStatus) (pause : option (Time * Time)) : World :=
  store {[ "sub-1" := sub "sub-1" status pause ]} {[ "plan-diet" := plan true ]}.

Definition stats (total active new reactivations : Z) : SubscriptionStatsResponse :=
  {| TotalSubscriptions := total; ActiveSubscriptions := active;
     PausedSubscriptions := 0; CancelledSubscriptions := total - active;
     MonthlyRevenue := 0%float; NewSubscriptions := new;
     Reactivations := reactivations; SubscriptionsByPlan := ∅ |}.

Definition royal : MealPlan.t :=
  {| MealPlan.ID := "plan-royal"; MealPlan.Name := "Royal Plan";
     MealPlan.Description := "Chef's selection";
     MealPlan.Price := 60000%float; MealPlan.ImageURL := "";
     MealPlan.Features := ["premium"]; MealPlan.IsActive := true;
     MealPlan.CreatedAt := 0; MealPlan.UpdatedAt := 0 |}.

(** The active subscription sub-1 of user-1 to plan-diet, and two plans. *)
Definition two_plans : World :=
  store {[ "sub-1" := sub "sub-1" StatusActive None ]}
    (<["plan-royal" := royal]> {[ "plan-diet" := plan true ]}).

(** A request that names plan-royal. *)
Definition request_royal : CreateSubscriptionRequest.t :=
  {| CreateSubscriptionRequest.Name := "Ann";
     CreateSubscriptionRequest.PhoneNumber := "";
     CreateSubscriptionRequest.MealPlanID := "plan-royal";
     CreateSubscriptionRequest.MealTypes := [MealTypeLunch];
     CreateSubscriptionRequest.DeliveryDays := [DayMonday; DayWednesday; DayFriday];
     CreateSubscriptionRequest.Allergies := "peanuts" |}.

(** U+212A KELVIN SIGN and U+0130 LATIN CAPITAL LETTER I WITH DOT ABOVE, in
    UTF-8. *)
Definition kelvin_sign : string := String "226" (String "132" (String "170" "")).
Definition dotted_capital_I : string := String "196" (String "176" "").

(** A request whose meal type is "breakfast" written with U+212A for the
    letter k. *)
Definition kelvin_request : CreateSubscriptionRequest.t :=
  request ["brea" ++ kelvin_sign ++ "fast"].

(** The empty store on which the fifth statement fails: for
    [CreateSubscription] the read that follows the INSERT and its two audit
    statements. *)
Definition read_back_fails : World :=
  set_faults [false; false; false; false; true] empty_store.

(** A store on which the next statement fails. *)
Definition status_read_fails (w : World) : World := set_faults [true] w.

End Sample.

(** ** Vocabulary of the statements *)

Import SubscriptionRepository SubscriptionService.

(** A row [BulkUpdateStatus] rewrites keeps everything but its status and
    [updated_at]. *)
Definition bulk_row (ids : list string) (status : SubscriptionStatus) (now : Time)
    (r : Subscription) : Subscription :=
  if bool_decide (ID r ∈ ids) then set_UpdatedAt now (set_Status status r) else r.

(** The statements [LogSubscriptionAction] sends. *)
Definition is_audit_stmt (s : stmt) : bool :=
  match s with
  | SelectAuditTableExists | InsertSubscriptionAudit _ => true
  | _ => false
  end.

(** The audit statements among those sent so far. *)
Definition audit_stmts (w : World) : list stmt := List.filter is_audit_stmt (issued w).

(** The row [LogSubscriptionAction] inserts. *)
Definition audit_row (subscriptionID userID act oldStatus newStatus : string)
    (now : Time) : AuditRecord :=
  {| audit_id := (subscriptionID, now); subscription_id := subscriptionID;
     user_id := userID; old_status := oldStatus; new_status := newStatus;
     action := act; created_at := now |}.

(** The row the UPDATE of [Update] leaves under the id. *)
Definition updated_row (subscription r : Subscription) (now : Time) : Subscription :=
  {| ID := ID r; UserID := UserID r; MealPlanID := MealPlanID r;
     MealTypes := MealTypes subscription; DeliveryDays := DeliveryDays subscription;
     Allergies := Allergies subscription; TotalPrice := TotalPrice subscription;
     Status := Status subscription;
     PauseStartDate := PauseStartDate subscription;
     PauseEndDate := PauseEndDate subscription;
     CreatedAt := CreatedAt r; UpdatedAt := now |}.

(** The hundredths [calculateSubscriptionGrowth] keeps for [n] new and
    reactivated subscriptions out of [t]: [int(growth * 100)]. *)
Definition growth_hundredths (n t : Z) : Z :=
  int_of_float64 (float64_of_int n / float64_of_int t * 100 * 100)%float.

(** Whether the hundredths kept are the exact quotient's, or one less. *)
Definition near_truncation (n t : Z) : bool :=
  let c := growth_hundredths n t in
  let e := 10000 * n / t in
  (c =? e) || (c =? e - 1).

(** The integers from 0 to [k]. *)
Definition upto (k : nat) : list Z := map Z.of_nat (seq 0 (S k)).

(** The entity [CreateSubscription] builds. *)
Definition new_subscription (id userID : string) (req : CreateSubscriptionRequest.t)
    (planPrice : float) (now : Time) : Subscription :=
  {| ID := id; UserID := userID;
     MealPlanID := CreateSubscriptionRequest.MealPlanID req;
     MealTypes := CreateSubscriptionRequest.MealTypes req;
     DeliveryDays := CreateSubscriptionRequest.DeliveryDays req;
     Allergies := CreateSubscriptionRequest.Allergies req;
     TotalPrice :=
       Utils.CalculateSubscriptionPrice planPrice
         (convertMealTypesToStrings (CreateSubscriptionRequest.MealTypes req))
         (convertDeliveryDaysToStrings (CreateSubscriptionRequest.DeliveryDays req));
     Status := StatusActive; PauseStartDate := None; PauseEndDate := None;
     CreatedAt := now; UpdatedAt := now |}.

(** The context carries no string under "user_id". *)
Definition no_user_id (ctx : Context) : Prop :=
  forall userID, Value ctx "user_id" <> Some (AnyString userID).

(** The tests [CreateSubscription] makes before it reads the context. *)
Definition reaches_owner_lookup (req : CreateSubscriptionRequest.t) (w : World) : Prop :=
  Utils.ValidateMealTypes
    (convertMealTypesToStrings (CreateSubscriptionRequest.MealTypes req)) = None
  /\ Utils.ValidateDeliveryDays
       (convertDeliveryDaysToStrings (CreateSubscriptionRequest.DeliveryDays req)) = None
  /\ fault_at 0 w = false
  /\ is_Some (meal_plans w !! CreateSubscriptionRequest.MealPlanID req).

(** The primary key: every row is filed under its own id. *)
Definition keyed (w : World) : Prop :=
  forall k r, subscriptions w !! k = Some r -> ID r = k.

(** Whether [CalculateTotalPages] is the exact number of pages. *)
Definition total_pages_exact (totalItems limit : Z) : bool :=
  Utils.CalculateTotalPages totalItems limit =? (totalItems + limit - 1) / limit.

(** The row a status change leaves: the new status, the new pause window,
    and [updated_at]; every other column as it was. *)
Definition moved_row (status : SubscriptionStatus) (pause : option (Time * Time))
    (now : Time) (r : Subscription) : Subscription :=
  set_UpdatedAt now
    (set_PauseEndDate (snd <$> pause)
       (set_PauseStartDate (fst <$> pause) (set_Status status r))).

(** The row [UpdateSubscription] leaves. *)
Definition edited_row (req : CreateSubscriptionRequest.t) (planPrice : float)
    (now : Time) (r : Subscription) : Subscription :=
  {| ID := ID r; UserID := UserID r; MealPlanID := MealPlanID r;
     MealTypes := CreateSubscriptionRequest.MealTypes req;
     DeliveryDays := CreateSubscriptionRequest.DeliveryDays req;
     Allergies := CreateSubscriptionRequest.Allergies req;
     TotalPrice :=
       Utils.CalculateSubscriptionPrice planPrice
         (convertMealTypesToStrings (CreateSubscriptionRequest.MealTypes req))
         (convertDeliveryDaysToStrings (CreateSubscriptionRequest.DeliveryDays req));
     Status := Status r;
     PauseStartDate := PauseStartDate r; PauseEndDate := PauseEndDate r;
     CreatedAt := CreatedAt r; UpdatedAt := now |}.

(** The entity [UpdateSubscription] hands to [Update]. *)
Definition edited_entity (req : CreateSubscriptionRequest.t) (planPrice : float)
    (s : Subscription) : Subscription :=
  {| ID := ID s; UserID := UserID s;
     MealPlanID := CreateSubscriptionRequest.MealPlanID req;
     MealTypes := CreateSubscriptionRequest.MealTypes req;
     DeliveryDays := CreateSubscriptionRequest.DeliveryDays req;
     Allergies := CreateSubscriptionRequest.Allergies req;
     TotalPrice :=
       Utils.CalculateSubscriptionPrice planPrice
         (convertMealTypesToStrings (CreateSubscriptionRequest.MealTypes req))
         (convertDeliveryDaysToStrings (CreateSubscriptionRequest.DeliveryDays req));
     Status := Status s;
     PauseStartDate := PauseStartDate s; PauseEndDate := PauseEndDate s;
     CreatedAt := CreatedAt s; UpdatedAt := UpdatedAt s |}.

(** The store at a later reading of the clock. *)
Definition set_clock (t : Time) (w : World) : World :=
  {| subscriptions := subscriptions w; meal_plans := meal_plans w;
     subscription_audit := subscription_audit w; issued := issued w;
     faults := faults w; clock := t; ulids := ulids w |}.

(** What a call leaves of the store when no statement fails. *)
Record leaves (w' : World) (subs : gmap string Subscription)
    (audit : option (list AuditRecord)) (w : World) : Prop := {
  leaves_subscriptions : subscriptions w' = subs;
  leaves_audit : subscription_audit w' = audit;
  leaves_meal_plans : meal_plans w' = meal_plans w;
  leaves_clock : clock w' = clock w;
  leaves_faults : faults w' = []
}.

(** The audit table with one more row, if the table exists. *)
Definition append_row (r : AuditRecord) (audit : option (list AuditRecord))
    : option (list AuditRecord) :=
  (λ rows, (rows ++ [r])%list) <$> audit.

(** The audit row of a status change. *)
Definition transition_audit (subscriptionID userID act : string)
    (old new : SubscriptionStatus) (now : Time) : AuditRecord :=
  audit_row subscriptionID userID act (status_string old) (status_string new) now.

(** [m] keeps every row filed under its own id. *)
Definition keeps_keys {A : Type} (m : M A) : Prop :=
  forall w, keyed w -> keyed (snd (m w)).

(** What the bulk resume makes of a row at time [now]. *)
Definition resumed_if_expired (now : Time) (r : Subscription) : Subscription :=
  if expired now r then set_UpdatedAt now (set_Status StatusActive r) else r.

(** The three tables of [w'] are those of [w]. *)
Definition same_tables (w' w : World) : Prop :=
  subscriptions w' = subscriptions w
  /\ subscription_audit w' = subscription_audit w
  /\ meal_plans w' = meal_plans w.

(** The count [GetSubscriptionStats] keeps from [GetReactivationsCount]. *)
Definition reactivations_or_zero (result : Z * option error) : Z :=
  if present (snd result) then 0 else fst result.

(** The tables and the clock of [w'] are those of [w]. *)
Definition read_only (w' w : World) : Prop :=
  subscriptions w' = subscriptions w /\ meal_plans w' = meal_plans w
  /\ subscription_audit w' = subscription_audit w /\ clock w' = clock w.

(** The subscriptions with a "reactivated" audit row in the period. *)
Definition reactivated_in (startDate endDate : Time) (rows : list AuditRecord)
    : gset string :=
  list_to_set
    (subscription_id <$>
       List.filter (λ a, String.eqb (action a) "reactivated"
                         && between startDate endDate (created_at a)) rows).

(** The subscriptions the fallback query of [GetReactivationsCount] counts. *)
Definition fallback_ids (startDate endDate : Time) (w : World) : gset string :=
  list_to_set
    (ID <$>
       List.filter (λ r, bool_decide (Status r = StatusActive)
                         && between startDate endDate (UpdatedAt r)
                         && (CreatedAt r <? startDate)
                         && (CreatedAt r + one_hour <? UpdatedAt r))
         (all_rows w)).

(** What [GetReactivationsCount] gives, an error counted as 0, when its
    audit query is statement [n] from now: the count of the audit table,
    or, when that query fails or the table is absent, the count of the
    fallback query, statement [n + 1]. *)
Definition reactivations_from (n : nat) (startDate endDate : Time) (w : World) : Z :=
  match (if fault_at n w then None else subscription_audit w) with
  | Some rows => audit_reactivations startDate endDate rows
  | None =>
      if fault_at (S n) w then 0 else fallback_reactivations startDate endDate w
  end.

(** The number of statements that call sends: one if the audit query
    answers, two with the fallback. *)
Definition reactivation_queries (n : nat) (w : World) : nat :=
  if fault_at n w || negb (present (subscription_audit w)) then 2%nat else 1%nat.

(** * Properties *)

(** ** Running the monadic code *)

Ltac mred :=
  cbv beta iota zeta;
  cbn [fst snd subscriptions meal_plans subscription_audit issued faults clock
       ulids send set_subscriptions set_subscription_audit set_ulids set_meal_plans
       set_faults present negb orb andb].

(** Unfolding the monad's combinators, the store primitives and the
    repository methods down to the tables they read and write. *)
Ltac run :=
  cbv [bind ret gets modify skip dbCall timeNow GenerateULID
       LogSubscriptionAction Create GetByID Update BulkUpdateStatus
       GetExpiredSubscriptions GetSubscriptionByIDForReactivation
       MealPlanRepository.GetByID AdminRepository.ForceCancelSubscription];
  mred.

(** One case distinction on the outermost test the code makes next. *)
Ltac mcase :=
  match goal with
  | |- context [if ?c then _ else _] => destruct c eqn:?
  | |- context [match ?x with _ => _ end] => destruct x eqn:?
  end; mred.

Lemma fault_at_0 w : hd false (faults w) = fault_at 0 w.
Proof. reflexivity. Qed.

Lemma fault_at_1 w : hd false (tail (faults w)) = fault_at 1 w.
Proof. unfold fault_at. by destruct (faults w). Qed.

(** ** The audit writer *)

Lemma LogSubscriptionAction_nil subscriptionID userID act oldStatus newStatus w :
  fst (LogSubscriptionAction subscriptionID userID act oldStatus newStatus w) = None.
Proof. run. repeat mcase; done. Qed.

(** The audit writer touches the audit table only. *)
Lemma LogSubscriptionAction_frame subscriptionID userID act oldStatus newStatus w :
  let w' := snd (LogSubscriptionAction subscriptionID userID act oldStatus newStatus w) in
  subscriptions w' = subscriptions w /\ meal_plans w' = meal_plans w
  /\ clock w' = clock w /\ ulids w' = ulids w.
Proof. run. repeat mcase; done. Qed.

(** The result of [Update] is decided by the UPDATE statement alone. *)
Lemma Update_result sub w :
  fst (Update sub w)
  = if fault_at 1 w then Some ErrDriver
    else match subscriptions w !! ID sub with
         | None => Some ErrNoRows
         | Some _ => None
         end.
Proof. rewrite <- fault_at_1. run. repeat mcase; done. Qed.

(** The result of [Create] is decided by the INSERT statement alone. *)
Lemma Create_result sub w :
  fst (Create sub w)
  = if fault_at 0 w || present (subscriptions w !! ID sub)
    then Some ErrDriver else None.
Proof. rewrite <- fault_at_0. run. repeat mcase; done. Qed.

(** ** Pausing *)

Lemma joined_row_send s w id : joined_row (send s w) id = joined_row w id.
Proof. reflexivity. Qed.

(** What [PauseSubscription] returns, test by test. *)
Lemma PauseSubscription_result subscriptionID userID startDate endDate w :
  fst (PauseSubscription subscriptionID userID startDate endDate w)
  = if (endDate <? startDate) || (startDate <? clock w) then Some ErrInvalidPauseDates
    else if fault_at 0 w then Some (Wrapf "failed to get subscription" ErrDriver)
    else match joined_row w subscriptionID with
         | None => Some ErrSubscriptionNotFound
         | Some d =>
             if negb (String.eqb (UserID (Sub d)) userID) then Some ErrUnauthorizedAccess
             else if negb (bool_decide (Status (Sub d) = StatusActive))
             then Some ErrSubscriptionCancelled
             else match fst (Update (set_PauseEndDate (Some endDate)
                                       (set_PauseStartDate (Some startDate)
                                          (set_Status StatusPaused (Sub d))))
                               (send (SelectSubscriptionJoinPlan subscriptionID) w)) with
                  | Some e => Some (Wrapf "failed to pause subscription" e)
                  | None => None
                  end
         end.
Proof.
  cbv [PauseSubscription After Before GetByID bind ret gets timeNow dbCall].
  mred. rewrite <- fault_at_0.
  destruct (endDate <? startDate); mred.
  - done.
  - destruct (startDate <? clock w); mred; [done|].
    destruct (hd false (faults w)); mred; [done|].
    rewrite joined_row_send.
    destruct (joined_row w subscriptionID) as [d|]; mred; [|done].
    destruct (negb (String.eqb (UserID (Sub d)) userID)); mred; [done|].
    destruct (negb (bool_decide (Status (Sub d) = StatusActive))); mred; [done|].
    match goal with |- context [Update ?s ?w0] => destruct (Update s w0) as [[e|] w1] end;
      done.
Qed.

(** A request the date test refuses leaves before the store is touched. *)
Lemma PauseSubscription_rejected subscriptionID userID startDate endDate w :
  (endDate <? startDate) || (startDate <? clock w) = true ->
  PauseSubscription subscriptionID userID startDate endDate w
  = (Some ErrInvalidPauseDates, w).
Proof.
  cbv [PauseSubscription After Before bind ret gets timeNow]. mred.
  destruct (endDate <? startDate); mred; [done|].
  destruct (startDate <? clock w); mred; done.
Qed.

Lemma PauseSubscription_invalid_dates_iff subscriptionID userID startDate endDate w :
  fst (PauseSubscription subscriptionID userID startDate endDate w)
  = Some ErrInvalidPauseDates
  <-> endDate < startDate \/ startDate < clock w.
Proof.
  rewrite PauseSubscription_result.
  destruct (endDate <? startDate) eqn:Hse; cbn [orb].
  { apply Z.ltb_lt in Hse. by split; [left|]. }
  destruct (startDate <? clock w) eqn:Hnow.
  { apply Z.ltb_lt in Hnow. by split; [right|]. }
  apply Z.ltb_ge in Hse, Hnow.
  split; [|lia].
  repeat case_match; done.
Qed.

(** C3: [PauseSubscription] answers [ErrInvalidPauseDates] exactly when
    the start lies after the end or before the clock, and then the store is
    as it was.  A start equal to the end (and a start equal to the clock)
    is therefore not refused by the date test: on an active subscription of
    the caller the request with start = end = 2000 at clock 1000 goes
    through to the UPDATE, and is stored when the store accepts the
    statement; when the store refuses it (third statement failing, as under
    the schema's check [pause_end_date > pause_start_date]) the answer is
    the wrapped storage error, not [ErrInvalidPauseDates]. *)
Theorem C3_pause_date_test :
  (forall subscriptionID userID startDate endDate w,
      fst (PauseSubscription subscriptionID userID startDate endDate w)
      = Some ErrInvalidPauseDates
      <-> endDate < startDate \/ startDate < clock w)
  /\ (forall subscriptionID userID startDate endDate w,
        fst (PauseSubscription subscriptionID userID startDate endDate w)
        = Some ErrInvalidPauseDates ->
        snd (PauseSubscription subscriptionID userID startDate endDate w) = w)
  /\ (forall subscriptionID userID t w,
        clock w <= t ->
        fst (PauseSubscription subscriptionID userID t t w) <> Some ErrInvalidPauseDates)
  /\ (let '(err, w') :=
         PauseSubscription "sub-1" "user-1" 2000 2000
           (Sample.one_sub StatusActive None) in
       err = None
       /\ subscriptions w' !! "sub-1"
          = Some (set_UpdatedAt 1000
                    (Sample.sub "sub-1" StatusPaused (Some (2000, 2000)))))
  /\ (let '(err, w') :=
         PauseSubscription "sub-1" "user-1" 2000 2000
           (set_faults [false; false; true] (Sample.one_sub StatusActive None)) in
       err = Some (Wrapf "failed to pause subscription" ErrDriver)
       /\ subscriptions w' !! "sub-1" = Some (Sample.sub "sub-1" StatusActive None)).
Proof.
  split; [exact PauseSubscription_invalid_dates_iff|].
  split.
  { intros sid uid s e w H. apply PauseSubscription_invalid_dates_iff in H.
    rewrite PauseSubscription_rejected; [done|].
    apply orb_true_iff. destruct H; [left|right]; by apply Z.ltb_lt. }
  split.
  { intros sid uid t w Hle H. apply PauseSubscription_invalid_dates_iff in H. lia. }
  split; vm_compute; done.
Qed.

(** The theorem at start = end = 2000 with the clock at 1000 (not refused
    by the date test), and at a start of 999 (refused, store unchanged). *)
Lemma C3_pause_date_test_witness :
  fst (PauseSubscription "sub-1" "user-1" 2000 2000 (Sample.one_sub StatusActive None))
  <> Some ErrInvalidPauseDates
  /\ snd (PauseSubscription "sub-1" "user-1" 999 2000 (Sample.one_sub StatusActive None))
     = Sample.one_sub StatusActive None.
Proof.
  split.
  - apply (proj1 (proj2 (proj2 C3_pause_date_test))). vm_compute. discriminate.
  - apply (proj1 (proj2 C3_pause_date_test)). vm_compute. reflexivity.
Defined.

(** ** Pausing a subscription that is not active *)

(** C4: whatever the request and the store, [PauseSubscription] never
    answers [ErrSubscriptionPaused]; a paused subscription of the caller and
    a cancelled one both get [ErrSubscriptionCancelled], whose message is
    "This subscription has been cancelled". *)
Theorem C4_pause_non_active_same_error :
  (forall subscriptionID userID startDate endDate w,
      fst (PauseSubscription subscriptionID userID startDate endDate w)
      <> Some ErrSubscriptionPaused)
  /\ fst (PauseSubscription "sub-1" "user-1" 2000 3000
            (Sample.one_sub StatusPaused (Some (1100, 1200))))
     = Some ErrSubscriptionCancelled
  /\ fst (PauseSubscription "sub-1" "user-1" 2000 3000
            (Sample.one_sub StatusCancelled None))
     = Some ErrSubscriptionCancelled
  /\ GetErrorMessage ErrSubscriptionCancelled = "This subscription has been cancelled"
  /\ GetHTTPStatusCode ErrSubscriptionCancelled = 500.
Proof.
  split.
  { intros sid uid s e w. rewrite PauseSubscription_result.
    repeat case_match; done. }
  repeat split; vm_compute; done.
Qed.

(** ** The bulk resume of [ProcessExpiredPauses] *)

Lemma BulkUpdateStatus_run ids status w :
  BulkUpdateStatus ids status w
  = if (length ids =? 0)%nat then (None, w)
    else if fault_at 0 w then (Some ErrDriver, send (UpdateStatusWhereIdAny ids status) w)
    else (None, set_subscriptions (fmap (bulk_row ids status (clock w)))
                  (send (UpdateStatusWhereIdAny ids status) w)).
Proof.
  rewrite <- fault_at_0. run. repeat mcase; try done.
Qed.

Lemma GetExpiredSubscriptions_run w :
  GetExpiredSubscriptions w
  = (if fault_at 0 w then ([], Some ErrDriver)
     else (List.filter (expired (clock w)) (snd <$> map_to_list (subscriptions w)), None),
     send SelectExpiredSubscriptions w).
Proof. rewrite <- fault_at_0. run. by repeat mcase. Qed.

(** Every row that meets the condition of the expiry query is in the list
    the query returns. *)
Lemma expired_row_listed w id r :
  subscriptions w !! id = Some r -> expired (clock w) r = true ->
  r ∈ List.filter (expired (clock w)) (snd <$> map_to_list (subscriptions w)).
Proof.
  intros Hr He. apply list_elem_of_In, filter_In. split; [|done].
  apply list_elem_of_In, list_elem_of_fmap. exists (id, r). split; [done|].
  by apply elem_of_map_to_list.
Qed.

Lemma fault_at_send n s w : fault_at n (send s w) = fault_at (S n) w.
Proof.
  unfold fault_at. cbn [faults send].
  destruct (faults w); cbn; [by destruct n|done].
Qed.

Lemma fault_at_set_subscriptions n f w : fault_at n (set_subscriptions f w) = fault_at n w.
Proof. reflexivity. Qed.

(** What [ProcessExpiredPauses] does when neither statement fails. *)
Lemma ProcessExpiredPauses_run w :
  fault_at 0 w = false -> fault_at 1 w = false ->
  let rows := List.filter (expired (clock w)) (snd <$> map_to_list (subscriptions w)) in
  ProcessExpiredPauses w
  = if (length rows =? 0)%nat then (None, send SelectExpiredSubscriptions w)
    else (None,
          set_subscriptions (fmap (bulk_row (map ID rows) StatusActive (clock w)))
            (send (UpdateStatusWhereIdAny (map ID rows) StatusActive)
               (send SelectExpiredSubscriptions w))).
Proof.
  intros H0 H1 rows. unfold ProcessExpiredPauses, bind, ret.
  rewrite GetExpiredSubscriptions_run, H0. fold rows.
  destruct (length rows =? 0)%nat eqn:Hlen; [done|].
  rewrite BulkUpdateStatus_run, fault_at_send, H1, length_map, Hlen. done.
Qed.

(** C2: when [ProcessExpiredPauses] runs without a storage fault, every
    paused row whose pause end has passed comes out with status active and
    with both pause dates as they were; the row then breaks the rule that
    pause dates are set only while paused. *)
Theorem C2_bulk_resume_leaves_pause_dates w id r :
  fault_at 0 w = false -> fault_at 1 w = false ->
  subscriptions w !! id = Some r -> ID r = id ->
  expired (clock w) r = true ->
  fst (ProcessExpiredPauses w) = None
  /\ exists r',
      subscriptions (snd (ProcessExpiredPauses w)) !! id = Some r'
      /\ Status r' = StatusActive
      /\ PauseStartDate r' = PauseStartDate r
      /\ PauseEndDate r' = PauseEndDate r
      /\ PauseEndDate r' <> None
      /\ pause_dates_ok r' = false.
Proof.
  intros H0 H1 Hr Hid He.
  pose proof (expired_row_listed w id r Hr He) as Hin.
  rewrite (ProcessExpiredPauses_run w H0 H1).
  set (rows := List.filter _ _) in *.
  destruct (length rows =? 0)%nat eqn:Hlen.
  { apply Nat.eqb_eq in Hlen. destruct rows; [by apply elem_of_nil in Hin|done]. }
  split; [done|]. cbn [snd subscriptions set_subscriptions send].
  rewrite lookup_fmap, Hr. cbn [fmap option_fmap option_map].
  eexists. split; [done|].
  assert (ID r ∈ map ID rows) as Hmem.
  { apply list_elem_of_In, in_map. by apply list_elem_of_In. }
  unfold bulk_row. rewrite bool_decide_eq_true_2 by done.
  assert (exists e, PauseEndDate r = Some e) as [e Hend].
  { unfold expired in He. destruct (PauseEndDate r); [by eexists|].
    by rewrite andb_false_r in He. }
  cbn [Status PauseStartDate PauseEndDate set_UpdatedAt set_Status].
  repeat split; try done.
  - by rewrite Hend.
  - unfold pause_dates_ok.
    cbn [Status PauseStartDate PauseEndDate set_UpdatedAt set_Status].
    rewrite Hend. destruct (PauseStartDate r); [|done].
    by rewrite andb_false_r.
Qed.

(** The theorem at a store with one subscription paused from 100 to 200,
    the clock at 1000. *)
Lemma C2_bulk_resume_witness :
  fst (ProcessExpiredPauses (Sample.one_sub StatusPaused (Some (100, 200)))) = None
  /\ exists r',
      subscriptions (snd (ProcessExpiredPauses (Sample.one_sub StatusPaused (Some (100, 200)))))
        !! "sub-1" = Some r'
      /\ Status r' = StatusActive
      /\ PauseStartDate r' = PauseStartDate (Sample.sub "sub-1" StatusPaused (Some (100, 200)))
      /\ PauseEndDate r' = PauseEndDate (Sample.sub "sub-1" StatusPaused (Some (100, 200)))
      /\ PauseEndDate r' <> None
      /\ pause_dates_ok r' = false.
Proof.
  apply (C2_bulk_resume_leaves_pause_dates
           (Sample.one_sub StatusPaused (Some (100, 200))) "sub-1"
           (Sample.sub "sub-1" StatusPaused (Some (100, 200))));
    vm_compute; reflexivity.
Defined.

(** ** Which transitions reach the audit writer *)

Lemma audit_stmts_send s w :
  audit_stmts (send s w) = (audit_stmts w ++ (if is_audit_stmt s then [s] else []))%list.
Proof.
  unfold audit_stmts. cbn [issued send]. rewrite List.filter_app. cbn [List.filter].
  by destruct (is_audit_stmt s).
Qed.

Lemma BulkUpdateStatus_no_audit ids status w :
  subscription_audit (snd (BulkUpdateStatus ids status w)) = subscription_audit w
  /\ audit_stmts (snd (BulkUpdateStatus ids status w)) = audit_stmts w.
Proof.
  rewrite BulkUpdateStatus_run. unfold audit_stmts.
  repeat case_match; cbn [snd subscription_audit issued send set_subscriptions];
    rewrite ?List.filter_app, ?app_nil_r; done.
Qed.

Lemma ProcessExpiredPauses_no_audit w :
  subscription_audit (snd (ProcessExpiredPauses w)) = subscription_audit w
  /\ audit_stmts (snd (ProcessExpiredPauses w)) = audit_stmts w.
Proof.
  unfold ProcessExpiredPauses, bind, ret. rewrite GetExpiredSubscriptions_run.
  destruct (fault_at 0 w); cbn [snd].
  { by rewrite audit_stmts_send, app_nil_r. }
  destruct (length _ =? 0)%nat; cbn [snd].
  { by rewrite audit_stmts_send, app_nil_r. }
  match goal with
  | |- context [BulkUpdateStatus ?ids ?st ?w0] =>
      pose proof (BulkUpdateStatus_no_audit ids st w0) as [Ha Hs];
      destruct (BulkUpdateStatus ids st w0) as [[e|] w1]
  end; cbn [snd] in *; by rewrite Ha, Hs, audit_stmts_send, app_nil_r.
Qed.

Lemma ForceCancelSubscription_no_audit subscriptionID reason adminComments w :
  let w' := snd (AdminRepository.ForceCancelSubscription
                   subscriptionID reason adminComments w) in
  subscription_audit w' = subscription_audit w /\ audit_stmts w' = audit_stmts w.
Proof.
  unfold audit_stmts. run.
  repeat mcase; rewrite ?List.filter_app, ?app_nil_r; done.
Qed.

(** [Update], by contrast, calls the audit writer whenever its UPDATE went
    through. *)
Lemma Update_attempts_audit sub w :
  fst (Update sub w) = None ->
  exists rest,
    audit_stmts (snd (Update sub w))
    = (audit_stmts w ++ SelectAuditTableExists :: rest)%list.
Proof.
  unfold audit_stmts. run.
  repeat mcase; intros; try done;
    rewrite ?List.filter_app; cbn [List.filter is_audit_stmt];
    rewrite ?app_nil_r, <- ?app_assoc; cbn [app]; eexists; done.
Qed.

(** The lemma on the active sample subscription. *)
Lemma Update_attempts_audit_witness :
  exists rest,
    audit_stmts (snd (Update (Sample.sub "sub-1" StatusCancelled None)
                        (Sample.one_sub StatusActive None)))
    = (audit_stmts (Sample.one_sub StatusActive None)
       ++ SelectAuditTableExists :: rest)%list.
Proof.
  apply (Update_attempts_audit (Sample.sub "sub-1" StatusCancelled None)
           (Sample.one_sub StatusActive None)).
  vm_compute. reflexivity.
Defined.

(** C5: the bulk resume of [ProcessExpiredPauses] ([BulkUpdateStatus]) and
    the admin force-cancel ([ForceCancelSubscription]) change statuses
    without calling the audit writer: on every store they send no audit
    statement and leave the audit table as it was, also when that table
    exists and no statement fails.  Seen on a store with an empty audit
    table: an expired pause is resumed, an active subscription is
    force-cancelled, and the audit table is still empty. *)
Theorem C5_bulk_resume_and_force_cancel_skip_audit :
  (forall w,
      subscription_audit (snd (ProcessExpiredPauses w)) = subscription_audit w
      /\ audit_stmts (snd (ProcessExpiredPauses w)) = audit_stmts w)
  /\ (forall ids status w,
        subscription_audit (snd (BulkUpdateStatus ids status w)) = subscription_audit w
        /\ audit_stmts (snd (BulkUpdateStatus ids status w)) = audit_stmts w)
  /\ (forall subscriptionID reason adminComments w,
        let w' := snd (AdminRepository.ForceCancelSubscription
                         subscriptionID reason adminComments w) in
        subscription_audit w' = subscription_audit w /\ audit_stmts w' = audit_stmts w)
  /\ (let w := Sample.one_sub StatusPaused (Some (100, 200)) in
      let '(err, w') := ProcessExpiredPauses w in
      err = None
      /\ Status <$> subscriptions w !! "sub-1" = Some StatusPaused
      /\ Status <$> subscriptions w' !! "sub-1" = Some StatusActive
      /\ subscription_audit w' = Some []
      /\ issued w' = [SelectExpiredSubscriptions;
                      UpdateStatusWhereIdAny ["sub-1"] StatusActive])
  /\ (let w := Sample.one_sub StatusActive None in
      let '(err, w') :=
        AdminRepository.ForceCancelSubscription "sub-1" "fraud" "" w in
      err = None
      /\ Status <$> subscriptions w !! "sub-1" = Some StatusActive
      /\ Status <$> subscriptions w' !! "sub-1" = Some StatusCancelled
      /\ subscription_audit w' = Some []
      /\ issued w' = [UpdateForceCancel "sub-1"]).
Proof.
  split; [exact ProcessExpiredPauses_no_audit|].
  split; [exact BulkUpdateStatus_no_audit|].
  split; [exact ForceCancelSubscription_no_audit|].
  split; vm_compute; done.
Qed.

(** ** The audit label of [Update] *)

Lemma update_action_spec oldStatus status :
  update_action oldStatus status
  = if String.eqb oldStatus (status_string status) then "updated"
    else spec_action_label oldStatus status.
Proof.
  unfold update_action, spec_action_label.
  destruct (String.eqb oldStatus (status_string status)) eqn:Hsame; cbn [negb]; [done|].
  destruct status; cbn [status_string] in *;
    repeat (rewrite ?bool_decide_eq_true_2, ?bool_decide_eq_false_2 by done);
    cbn [andb]; rewrite ?andb_true_r, ?andb_false_r; done.
Qed.

Lemma LogSubscriptionAction_run subscriptionID userID act oldStatus newStatus w :
  LogSubscriptionAction subscriptionID userID act oldStatus newStatus w
  = (None,
     let r := audit_row subscriptionID userID act oldStatus newStatus (clock w) in
     if fault_at 0 w then send SelectAuditTableExists w
     else match subscription_audit w with
          | None => send SelectAuditTableExists w
          | Some rows =>
              if fault_at 1 w
              then send (InsertSubscriptionAudit r) (send SelectAuditTableExists w)
              else set_subscription_audit (Some (rows ++ [r])%list)
                     (send (InsertSubscriptionAudit r) (send SelectAuditTableExists w))
          end).
Proof.
  rewrite <- fault_at_0, <- fault_at_1. unfold audit_row. run.
  destruct (hd false (faults w)); mred; [done|].
  destruct (subscription_audit w) as [rows|] eqn:Ha; mred; [|done].
  destruct (hd false (tail (faults w))); mred; [done|].
  by rewrite Ha.
Qed.

Lemma Update_run subscription w :
  Update subscription w
  = let w2 := send (UpdateSubscriptionRow (ID subscription))
                (send (SelectSubscriptionStatus (ID subscription)) w) in
    if fault_at 1 w then (Some ErrDriver, w2)
    else match subscriptions w !! ID subscription with
         | None => (Some ErrNoRows, w2)
         | Some r =>
             let oldStatus := if fault_at 0 w then "" else status_string (Status r) in
             LogSubscriptionAction (ID subscription) (UserID subscription)
               (update_action oldStatus (Status subscription)) oldStatus
               (status_string (Status subscription))
               (set_subscriptions
                  (insert (ID subscription) (updated_row subscription r (clock w))) w2)
         end.
Proof.
  rewrite <- fault_at_0, <- fault_at_1.
  cbv [Update bind ret gets modify dbCall timeNow]. mred.
  destruct (hd false (tail (faults w))); mred; [done|].
  destruct (subscriptions w !! ID subscription) as [r|]; mred; [|done].
  cbn [from_option]. unfold updated_row.
  match goal with |- (let '(_, _) := ?m in _) = _ => destruct m as [a w1] eqn:Hm end.
  pose proof (LogSubscriptionAction_nil (ID subscription) (UserID subscription)
    (update_action (if hd false (faults w) then "" else status_string (Status r))
       (Status subscription))
    (if hd false (faults w) then "" else status_string (Status r))
    (status_string (Status subscription))
    (set_subscriptions
       (insert (ID subscription) (updated_row subscription r (clock w)))
       (send (UpdateSubscriptionRow (ID subscription))
          (send (SelectSubscriptionStatus (ID subscription)) w)))) as Hnil.
  unfold updated_row in Hnil. rewrite Hm in Hnil. cbn in Hnil. by subst.
Qed.

(** C7 (amended): an [Update] whose UPDATE goes through on an existing
    row returns [nil] and writes the row.  The label it hands to the audit
    writer is derived from the status written and from the old status as
    the SELECT before the UPDATE gave it: the stored status, or the empty
    string when that SELECT failed (its error is dropped).  The label is
    "updated" when the two are equal, and otherwise the label the
    specification derives: "reactivated" for cancelled to active, "resumed"
    for paused to active, "paused" for a new status paused, "cancelled" for
    a new status cancelled, else "updated".  With an audit table and a
    table check that answers, the INSERT sent carries that label with the
    old and the new status, and the row is recorded unless the INSERT
    fails; without the table, or when the check fails, nothing is recorded.
    After a failed status read the old status recorded is empty and the
    label is "paused", "cancelled" or, for a new status active (a
    reactivation or a resume), "updated". *)
Theorem C7_update_audit_label subscription w r :
  fault_at 1 w = false ->
  subscriptions w !! ID subscription = Some r ->
  let oldStatus := if fault_at 0 w then "" else status_string (Status r) in
  let newStatus := status_string (Status subscription) in
  let label :=
    if String.eqb oldStatus newStatus then "updated"
    else spec_action_label oldStatus (Status subscription) in
  let row := audit_row (ID subscription) (UserID subscription) label oldStatus
               newStatus (clock w) in
  let w' := snd (Update subscription w) in
  fst (Update subscription w) = None
  /\ subscriptions w'
     = <[ID subscription := updated_row subscription r (clock w)]> (subscriptions w)
  /\ (forall rows,
        subscription_audit w = Some rows -> fault_at 2 w = false ->
        audit_stmts w'
        = (audit_stmts w ++ [SelectAuditTableExists; InsertSubscriptionAudit row])%list
        /\ subscription_audit w'
           = Some (if fault_at 3 w then rows else (rows ++ [row])%list))
  /\ (subscription_audit w = None \/ fault_at 2 w = true ->
      subscription_audit w' = subscription_audit w)
  /\ (fault_at 0 w = true ->
      oldStatus = ""
      /\ label = match Status subscription with
                 | StatusActive => "updated"
                 | StatusPaused => "paused"
                 | StatusCancelled => "cancelled"
                 end).
Proof.
  intros H1 Hr oldStatus newStatus label row w'.
  assert (update_action oldStatus (Status subscription) = label) as Hlabel
    by apply update_action_spec.
  subst w'. rewrite Update_run, H1, Hr. cbv zeta.
  fold oldStatus. rewrite Hlabel. fold newStatus.
  rewrite LogSubscriptionAction_run. cbn [fst snd].
  rewrite !fault_at_set_subscriptions, !fault_at_send.
  cbn [subscription_audit set_subscriptions send clock]. fold row.
  split; [done|]. split.
  { destruct (fault_at 2 w); [done|].
    destruct (subscription_audit w); [|done]. by destruct (fault_at 3 w). }
  split.
  { intros rows Ha H2. rewrite H2, Ha.
    destruct (fault_at 3 w);
      cbn [subscription_audit set_subscription_audit set_subscriptions send];
      (split; [|done]); unfold audit_stmts;
      cbn [issued set_subscription_audit set_subscriptions send];
      rewrite !List.filter_app; cbn; by rewrite !app_nil_r, <- app_assoc. }
  split.
  { intros [Ha|H2].
    - rewrite Ha. by destruct (fault_at 2 w).
    - by rewrite H2. }
  intros H0. subst label oldStatus newStatus. rewrite H0. split; [done|].
  by destruct (Status subscription).
Qed.

(** The theorem on a cancelled subscription that is made active while the
    status read fails: the row is written, and the audit row has the label
    "updated" and an empty old status. *)
Lemma C7_update_audit_label_witness :
  let w := Sample.status_read_fails (Sample.one_sub StatusCancelled None) in
  let reactivated := Sample.sub "sub-1" StatusActive None in
  fst (Update reactivated w) = None
  /\ Status <$> subscriptions (snd (Update reactivated w)) !! "sub-1" = Some StatusActive
  /\ subscription_audit (snd (Update reactivated w))
     = Some [audit_row "sub-1" "user-1" "updated" "" "active" 1000].
Proof.
  destruct (C7_update_audit_label (Sample.sub "sub-1" StatusActive None)
              (Sample.status_read_fails (Sample.one_sub StatusCancelled None))
              (Sample.sub "sub-1" StatusCancelled None) eq_refl eq_refl)
    as (Hres & Hrow & Haudit & _).
  split; [exact Hres|]. split.
  - cbv zeta. rewrite Hrow. vm_compute. reflexivity.
  - exact (proj2 (Haudit [] eq_refl eq_refl)).
Defined.

(** C7 as stated fails: editing a paused subscription through
    [UpdateSubscription] writes one audit row with old status paused, new
    status paused and the label "updated", where the stated derivation
    gives "paused". *)
Lemma C7_paused_to_paused_is_updated :
  let w' := snd (UpdateSubscription "sub-1" "user-1" (Sample.request [MealTypeLunch])
                   (Sample.one_sub StatusPaused (Some (1100, 1200)))) in
  subscription_audit w'
  = Some [audit_row "sub-1" "user-1" "updated" "paused" "paused" 1000]
  /\ spec_action_label "paused" StatusPaused = "paused"
  /\ update_action "paused" StatusPaused <> spec_action_label "paused" StatusPaused.
Proof. vm_compute. repeat split; done. Qed.

(** ** The growth percentage of the statistics handler *)

Lemma calculateSubscriptionGrowth_hundredths stats :
  TotalSubscriptions stats <> 0 ->
  calculateSubscriptionGrowth stats
  = (float64_of_int
       (growth_hundredths (wrap64 (NewSubscriptions stats + Reactivations stats))
          (TotalSubscriptions stats)) / 100)%float.
Proof.
  intros Ht. unfold calculateSubscriptionGrowth, growth_hundredths.
  by destruct (Z.eqb_spec (TotalSubscriptions stats) 0).
Qed.

Lemma elem_upto k z : 0 <= z <= Z.of_nat k -> In z (upto k).
Proof.
  intros Hz. apply in_map_iff. exists (Z.to_nat z). split; [lia|].
  apply in_seq. lia.
Qed.

(** All totals from 1 to 200, all counts from 0 to the total, by
    evaluation. *)
Lemma near_truncation_200 :
  forallb (fun t => forallb (fun n => (n <=? t) && (1 <=? t) && near_truncation n t
                                      || negb ((n <=? t) && (1 <=? t)))
                      (upto 200))
          (upto 200) = true.
Proof. vm_compute. reflexivity. Qed.

Lemma near_truncation_bounded n t :
  1 <= t <= 200 -> 0 <= n <= t -> near_truncation n t = true.
Proof.
  intros Ht Hn.
  pose proof near_truncation_200 as H.
  rewrite forallb_forall in H. specialize (H t (elem_upto 200 t ltac:(lia))).
  rewrite forallb_forall in H. specialize (H n (elem_upto 200 n ltac:(lia))).
  destruct (Z.leb_spec n t); [|lia]. destruct (Z.leb_spec 1 t); [|lia].
  cbn [andb negb orb] in H. by rewrite orb_false_r in H.
Qed.

(** The dashboard of the admin service computes the same quantity over the
    active count. *)
Lemma AdminService_SubscriptionGrowth_hundredths active new reactivations :
  AdminService.SubscriptionGrowth active new reactivations
  = if 0 <? active
    then (float64_of_int (growth_hundredths (wrap64 (new + reactivations)) active)
          / 100)%float
    else 0%float.
Proof. reflexivity. Qed.

(** C8 (amended): the growth percentage is a quotient truncated, not
    rounded, at the second decimal, and the statistics handler takes it
    over the total count.  [calculateSubscriptionGrowth] is 0 when the
    total number of subscriptions is 0 and otherwise [c / 100] in binary64,
    [c] being the hundredths kept for new plus reactivated subscriptions
    over the total; it does not read the active count.  The dashboard of
    the admin service is 0 when the active count is not positive and
    otherwise [c / 100] for the hundredths over the active count.  For a
    divisor [t] from 1 to 200 and a numerator [n] between 0 and [t] the
    hundredths kept are the integer part of 10000 x n / t, or that number
    less one (the binary64 product can fall just below an exact integer):
    6666 for 2 out of 3, 2899 for 29 out of 100. *)
Theorem C8_growth_over_total_truncated :
  (forall stats,
      calculateSubscriptionGrowth stats
      = if TotalSubscriptions stats =? 0 then 0%float
        else (float64_of_int
                (growth_hundredths
                   (wrap64 (NewSubscriptions stats + Reactivations stats))
                   (TotalSubscriptions stats)) / 100)%float)
  /\ (forall active new reactivations,
        AdminService.SubscriptionGrowth active new reactivations
        = if 0 <? active
          then (float64_of_int
                  (growth_hundredths (wrap64 (new + reactivations)) active) / 100)%float
          else 0%float)
  /\ (forall n t,
        1 <= t <= 200 -> 0 <= n <= t ->
        growth_hundredths n t = 10000 * n / t
        \/ growth_hundredths n t = 10000 * n / t - 1)
  /\ growth_hundredths 2 3 = 6666
  /\ growth_hundredths 29 100 = 2899.
Proof.
  split.
  { intros stats. destruct (Z.eqb_spec (TotalSubscriptions stats) 0) as [Ht|Ht].
    - unfold calculateSubscriptionGrowth. by rewrite Ht.
    - by apply calculateSubscriptionGrowth_hundredths. }
  split; [exact AdminService_SubscriptionGrowth_hundredths|].
  split; [|split; vm_compute; reflexivity].
  intros n t Ht Hn.
  pose proof (near_truncation_bounded n t Ht Hn) as Hc.
  unfold near_truncation in Hc. apply orb_true_iff in Hc.
  destruct Hc as [Hc|Hc]; apply Z.eqb_eq in Hc; [by left|by right].
Qed.

(** The theorem at 29 out of 100: the hundredths kept are 2899, one under
    the exact 2900. *)
Lemma C8_growth_witness :
  growth_hundredths 29 100 = 2900 \/ growth_hundredths 29 100 = 2899.
Proof.
  apply (proj1 (proj2 (proj2 C8_growth_over_total_truncated)) 29 100); lia.
Defined.

(** C8 as stated fails on two counts.  With no active subscription, three
    subscriptions in total and one new, the result is 3333 / 100 and not 0
    (the divisor is the total); with two new out of three, all active, it
    is 6666 / 100 where rounding to two decimals gives 6667 / 100. *)
Lemma C8_growth_not_over_active_nor_rounded :
  (ActiveSubscriptions (Sample.stats 3 0 1 0) = 0
   /\ calculateSubscriptionGrowth (Sample.stats 3 0 1 0) = (3333 / 100)%float
   /\ spec_growth (Sample.stats 3 0 1 0) = 0%float
   /\ calculateSubscriptionGrowth (Sample.stats 3 0 1 0) <> 0%float)
  /\ (calculateSubscriptionGrowth (Sample.stats 3 3 2 0) = (6666 / 100)%float
      /\ spec_growth (Sample.stats 3 3 2 0) = (6667 / 100)%float
      /\ calculateSubscriptionGrowth (Sample.stats 3 3 2 0)
         <> spec_growth (Sample.stats 3 3 2 0)).
Proof.
  repeat split; try (vm_compute; reflexivity);
    intros H; apply (f_equal Prim2SF) in H; vm_compute in H; discriminate.
Qed.

(** ** Creating a subscription *)

(** Dropping a result that is [nil] anyway. *)
Lemma discard_nil (m : M (option error)) w :
  fst (m w) = None -> (let '(_, w') := m w in (None : option error, w')) = m w.
Proof. destruct (m w) as [[e|] w']; cbn; congruence. Qed.

Lemma MealPlanRepository_GetByID_run id w :
  MealPlanRepository.GetByID id w
  = (if fault_at 0 w then (None, Some (Wrapf "failed to get meal plan" ErrDriver))
     else match meal_plans w !! id with
          | None => (None, Some ErrMealPlanNotFound)
          | Some mealPlan => (Some mealPlan, None)
          end,
     send (SelectMealPlan id) w).
Proof. rewrite <- fault_at_0. run. by repeat mcase. Qed.

Lemma GetByID_run id w :
  GetByID id w
  = (if fault_at 0 w then (None, Some ErrDriver) else (joined_row w id, None),
     send (SelectSubscriptionJoinPlan id) w).
Proof.
  rewrite <- fault_at_0. run. destruct (hd false (faults w)); mred; [done|].
  rewrite joined_row_send. by destruct (joined_row w id).
Qed.

Lemma Create_run subscription w :
  Create subscription w
  = let w1 := send (InsertSubscription (ID subscription)) w in
    if fault_at 0 w || present (subscriptions w !! ID subscription)
    then (Some ErrDriver, w1)
    else LogSubscriptionAction (ID subscription) (UserID subscription) "created" ""
           (status_string (Status subscription))
           (set_subscriptions
              (insert (ID subscription)
                 (set_PauseEndDate None (set_PauseStartDate None subscription))) w1).
Proof.
  rewrite <- fault_at_0. cbv [Create bind ret gets modify dbCall]. mred.
  destruct (hd false (faults w) || _); mred; [done|].
  etrans;
    [apply (discard_nil (LogSubscriptionAction _ _ _ _ _)), LogSubscriptionAction_nil|].
  done.
Qed.

Lemma new_subscription_no_pause id userID req planPrice now :
  set_PauseEndDate None (set_PauseStartDate None
    (new_subscription id userID req planPrice now))
  = new_subscription id userID req planPrice now.
Proof. reflexivity. Qed.

(** [CreateSubscription], test by test. *)
Lemma CreateSubscription_run ctx req w :
  CreateSubscription ctx req w
  = match Utils.ValidateMealTypes
            (convertMealTypesToStrings (CreateSubscriptionRequest.MealTypes req)) with
    | Some _ => (Returned (None, Some ErrInvalidMealTypes), w)
    | None =>
    match Utils.ValidateDeliveryDays
            (convertDeliveryDaysToStrings
               (CreateSubscriptionRequest.DeliveryDays req)) with
    | Some _ => (Returned (None, Some ErrInvalidDeliveryDays), w)
    | None =>
      let planID := CreateSubscriptionRequest.MealPlanID req in
      let w1 := send (SelectMealPlan planID) w in
      if fault_at 0 w then (Returned (None, Some ErrInvalidMealPlan), w1)
      else match meal_plans w !! planID with
      | None => (Returned (None, Some ErrInvalidMealPlan), w1)
      | Some mealPlan =>
          let id := hd "" (ulids w) in
          let w2 := set_ulids (tail (ulids w)) w1 in
          match Value ctx "user_id" with
          | Some (AnyString userID) =>
              let subscription :=
                new_subscription id userID req (MealPlan.Price mealPlan) (clock w) in
              let w3 := send (InsertSubscription id) w2 in
              if fault_at 1 w || present (subscriptions w !! id)
              then (Returned (None, Some (Wrapf "failed to create subscription"
                                            ErrDriver)), w3)
              else
                let w4 := snd (LogSubscriptionAction id userID "created" "" "active"
                                 (set_subscriptions (insert id subscription) w3)) in
                (Returned
                   (if fault_at 0 w4
                    then (None, Some (Wrapf "failed to get subscription details"
                                        ErrDriver))
                    else (joined_row w4 id, None)),
                 send (SelectSubscriptionJoinPlan id) w4)
          | _ => (Panicked, w2)
          end
      end
    end
    end.
Proof.
  unfold CreateSubscription.
  destruct (Utils.ValidateMealTypes _); [done|].
  destruct (Utils.ValidateDeliveryDays _); [done|].
  unfold bind at 1. rewrite MealPlanRepository_GetByID_run. cbv zeta.
  destruct (fault_at 0 w); [done|].
  destruct (meal_plans w !! _) as [mealPlan|]; [|done].
  cbv [bind GenerateULID ret timeNow gets]. mred.
  destruct (Value ctx "user_id") as [[userID| |]|]; try done.
  rewrite Create_run. unfold new_subscription, set_PauseEndDate, set_PauseStartDate.
  cbv zeta.
  cbn [ID UserID Status status_string MealPlanID MealTypes DeliveryDays Allergies
       TotalPrice PauseStartDate PauseEndDate CreatedAt UpdatedAt].
  mred.
  assert (fault_at 0 (set_ulids (tail (ulids w))
            (send (SelectMealPlan (CreateSubscriptionRequest.MealPlanID req)) w))
          = fault_at 1 w) as -> by apply fault_at_send.
  destruct (fault_at 1 w || _); [done|].
  match goal with
  | |- (let '(_, _) := ?m in _) = _ =>
      pose proof (LogSubscriptionAction_nil (hd "" (ulids w)) userID "created" ""
                    "active") as Hnil;
      destruct m as [a w4] eqn:Hlog
  end.
  match type of Hlog with
  | LogSubscriptionAction _ _ _ _ _ ?w3 = _ => specialize (Hnil w3)
  end.
  rewrite Hlog in Hnil. cbn [fst] in Hnil. subst a.
  cbn [snd]. rewrite GetByID_run.
  by destruct (fault_at 0 w4).
Qed.

(** A call that returns without an error has inserted the entity, built
    from the plan under the requested id and the owner in the context,
    under an id that was free. *)
Lemma CreateSubscription_stores ctx req w details :
  fst (CreateSubscription ctx req w) = Returned (details, None) ->
  exists mealPlan userID,
    meal_plans w !! CreateSubscriptionRequest.MealPlanID req = Some mealPlan
    /\ Value ctx "user_id" = Some (AnyString userID)
    /\ subscriptions w !! hd "" (ulids w) = None
    /\ subscriptions (snd (CreateSubscription ctx req w))
       = <[hd "" (ulids w) :=
             new_subscription (hd "" (ulids w)) userID req
               (MealPlan.Price mealPlan) (clock w)]> (subscriptions w).
Proof.
  rewrite CreateSubscription_run.
  destruct (Utils.ValidateMealTypes _); [done|].
  destruct (Utils.ValidateDeliveryDays _); [done|].
  cbv zeta. destruct (fault_at 0 w); [done|].
  destruct (meal_plans w !! _) as [mealPlan|]; [|done].
  destruct (Value ctx "user_id") as [[userID| |]|]; try done.
  destruct (fault_at 1 w) eqn:H1; [done|]. cbn [orb].
  destruct (subscriptions w !! hd "" (ulids w)) eqn:Hfree; [done|].
  cbn [present fst snd]. intros _.
  exists mealPlan, userID. repeat split; try done.
  cbn [subscriptions send].
  by destruct (LogSubscriptionAction_frame (hd "" (ulids w)) userID "created" "" "active"
    (set_subscriptions
       (insert (hd "" (ulids w))
          (new_subscription (hd "" (ulids w)) userID req (MealPlan.Price mealPlan)
             (clock w)))
       (send (InsertSubscription (hd "" (ulids w)))
          (set_ulids (tail (ulids w))
             (send (SelectMealPlan (CreateSubscriptionRequest.MealPlanID req)) w)))))
    as [-> _].
Qed.

Lemma weeks_per_month_nearest : Utils.weeks_per_month = (43 / 10)%float.
Proof. vm_compute. reflexivity. Qed.

(** C1: the price is the binary64 product, left to right, of the plan
    price, the number of meal types, the number of delivery days and 4.3
    (the binary64 number nearest to 43/10); for 30000, two meal types and
    three days it is 774000, which is the total price of the active row
    that [CreateSubscription] stores in that scenario; and every
    [CreateSubscription] that returns without an error has stored, under
    the new id, a row whose total price is that product for the plan the
    request names and whose status is active. *)
Theorem C1_price_formula_and_created_row :
  (forall planPrice mealTypes deliveryDays,
      Utils.CalculateSubscriptionPrice planPrice mealTypes deliveryDays
      = (planPrice
         * float64_of_int (Z.of_nat (length mealTypes))
         * float64_of_int (Z.of_nat (length deliveryDays))
         * (43 / 10))%float)
  /\ Utils.CalculateSubscriptionPrice 30000
       [MealTypeBreakfast; MealTypeLunch] [DayMonday; DayWednesday; DayFriday]
     = 774000%float
  /\ (let '(result, w') :=
         CreateSubscription Sample.ctx_user
           (Sample.request [MealTypeBreakfast; MealTypeLunch]) Sample.empty_store in
       result = Returned (joined_row w' "01SUB", None)
       /\ TotalPrice <$> subscriptions w' !! "01SUB" = Some 774000%float
       /\ Status <$> subscriptions w' !! "01SUB" = Some StatusActive)
  /\ (forall ctx req w details,
        fst (CreateSubscription ctx req w) = Returned (details, None) ->
        exists mealPlan row,
          meal_plans w !! CreateSubscriptionRequest.MealPlanID req = Some mealPlan
          /\ subscriptions (snd (CreateSubscription ctx req w)) !! hd "" (ulids w)
             = Some row
          /\ TotalPrice row
             = (MealPlan.Price mealPlan
                * float64_of_int
                    (Z.of_nat (length (CreateSubscriptionRequest.MealTypes req)))
                * float64_of_int
                    (Z.of_nat (length (CreateSubscriptionRequest.DeliveryDays req)))
                * (43 / 10))%float
          /\ Status row = StatusActive).
Proof.
  split.
  { intros. unfold Utils.CalculateSubscriptionPrice.
    by rewrite weeks_per_month_nearest. }
  split; [vm_compute; reflexivity|].
  split; [vm_compute; done|].
  intros ctx req w details H.
  destruct (CreateSubscription_stores ctx req w details H)
    as (mealPlan & userID & Hplan & _ & _ & Hsubs).
  exists mealPlan, (new_subscription (hd "" (ulids w)) userID req
                      (MealPlan.Price mealPlan) (clock w)).
  split; [done|]. split; [by rewrite Hsubs, lookup_insert_eq|].
  split; [|done].
  cbn [TotalPrice new_subscription]. unfold Utils.CalculateSubscriptionPrice.
  unfold convertMealTypesToStrings, convertDeliveryDaysToStrings.
  by rewrite !length_map, weeks_per_month_nearest.
Qed.

(** The theorem at the scenario of the specification: breakfast and lunch
    on Monday, Wednesday and Friday under a plan of 30000. *)
Lemma C1_created_row_witness :
  exists mealPlan row,
    meal_plans Sample.empty_store !! "plan-diet" = Some mealPlan
    /\ subscriptions
         (snd (CreateSubscription Sample.ctx_user
                 (Sample.request [MealTypeBreakfast; MealTypeLunch])
                 Sample.empty_store)) !! "01SUB" = Some row
    /\ TotalPrice row = (MealPlan.Price mealPlan * 2 * 3 * (43 / 10))%float
    /\ Status row = StatusActive.
Proof.
  eapply (proj2 (proj2 (proj2 C1_price_formula_and_created_row)) Sample.ctx_user
            (Sample.request [MealTypeBreakfast; MealTypeLunch]) Sample.empty_store).
  vm_compute. reflexivity.
Defined.

(** ** The owner of a new subscription *)

(** C10 (amended): when the context carries no string under "user_id",
    [CreateSubscription] panics exactly when the meal types and delivery
    days are valid and the meal plan is found; otherwise it returns the
    validation or plan error; either way no row and no audit record is
    written.  When the context carries the string, the call does not
    panic, and if it returns without an error the row stored under the new
    id has that string as its user id. *)
Theorem C10_owner_from_context ctx req w :
  (no_user_id ctx ->
   (fst (CreateSubscription ctx req w) = Panicked <-> reaches_owner_lookup req w)
   /\ (fst (CreateSubscription ctx req w) = Panicked
       \/ fst (CreateSubscription ctx req w) = Returned (None, Some ErrInvalidMealTypes)
       \/ fst (CreateSubscription ctx req w) = Returned (None, Some ErrInvalidDeliveryDays)
       \/ fst (CreateSubscription ctx req w) = Returned (None, Some ErrInvalidMealPlan))
   /\ subscriptions (snd (CreateSubscription ctx req w)) = subscriptions w
   /\ subscription_audit (snd (CreateSubscription ctx req w)) = subscription_audit w)
  /\ (forall userID,
        Value ctx "user_id" = Some (AnyString userID) ->
        fst (CreateSubscription ctx req w) <> Panicked
        /\ forall details,
            fst (CreateSubscription ctx req w) = Returned (details, None) ->
            exists row,
              subscriptions (snd (CreateSubscription ctx req w)) !! hd "" (ulids w)
              = Some row
              /\ UserID row = userID).
Proof.
  split.
  - intros Hctx. unfold reaches_owner_lookup.
    rewrite CreateSubscription_run.
    destruct (Utils.ValidateMealTypes _).
    { cbn. repeat split; try done; [by intros (? & _)|tauto]. }
    destruct (Utils.ValidateDeliveryDays _).
    { cbn. repeat split; try done; [by intros (_ & ? & _)|tauto]. }
    cbv zeta. destruct (fault_at 0 w).
    { cbn. repeat split; try done; [by intros (_ & _ & ? & _)|tauto]. }
    destruct (meal_plans w !! _) as [mealPlan|].
    2:{ cbn. repeat split; try done; [by intros (_ & _ & _ & [? ?])|tauto]. }
    destruct (Value ctx "user_id") as [[userID| |]|] eqn:Hv.
    { by destruct (Hctx userID). }
    all: cbn; repeat split; eauto.
  - intros userID Hv. split.
    + rewrite CreateSubscription_run, Hv.
      destruct (Utils.ValidateMealTypes _); [done|].
      destruct (Utils.ValidateDeliveryDays _); [done|].
      cbv zeta. destruct (fault_at 0 w); [done|].
      destruct (meal_plans w !! _); [|done].
      by destruct (fault_at 1 w || _).
    + intros details H.
      destruct (CreateSubscription_stores ctx req w details H)
        as (mealPlan & userID' & _ & Hv' & _ & Hsubs).
      rewrite Hv in Hv'. injection Hv' as <-.
      eexists. split; [by rewrite Hsubs, lookup_insert_eq|done].
Qed.

(** The theorem without a user id in the context (the call panics), and
    with one (the row belongs to that user). *)
Lemma C10_owner_from_context_witness :
  fst (CreateSubscription ∅ (Sample.request [MealTypeLunch]) Sample.empty_store)
  = Panicked
  /\ exists row,
      subscriptions
        (snd (CreateSubscription Sample.ctx_user (Sample.request [MealTypeLunch])
                Sample.empty_store)) !! "01SUB" = Some row
      /\ UserID row = "user-1".
Proof.
  split.
  - apply (proj1 (C10_owner_from_context ∅ (Sample.request [MealTypeLunch])
                    Sample.empty_store)).
    + intros userID. vm_compute. discriminate.
    + repeat split; try (vm_compute; reflexivity). vm_compute. eauto.
  - eapply (proj2 (C10_owner_from_context Sample.ctx_user
                     (Sample.request [MealTypeLunch]) Sample.empty_store));
      vm_compute; reflexivity.
Defined.

(** C10 as stated fails: with no "user_id" in the context and an empty
    list of meal types the call does not panic, it returns
    [ErrInvalidMealTypes]; with a plan id that is not in the store it
    returns [ErrInvalidMealPlan]. *)
Lemma C10_no_user_id_without_panic :
  no_user_id ∅
  /\ fst (CreateSubscription ∅ (Sample.request []) Sample.empty_store)
     = Returned (None, Some ErrInvalidMealTypes)
  /\ fst (CreateSubscription ∅ (Sample.request [MealTypeLunch])
            (Sample.store ∅ ∅))
     = Returned (None, Some ErrInvalidMealPlan).
Proof.
  split; [intros userID; vm_compute; discriminate|].
  split; vm_compute; reflexivity.
Qed.

(** A meal type written with U+212A is valid for [CreateSubscription]:
    without a user id in the context the call gets as far as the type
    assertion and panics; with one the subscription is stored, its meal
    type as it was written. *)
Lemma CreateSubscription_accepts_kelvin_sign :
  reaches_owner_lookup Sample.kelvin_request Sample.empty_store
  /\ fst (CreateSubscription ∅ Sample.kelvin_request Sample.empty_store) = Panicked
  /\ MealTypes <$>
       subscriptions
         (snd (CreateSubscription Sample.ctx_user Sample.kelvin_request
                 Sample.empty_store)) !! "01SUB"
     = Some ["brea" ++ Sample.kelvin_sign ++ "fast"].
Proof.
  split; [|split; vm_compute; reflexivity].
  repeat split; try (vm_compute; reflexivity). vm_compute. eauto.
Qed.

(** ** Inactive meal plans *)

Lemma joined_row_set_IsActive b w id :
  joined_row (set_meal_plans (fmap (set_IsActive b)) w) id = joined_row w id.
Proof.
  unfold joined_row. cbn [subscriptions meal_plans set_meal_plans].
  destruct (subscriptions w !! id) as [sub|]; [|done].
  rewrite lookup_fmap. by destruct (meal_plans w !! MealPlanID sub).
Qed.

Lemma fault_at_set_meal_plans n f w : fault_at n (set_meal_plans f w) = fault_at n w.
Proof. reflexivity. Qed.

Lemma LogSubscriptionAction_set_meal_plans f subscriptionID userID act oldStatus newStatus w :
  snd (LogSubscriptionAction subscriptionID userID act oldStatus newStatus
         (set_meal_plans f w))
  = set_meal_plans f
      (snd (LogSubscriptionAction subscriptionID userID act oldStatus newStatus w)).
Proof.
  rewrite !LogSubscriptionAction_run. cbn [snd].
  rewrite !fault_at_set_meal_plans. cbn [subscription_audit set_meal_plans clock].
  repeat case_match; done.
Qed.

(** Whether plans are active or not, [CreateSubscription] returns the same. *)
Lemma CreateSubscription_ignores_IsActive b ctx req w :
  fst (CreateSubscription ctx req (set_meal_plans (fmap (set_IsActive b)) w))
  = fst (CreateSubscription ctx req w).
Proof.
  rewrite !CreateSubscription_run.
  destruct (Utils.ValidateMealTypes _); [done|].
  destruct (Utils.ValidateDeliveryDays _); [done|].
  cbv zeta. rewrite !fault_at_set_meal_plans. destruct (fault_at 0 w); [done|].
  cbn [meal_plans set_meal_plans subscriptions ulids clock]. rewrite lookup_fmap.
  destruct (meal_plans w !! _) as [mealPlan|]; [|done].
  cbn [fmap option_fmap option_map].
  destruct (Value ctx "user_id") as [[userID| |]|]; try done.
  destruct (fault_at 1 w || _); [done|].
  cbn [fst MealPlan.Price set_IsActive].
  match goal with
  | |- context [set_subscriptions ?g (send ?s (set_ulids ?u (send ?s'
                  (set_meal_plans ?f w))))] =>
      change (set_subscriptions g (send s (set_ulids u (send s' (set_meal_plans f w)))))
        with (set_meal_plans f (set_subscriptions g (send s (set_ulids u (send s' w)))))
  end.
  by rewrite LogSubscriptionAction_set_meal_plans, fault_at_set_meal_plans,
       joined_row_set_IsActive.
Qed.

(** C9: [CreateSubscription] returns the same with every plan switched to
    inactive (or to active) as without the switch, so an inactive plan is
    accepted wherever an active one is; seen on a store whose only plan is
    inactive, where the call returns without an error and stores an active
    subscription to that plan, and where [UpdateSubscription] likewise
    returns without an error and reprices the subscription from it. *)
Theorem C9_inactive_plan_accepted :
  (forall b ctx req w,
      fst (CreateSubscription ctx req (set_meal_plans (fmap (set_IsActive b)) w))
      = fst (CreateSubscription ctx req w))
  /\ (let w := Sample.store ∅ {[ "plan-diet" := Sample.plan false ]} in
      let '(result, w') :=
        CreateSubscription Sample.ctx_user (Sample.request [MealTypeLunch]) w in
      MealPlan.IsActive <$> meal_plans w !! "plan-diet" = Some false
      /\ result = Returned (joined_row w' "01SUB", None)
      /\ MealPlanID <$> subscriptions w' !! "01SUB" = Some "plan-diet"
      /\ Status <$> subscriptions w' !! "01SUB" = Some StatusActive)
  /\ (let w := Sample.store {[ "sub-1" := Sample.sub "sub-1" StatusActive None ]}
                 {[ "plan-diet" := Sample.plan false ]} in
      let '(result, w') :=
        UpdateSubscription "sub-1" "user-1" (Sample.request [MealTypeLunch]) w in
      snd result = None
      /\ fst result = joined_row w' "sub-1"
      /\ TotalPrice <$> subscriptions w' !! "sub-1" = Some 387000%float).
Proof.
  split; [exact CreateSubscription_ignores_IsActive|].
  split; vm_compute; done.
Qed.

(** ** Lifecycle operations and the audit store *)

(** What [ResumeSubscription] and [CancelSubscription] return, test by test. *)
Lemma ResumeSubscription_result subscriptionID userID w :
  fst (ResumeSubscription subscriptionID userID w)
  = if fault_at 0 w then Some (Wrapf "failed to get subscription" ErrDriver)
    else match joined_row w subscriptionID with
         | None => Some ErrSubscriptionNotFound
         | Some d =>
             if negb (String.eqb (UserID (Sub d)) userID) then Some ErrUnauthorizedAccess
             else if negb (bool_decide (Status (Sub d) = StatusPaused))
             then Some (Errorf "subscription is not paused")
             else match fst (Update (set_PauseEndDate None
                                       (set_PauseStartDate None
                                          (set_Status StatusActive (Sub d))))
                               (send (SelectSubscriptionJoinPlan subscriptionID) w)) with
                  | Some e => Some (Wrapf "failed to resume subscription" e)
                  | None => None
                  end
         end.
Proof.
  unfold ResumeSubscription, bind, ret. rewrite GetByID_run.
  destruct (fault_at 0 w); [done|].
  destruct (joined_row w subscriptionID) as [d|]; [|done].
  destruct (negb (String.eqb (UserID (Sub d)) userID)); [done|].
  destruct (negb (bool_decide (Status (Sub d) = StatusPaused))); [done|].
  match goal with |- context [Update ?s ?w0] => destruct (Update s w0) as [[e|] w1] end;
    done.
Qed.

Lemma CancelSubscription_result subscriptionID userID w :
  fst (CancelSubscription subscriptionID userID w)
  = if fault_at 0 w then Some (Wrapf "failed to get subscription" ErrDriver)
    else match joined_row w subscriptionID with
         | None => Some ErrSubscriptionNotFound
         | Some d =>
             if negb (String.eqb (UserID (Sub d)) userID) then Some ErrUnauthorizedAccess
             else if bool_decide (Status (Sub d) = StatusCancelled)
             then Some (Errorf "subscription is already cancelled")
             else match fst (Update (set_PauseEndDate None
                                       (set_PauseStartDate None
                                          (set_Status StatusCancelled (Sub d))))
                               (send (SelectSubscriptionJoinPlan subscriptionID) w)) with
                  | Some e => Some (Wrapf "failed to cancel subscription" e)
                  | None => None
                  end
         end.
Proof.
  unfold CancelSubscription, bind, ret. rewrite GetByID_run.
  destruct (fault_at 0 w); [done|].
  destruct (joined_row w subscriptionID) as [d|]; [|done].
  destruct (negb (String.eqb (UserID (Sub d)) userID)); [done|].
  destruct (bool_decide (Status (Sub d) = StatusCancelled)); [done|].
  match goal with |- context [Update ?s ?w0] => destruct (Update s w0) as [[e|] w1] end;
    done.
Qed.

(** The three operations that end with the UPDATE return the same whatever
    the audit table is. *)
Lemma lifecycle_result_ignores_audit audit subscriptionID userID startDate endDate w :
  fst (PauseSubscription subscriptionID userID startDate endDate
         (set_subscription_audit audit w))
  = fst (PauseSubscription subscriptionID userID startDate endDate w)
  /\ fst (ResumeSubscription subscriptionID userID (set_subscription_audit audit w))
     = fst (ResumeSubscription subscriptionID userID w)
  /\ fst (CancelSubscription subscriptionID userID (set_subscription_audit audit w))
     = fst (CancelSubscription subscriptionID userID w).
Proof.
  assert (forall s q, fst (Update s (send q (set_subscription_audit audit w)))
                      = fst (Update s (send q w))) as Hupd.
  { intros s q. by rewrite !Update_result. }
  rewrite !PauseSubscription_result, !ResumeSubscription_result,
    !CancelSubscription_result.
  change (joined_row (set_subscription_audit audit w) subscriptionID)
    with (joined_row w subscriptionID).
  change (fault_at 0 (set_subscription_audit audit w)) with (fault_at 0 w).
  change (clock (set_subscription_audit audit w)) with (clock w).
  destruct (joined_row w subscriptionID) as [d|]; [|done].
  by rewrite !Hupd.
Qed.

(** C6: [LogSubscriptionAction] returns [nil] on every input and in every
    state of the audit store (table absent, table check failing, INSERT
    failing), and the results of the primary writes [Update] and [Create]
    are functions of the UPDATE and INSERT statements alone: neither the
    audit table nor a fault met while auditing changes them.  So
    [PauseSubscription], [ResumeSubscription] and [CancelSubscription],
    which end with that UPDATE, return the same whatever the audit table
    is. *)
Theorem C6_audit_write_never_fails_the_caller :
  (forall subscriptionID userID act oldStatus newStatus w,
      fst (LogSubscriptionAction subscriptionID userID act oldStatus newStatus w) = None)
  /\ (forall sub w,
        fst (Update sub w)
        = if fault_at 1 w then Some ErrDriver
          else match subscriptions w !! ID sub with
               | None => Some ErrNoRows
               | Some _ => None
               end)
  /\ (forall sub w,
        fst (Create sub w)
        = if fault_at 0 w || present (subscriptions w !! ID sub)
          then Some ErrDriver else None)
  /\ (forall sub w audit,
        fst (Update sub (set_subscription_audit audit w)) = fst (Update sub w)
        /\ fst (Create sub (set_subscription_audit audit w)) = fst (Create sub w))
  /\ (forall audit subscriptionID userID startDate endDate w,
        fst (PauseSubscription subscriptionID userID startDate endDate
               (set_subscription_audit audit w))
        = fst (PauseSubscription subscriptionID userID startDate endDate w)
        /\ fst (ResumeSubscription subscriptionID userID (set_subscription_audit audit w))
           = fst (ResumeSubscription subscriptionID userID w)
        /\ fst (CancelSubscription subscriptionID userID (set_subscription_audit audit w))
           = fst (CancelSubscription subscriptionID userID w)).
Proof.
  split; [exact LogSubscriptionAction_nil|].
  split; [exact Update_result|].
  split; [exact Create_result|].
  split; [|exact lifecycle_result_ignores_audit].
  intros sub w audit. by rewrite !Update_result, !Create_result.
Qed.

(** ** The user-triggered transitions clear the pause window *)

(** An [Update] that went through has rewritten the row under the id. *)
Lemma Update_subscriptions subscription w :
  fst (Update subscription w) = None ->
  exists r,
    subscriptions w !! ID subscription = Some r
    /\ subscriptions (snd (Update subscription w))
       = <[ID subscription := updated_row subscription r (clock w)]> (subscriptions w).
Proof.
  rewrite Update_run. cbv zeta.
  destruct (fault_at 1 w); [done|].
  destruct (subscriptions w !! ID subscription) as [r|]; [|done].
  intros _. exists r. split; [done|].
  match goal with
  | |- subscriptions (snd (LogSubscriptionAction ?a ?b ?c ?d ?e ?w0)) = _ =>
      destruct (LogSubscriptionAction_frame a b c d e w0) as [-> _]
  end.
  done.
Qed.

Lemma joined_row_keyed w id d :
  keyed w -> joined_row w id = Some d ->
  subscriptions w !! id = Some (Sub d) /\ ID (Sub d) = id.
Proof.
  intros Hk. unfold joined_row.
  destruct (subscriptions w !! id) as [sub|] eqn:Hsub; [|done].
  destruct (meal_plans w !! MealPlanID sub); [|done].
  intros [= <-]. split; [done|]. by apply Hk.
Qed.

(** [ResumeSubscription], the user's counterpart of the bulk resume: a call
    that returns [nil] found the caller's paused row and left it active
    with both pause dates null, in line with the rule on pause dates. *)
Theorem ResumeSubscription_clears_pause_window w subscriptionID userID :
  keyed w ->
  fst (ResumeSubscription subscriptionID userID w) = None ->
  exists r r',
    subscriptions w !! subscriptionID = Some r
    /\ Status r = StatusPaused /\ UserID r = userID
    /\ subscriptions (snd (ResumeSubscription subscriptionID userID w)) !! subscriptionID
       = Some r'
    /\ Status r' = StatusActive
    /\ PauseStartDate r' = None /\ PauseEndDate r' = None
    /\ pause_dates_ok r' = true.
Proof.
  intros Hk. unfold ResumeSubscription, bind, ret. rewrite GetByID_run.
  destruct (fault_at 0 w); [done|].
  destruct (joined_row w subscriptionID) as [d|] eqn:Hd; [|done].
  destruct (joined_row_keyed w subscriptionID d Hk Hd) as [Hsub Hid].
  destruct (String.eqb_spec (UserID (Sub d)) userID) as [Hu|]; [|done]. cbn [negb].
  destruct (decide (Status (Sub d) = StatusPaused)) as [Hs|Hs];
    [rewrite bool_decide_eq_true_2 by done|rewrite bool_decide_eq_false_2 by done];
    [|done].
  cbn [negb].
  match goal with
  | |- context [Update ?s ?w0] =>
      pose proof (Update_subscriptions s w0) as Hupd;
      destruct (Update s w0) as [[e|] w1]
  end; [done|].
  intros _. destruct (Hupd eq_refl) as (r & Hr & Hw1).
  cbn [snd] in *. cbn [ID set_PauseEndDate set_PauseStartDate set_Status] in Hw1.
  rewrite Hid in Hw1.
  exists (Sub d). eexists.
  split; [done|]. split; [done|]. split; [done|].
  split; [by rewrite Hw1, lookup_insert_eq|]. done.
Qed.

(** The theorem on a subscription paused from 1100 to 1200. *)
Lemma ResumeSubscription_clears_pause_window_witness :
  exists r r',
    subscriptions (Sample.one_sub StatusPaused (Some (1100, 1200))) !! "sub-1" = Some r
    /\ Status r = StatusPaused /\ UserID r = "user-1"
    /\ subscriptions
         (snd (ResumeSubscription "sub-1" "user-1"
                 (Sample.one_sub StatusPaused (Some (1100, 1200))))) !! "sub-1"
       = Some r'
    /\ Status r' = StatusActive
    /\ PauseStartDate r' = None /\ PauseEndDate r' = None
    /\ pause_dates_ok r' = true.
Proof.
  apply (ResumeSubscription_clears_pause_window
           (Sample.one_sub StatusPaused (Some (1100, 1200))) "sub-1" "user-1").
  - intros k r. unfold Sample.one_sub, Sample.store. cbn [subscriptions].
    intros [<- <-]%lookup_singleton_Some. reflexivity.
  - vm_compute. reflexivity.
Defined.

(** ** Ownership *)

(** A request on a subscription of another user is answered with
    [ErrUnauthorizedAccess] by each of the five mutating operations, after
    the one SELECT that loads the row and before anything is written (for
    [PauseSubscription] the dates, for [UpdateSubscription] the meal types
    and delivery days, are tested first). *)
Theorem foreign_subscription_is_refused w subscriptionID userID r :
  fault_at 0 w = false ->
  subscriptions w !! subscriptionID = Some r ->
  is_Some (meal_plans w !! MealPlanID r) ->
  UserID r <> userID ->
  (forall startDate endDate,
      startDate <= endDate -> clock w <= startDate ->
      PauseSubscription subscriptionID userID startDate endDate w
      = (Some ErrUnauthorizedAccess, send (SelectSubscriptionJoinPlan subscriptionID) w))
  /\ ResumeSubscription subscriptionID userID w
     = (Some ErrUnauthorizedAccess, send (SelectSubscriptionJoinPlan subscriptionID) w)
  /\ CancelSubscription subscriptionID userID w
     = (Some ErrUnauthorizedAccess, send (SelectSubscriptionJoinPlan subscriptionID) w)
  /\ ReactivateSubscription subscriptionID userID w
     = (None, Some ErrUnauthorizedAccess, send (SelectSubscriptionRow subscriptionID) w)
  /\ (forall req,
        Utils.ValidateMealTypes
          (convertMealTypesToStrings (CreateSubscriptionRequest.MealTypes req)) = None ->
        Utils.ValidateDeliveryDays
          (convertDeliveryDaysToStrings (CreateSubscriptionRequest.DeliveryDays req))
        = None ->
        UpdateSubscription subscriptionID userID req w
        = (None, Some ErrUnauthorizedAccess,
           send (SelectSubscriptionJoinPlan subscriptionID) w)).
Proof.
  intros H0 Hr [mp Hmp] Hu.
  assert (joined_row w subscriptionID = Some {| Sub := r; Plan := joined_plan r mp |})
    as Hd by (unfold joined_row; by rewrite Hr, Hmp).
  apply String.eqb_neq in Hu.
  repeat split.
  - intros startDate endDate Hse Hnow.
    cbv [PauseSubscription After Before bind ret gets timeNow]. mred.
    destruct (Z.ltb_spec endDate startDate); [lia|]. mred.
    destruct (Z.ltb_spec startDate (clock w)); [lia|]. mred.
    rewrite GetByID_run, H0, Hd. cbn [Sub]. by rewrite Hu.
  - unfold ResumeSubscription, bind, ret.
    rewrite GetByID_run, H0, Hd. cbn [Sub]. by rewrite Hu.
  - unfold CancelSubscription, bind, ret.
    rewrite GetByID_run, H0, Hd. cbn [Sub]. by rewrite Hu.
  - unfold ReactivateSubscription. run. change (hd false (faults w) = false) in H0.
    rewrite H0, Hr. mred. by rewrite Hu.
  - intros req Hmt Hdd. unfold UpdateSubscription. rewrite Hmt, Hdd.
    unfold bind, ret. rewrite GetByID_run, H0, Hd. cbn [Sub]. by rewrite Hu.
Qed.

(** The theorem for user-2 on the active subscription of user-1. *)
Lemma foreign_subscription_is_refused_witness :
  ResumeSubscription "sub-1" "user-2" (Sample.one_sub StatusActive None)
  = (Some ErrUnauthorizedAccess,
     send (SelectSubscriptionJoinPlan "sub-1") (Sample.one_sub StatusActive None)).
Proof.
  apply (foreign_subscription_is_refused (Sample.one_sub StatusActive None)
           "sub-1" "user-2" (Sample.sub "sub-1" StatusActive None)).
  - vm_compute. reflexivity.
  - vm_compute. reflexivity.
  - vm_compute. eauto.
  - vm_compute. discriminate.
Defined.

(** ** pkg/utils: validation, slices, pagination, truncation *)

Lemma StringSliceContains_In slice item :
  Utils.StringSliceContains slice item = true <-> In item slice.
Proof.
  induction slice as [|s rest IH]; cbn; [by split|].
  destruct (String.eqb_spec s item) as [->|Hne].
  - split; [by left|done].
  - rewrite IH. split; [by right|]. by intros [?|?].
Qed.

Lemma validate_each_None valid what items :
  Utils.validate_each valid what items = None
  <-> forall item, In item items -> In (Utils.ToLower item) valid.
Proof.
  induction items as [|item rest IH]; cbn; [by split|].
  destruct (Utils.StringSliceContains valid (Utils.ToLower item)) eqn:Hc; cbn.
  - apply StringSliceContains_In in Hc. rewrite IH. split.
    + intros H x [<-|Hx]; [done|by apply H].
    + intros H x Hx. apply H. by right.
  - split; [done|]. intros H.
    assert (In (Utils.ToLower item) valid) as Hin by (apply H; by left).
    apply StringSliceContains_In in Hin. congruence.
Qed.

Lemma validate_each_first valid what l1 item l2 :
  (forall x, In x l1 -> In (Utils.ToLower x) valid) ->
  ~ In (Utils.ToLower item) valid ->
  Utils.validate_each valid what (l1 ++ item :: l2)%list = Some (Errorf (what ++ item)).
Proof.
  intros H1 Hitem. induction l1 as [|x l1 IH]; cbn.
  - destruct (Utils.StringSliceContains valid (Utils.ToLower item)) eqn:Hc; [|done].
    by apply StringSliceContains_In in Hc.
  - assert (Utils.StringSliceContains valid (Utils.ToLower x) = true) as ->.
    { apply StringSliceContains_In, H1. by left. }
    cbn. apply IH. intros y Hy. apply H1. by right.
Qed.

(** A rune takes at least one byte, so the runes of a string are not more
    than its bytes: [strings.Map] never runs out of fuel. *)
Lemma DecodeRuneInString_width c s :
  (1 <= snd (Utils.DecodeRuneInString (String c s)) <= 4)%nat.
Proof.
  unfold Utils.DecodeRuneInString. cbn [String.length Nat.ltb Nat.leb].
  repeat match goal with
         | |- context [if ?b then _ else _] => destruct b
         | |- context [match ?x with _ => _ end] => destruct x
         end; cbn [snd]; lia.
Qed.

Lemma slice_from_length w c s :
  (1 <= w)%nat ->
  (String.length (Utils.slice_from w (String c s)) <= String.length s)%nat.
Proof.
  intros Hw. destruct w as [|w]; [lia|]. cbn [Utils.slice_from]. clear Hw.
  revert w. induction s as [|c' s IH]; intros [|w]; cbn [Utils.slice_from String.length];
    try lia.
  specialize (IH w). lia.
Qed.

Lemma map_runes_fuel mapping n m s :
  (String.length s <= n)%nat -> (String.length s <= m)%nat ->
  Utils.map_runes n mapping s = Utils.map_runes m mapping s.
Proof.
  revert m s. induction n as [|n IH]; intros m s Hn Hm.
  - destruct s; [by destruct m|cbn in Hn; lia].
  - destruct s as [|c s]; [by destruct m|].
    destruct m as [|m]; [cbn in Hm; lia|].
    cbn [Utils.map_runes String.length] in *.
    pose proof (DecodeRuneInString_width c s) as Hw.
    destruct (Utils.DecodeRuneInString (String c s)) as [r w]. cbn [snd] in Hw.
    pose proof (slice_from_length w c s ltac:(lia)).
    f_equal. apply IH; lia.
Qed.

Lemma lower_bytes_fixed s : Utils.hasUpper s = false -> Utils.lower_bytes s = s.
Proof.
  induction s as [|c s IH]; [done|].
  cbn [Utils.hasUpper Utils.lower_bytes]. intros [Hc Hs]%orb_false_elim.
  rewrite (IH Hs). f_equal. clear IH Hs. revert Hc.
  destruct c as [[] [] [] [] [] [] [] []]; vm_compute; intros Hc;
    first [reflexivity | discriminate Hc].
Qed.

Lemma ToLower_ASCII s : Utils.isASCII s = true -> Utils.ToLower s = Utils.lower_bytes s.
Proof.
  intros Hs. unfold Utils.ToLower. rewrite Hs.
  destruct (Utils.hasUpper s) eqn:Hu; [done|]. by rewrite lower_bytes_fixed.
Qed.
(** [ValidateMealTypes] and [ValidateDeliveryDays] accept exactly the
    non-empty lists whose entries, lower-cased by [strings.ToLower], are
    among the valid names: neither the case of the letters nor a repeated
    entry matters.  On a list with an entry that is not valid, the error
    names the first such entry.  The lower-casing is that of Unicode: on a
    string of ASCII it works byte by byte, and "breakfast" written with
    U+212A (Kelvin sign) and "FRIDAY" written with U+0130 (capital I with
    dot above) are accepted as well. *)
Theorem Validate_accepts :
  (forall mealTypes,
      Utils.ValidateMealTypes mealTypes = None
      <-> mealTypes <> []
          /\ forall item, In item mealTypes -> In (Utils.ToLower item) Utils.validMealTypes)
  /\ (forall deliveryDays,
        Utils.ValidateDeliveryDays deliveryDays = None
        <-> deliveryDays <> []
            /\ forall item, In item deliveryDays -> In (Utils.ToLower item) Utils.validDays)
  /\ (forall l1 item l2,
        (forall x, In x l1 -> In (Utils.ToLower x) Utils.validMealTypes) ->
        ~ In (Utils.ToLower item) Utils.validMealTypes ->
        Utils.ValidateMealTypes (l1 ++ item :: l2)%list
        = Some (Errorf ("invalid meal type: " ++ item)))
  /\ (forall l1 item l2,
        (forall x, In x l1 -> In (Utils.ToLower x) Utils.validDays) ->
        ~ In (Utils.ToLower item) Utils.validDays ->
        Utils.ValidateDeliveryDays (l1 ++ item :: l2)%list
        = Some (Errorf ("invalid delivery day: " ++ item)))
  /\ (forall s, Utils.isASCII s = true -> Utils.ToLower s = Utils.lower_bytes s)
  /\ Utils.ToLower ("brea" ++ Sample.kelvin_sign ++ "fast") = "breakfast"
  /\ Utils.ToLower ("FR" ++ Sample.dotted_capital_I ++ "DAY") = "friday"
  /\ Utils.ValidateMealTypes ["Lunch"; "brea" ++ Sample.kelvin_sign ++ "fast"] = None
  /\ Utils.ValidateDeliveryDays ["FR" ++ Sample.dotted_capital_I ++ "DAY"] = None.
Proof.
  split; [|split; [|split; [|split; [|split]]]].
  - intros mealTypes. unfold Utils.ValidateMealTypes.
    destruct mealTypes as [|m rest]; [by split; [|intros [? _]]|].
    cbn [length Nat.eqb]. rewrite validate_each_None. by split; [|intros [_ ?]].
  - intros deliveryDays. unfold Utils.ValidateDeliveryDays.
    destruct deliveryDays as [|d rest]; [by split; [|intros [? _]]|].
    cbn [length Nat.eqb]. rewrite validate_each_None. by split; [|intros [_ ?]].
  - intros l1 item l2 H1 H2. unfold Utils.ValidateMealTypes.
    rewrite <- (validate_each_first _ "invalid meal type: " l1 item l2 H1 H2).
    by destruct l1.
  - intros l1 item l2 H1 H2. unfold Utils.ValidateDeliveryDays.
    rewrite <- (validate_each_first _ "invalid delivery day: " l1 item l2 H1 H2).
    by destruct l1.
  - exact ToLower_ASCII.
  - repeat split; vm_compute; reflexivity.
Qed.

Lemma unique_loop_app `{Countable A} (keys : gset A) result slice :
  Utils.unique_loop keys result slice = (result ++ Utils.unique_loop keys [] slice)%list.
Proof.
  revert keys result. induction slice as [|item rest IH]; intros keys result; cbn.
  - by rewrite app_nil_r.
  - destruct (bool_decide (item ∈ keys)); cbn [negb]; [apply IH|].
    rewrite (IH _ (result ++ [item])%list), (IH _ [item]). by rewrite <- app_assoc.
Qed.

Lemma unique_loop_cons `{Countable A} (keys : gset A) item rest :
  Utils.unique_loop keys [] (item :: rest)
  = if bool_decide (item ∈ keys) then Utils.unique_loop keys [] rest
    else item :: Utils.unique_loop ({[item]} ∪ keys) [] rest.
Proof.
  cbn. destruct (bool_decide (item ∈ keys)); cbn [negb]; [done|].
  by rewrite unique_loop_app.
Qed.

Lemma unique_loop_In `{Countable A} (keys : gset A) slice x :
  In x (Utils.unique_loop keys [] slice) <-> In x slice /\ x ∉ keys.
Proof.
  revert keys. induction slice as [|item rest IH]; intros keys.
  - cbn. tauto.
  - rewrite unique_loop_cons. case_bool_decide as Hk.
    + rewrite IH. cbn. split; [tauto|]. intros [[<-|?] ?]; tauto.
    + cbn. rewrite IH, not_elem_of_union, not_elem_of_singleton. split.
      * intros [<-|[? [? ?]]]; tauto.
      * intros [[<-|?] ?]; [tauto|].
        destruct (decide (item = x)) as [->|]; [tauto|]. right.
        repeat split; [done|congruence|done].
Qed.

Lemma unique_loop_NoDup `{Countable A} (keys : gset A) slice :
  List.NoDup (Utils.unique_loop keys [] slice).
Proof.
  revert keys. induction slice as [|item rest IH]; intros keys.
  - constructor.
  - rewrite unique_loop_cons. case_bool_decide; [apply IH|].
    constructor; [|apply IH].
    rewrite unique_loop_In, not_elem_of_union, not_elem_of_singleton.
    by intros (_ & ? & _).
Qed.

(** Entries that [keys] holds already may as well be dropped beforehand. *)
Lemma unique_loop_filter `{Countable A} (keys : gset A) x slice :
  Utils.unique_loop ({[x]} ∪ keys) [] slice
  = Utils.unique_loop keys [] (List.filter (λ y, negb (bool_decide (y = x))) slice).
Proof.
  revert keys. induction slice as [|item rest IH]; intros keys; [done|].
  rewrite unique_loop_cons. cbn [List.filter].
  destruct (decide (item = x)) as [->|Hne].
  - rewrite bool_decide_eq_true_2 by (apply elem_of_union_l, elem_of_singleton_2; done).
    rewrite (bool_decide_eq_true_2 (x = x)) by done. cbn [negb]. apply IH.
  - rewrite (bool_decide_eq_false_2 (item = x)) by done. cbn [negb].
    rewrite unique_loop_cons.
    destruct (decide (item ∈ keys)) as [Hin|Hin].
    + rewrite (bool_decide_eq_true_2 (item ∈ keys)) by done.
      rewrite bool_decide_eq_true_2 by (by apply elem_of_union_r). apply IH.
    + rewrite (bool_decide_eq_false_2 (item ∈ keys)) by done.
      rewrite bool_decide_eq_false_2
        by (rewrite not_elem_of_union, not_elem_of_singleton; done).
      f_equal. rewrite <- IH. f_equal.
      by rewrite !(assoc_L (∪)), (comm_L (∪) {[item]}).
Qed.

Lemma unique_loop_fixed `{Countable A} (keys : gset A) slice :
  List.NoDup slice -> (forall x, In x slice -> x ∉ keys) ->
  Utils.unique_loop keys [] slice = slice.
Proof.
  revert keys. induction slice as [|item rest IH]; intros keys Hnd Hk; [done|].
  rewrite unique_loop_cons. inversion Hnd as [|? ? Hitem Hrest]; subst.
  rewrite bool_decide_eq_false_2 by (apply Hk; by left). f_equal.
  apply IH; [done|]. intros x Hx.
  rewrite not_elem_of_union, not_elem_of_singleton. split.
  - by intros ->.
  - apply Hk. by right.
Qed.

Lemma StringSliceRemove_filter slice item :
  Utils.StringSliceRemove slice item
  = List.filter (λ y, negb (bool_decide (y = item))) slice.
Proof.
  induction slice as [|s rest IH]; [done|]. cbn.
  destruct (String.eqb_spec s item) as [->|Hne]; cbn [negb].
  - by rewrite bool_decide_eq_true_2.
  - rewrite bool_decide_eq_false_2 by done. cbn [negb]. by rewrite IH.
Qed.

Lemma IntSliceContains_In slice item :
  Utils.IntSliceContains slice item = true <-> In item slice.
Proof.
  induction slice as [|i rest IH]; cbn; [by split|].
  destruct (Z.eqb_spec i item) as [->|]; [by split; [left|]|].
  rewrite IH. split; [by right|]. by intros [?|?].
Qed.

(** [StringSliceUnique] keeps the first occurrence of every entry: the
    result has no entry twice and the members of the slice; the head of a
    slice stays in front, and the rest is treated with the later copies of
    the head removed ([StringSliceRemove]); a second application changes
    nothing.  [IntSliceUnique] likewise has no entry twice, and contains
    ([IntSliceContains]) what the slice contains. *)
Theorem StringSliceUnique_first_occurrences :
  (forall slice,
      List.NoDup (Utils.StringSliceUnique slice)
      /\ (forall x, In x (Utils.StringSliceUnique slice) <-> In x slice)
      /\ Utils.StringSliceUnique (Utils.StringSliceUnique slice)
         = Utils.StringSliceUnique slice)
  /\ Utils.StringSliceUnique [] = []
  /\ (forall x rest,
        Utils.StringSliceUnique (x :: rest)
        = x :: Utils.StringSliceUnique (Utils.StringSliceRemove rest x))
  /\ (forall slice,
        List.NoDup (Utils.IntSliceUnique slice)
        /\ (forall x, Utils.IntSliceContains (Utils.IntSliceUnique slice) x
                      = Utils.IntSliceContains slice x)).
Proof.
  split; [|split; [done|split]].
  - intros slice. unfold Utils.StringSliceUnique.
    split; [apply unique_loop_NoDup|].
    split; [intros x; rewrite unique_loop_In; split; [tauto|];
            intros ?; split; [done|apply not_elem_of_empty]|].
    apply unique_loop_fixed; [apply unique_loop_NoDup|].
    intros x _. apply not_elem_of_empty.
  - intros x rest. unfold Utils.StringSliceUnique.
    rewrite unique_loop_cons, bool_decide_eq_false_2 by apply not_elem_of_empty.
    by rewrite unique_loop_filter, StringSliceRemove_filter.
  - intros slice. unfold Utils.IntSliceUnique.
    split; [apply unique_loop_NoDup|]. intros x.
    apply eq_true_iff_eq. rewrite !IntSliceContains_In, unique_loop_In.
    split; [tauto|]. intros ?; split; [done|apply not_elem_of_empty].
Qed.

(** [StringSliceRemove] with [StringSliceContains]: after the removal of
    [item] the slice contains [other] exactly when it did before and
    [other] is not [item]; the slice comes back as it is exactly when it
    does not contain [item]; removing twice is removing once; the result is
    not longer than the slice. *)
Theorem StringSliceRemove_contains slice item :
  (forall other,
      Utils.StringSliceContains (Utils.StringSliceRemove slice item) other
      = Utils.StringSliceContains slice other && negb (String.eqb other item))
  /\ (Utils.StringSliceContains slice item = false
      <-> Utils.StringSliceRemove slice item = slice)
  /\ Utils.StringSliceRemove (Utils.StringSliceRemove slice item) item
     = Utils.StringSliceRemove slice item
  /\ (length (Utils.StringSliceRemove slice item) <= length slice)%nat.
Proof.
  induction slice as [|s rest (IH1 & IH2 & IH3 & IH4)].
  { repeat split; done. }
  cbn [Utils.StringSliceRemove Utils.StringSliceContains].
  destruct (String.eqb_spec s item) as [->|Hne]; cbn [negb].
  - split; [|split; [|split]].
    + intros other. rewrite IH1. rewrite (String.eqb_sym other item).
      by destruct (String.eqb item other), (Utils.StringSliceContains rest other).
    + split; [done|]. intros Heq. exfalso.
      apply (f_equal (@length string)) in Heq. cbn [length] in Heq. lia.
    + done.
    + cbn [length]. lia.
  - split; [|split; [|split]].
    + intros other. cbn [Utils.StringSliceContains]. rewrite IH1.
      destruct (String.eqb_spec s other) as [->|]; [|done].
      apply String.eqb_neq in Hne. by rewrite Hne.
    + rewrite IH2. split; [by intros ->|]. by intros [= ?].
    + cbn [Utils.StringSliceRemove]. apply String.eqb_neq in Hne. rewrite Hne.
      cbn [negb]. by rewrite IH3.
    + cbn [length]. lia.
Qed.

(** [ValidatePagination] gives a page of at least 1 and a limit from 1 to
    100, keeps a page and a limit that are in range, and is idempotent.
    With the validated page and limit, [CalculateOffset] is (page - 1) x limit and
    not negative as long as that product fits an [int], and 0 for a page
    that is not positive. *)
Theorem ValidatePagination_range page limit :
  let '(p, l) := Utils.ValidatePagination page limit in
  1 <= p /\ 1 <= l <= 100
  /\ (1 <= page -> p = page)
  /\ (1 <= limit <= 100 -> l = limit)
  /\ Utils.ValidatePagination p l = (p, l)
  /\ ((p - 1) * l < 2 ^ 63 ->
      Utils.CalculateOffset page l = (p - 1) * l
      /\ 0 <= Utils.CalculateOffset page l)
  /\ (page <= 0 -> Utils.CalculateOffset page l = 0).
Proof.
  unfold Utils.ValidatePagination, Utils.CalculateOffset, wrap64.
  repeat match goal with |- context [?a <=? ?b] => destruct (Z.leb_spec a b) end;
  repeat match goal with |- context [?a <? ?b] => destruct (Z.ltb_spec a b) end;
    repeat split; try lia;
    try (intros; rewrite Z.mod_small by nia; nia).
Qed.

Lemma total_pages_exact_1000 :
  forallb (fun limit => forallb (fun total => (limit =? 0) || total_pages_exact total limit)
                          (upto 1000))
          (upto 100) = true.
Proof. vm_compute. reflexivity. Qed.

(** [CalculateTotalPages] is 0 for a limit that is not positive.  For a
    limit from 1 to 100 and up to 1000 items (every pair, by evaluation)
    the float64 quotient and [math.Ceil] give the exact number of pages:
    the least number of pages of [limit] items that hold [totalItems]. *)
Theorem CalculateTotalPages_ceiling totalItems limit :
  (limit <= 0 -> Utils.CalculateTotalPages totalItems limit = 0)
  /\ (1 <= limit <= 100 -> 0 <= totalItems <= 1000 ->
      Utils.CalculateTotalPages totalItems limit = (totalItems + limit - 1) / limit
      /\ totalItems <= Utils.CalculateTotalPages totalItems limit * limit
         < totalItems + limit).
Proof.
  split.
  - intros Hl. unfold Utils.CalculateTotalPages. by destruct (Z.leb_spec limit 0); [|lia].
  - intros Hl Ht.
    pose proof total_pages_exact_1000 as H.
    rewrite forallb_forall in H. specialize (H limit (elem_upto 100 limit ltac:(lia))).
    rewrite forallb_forall in H. specialize (H totalItems (elem_upto 1000 totalItems ltac:(lia))).
    destruct (Z.eqb_spec limit 0); [lia|]. cbn [orb] in H.
    apply Z.eqb_eq in H. rewrite H. split; [done|].
    pose proof (Z.div_mod (totalItems + limit - 1) limit ltac:(lia)).
    pose proof (Z.mod_pos_bound (totalItems + limit - 1) limit ltac:(lia)).
    nia.
Qed.

Lemma substring_0_length n s :
  String.length (substring 0 n s) = Nat.min n (String.length s).
Proof.
  revert s. induction n as [|n IH]; intros s.
  - by destruct s.
  - destruct s as [|c s]; [done|]. cbn. by rewrite IH.
Qed.

Lemma string_length_app (s t : string) :
  String.length (s ++ t) = (String.length s + String.length t)%nat.
Proof. induction s as [|c s IH]; simpl; [done|]. by rewrite IH. Qed.

(** [TruncateString] panics for every negative [maxLength] (the bound of
    the slice expression is negative); for a [maxLength] of 0 or more it
    returns a string of min(len(text), maxLength) bytes, the text itself
    when it fits. *)
Theorem TruncateString_length text maxLength :
  (maxLength < 0 -> Utils.TruncateString text maxLength = Panicked)
  /\ (0 <= maxLength ->
      exists s,
        Utils.TruncateString text maxLength = Returned s
        /\ Z.of_nat (String.length s) = Z.min (Z.of_nat (String.length text)) maxLength
        /\ (Z.of_nat (String.length text) <= maxLength -> s = text)).
Proof.
  unfold Utils.TruncateString. split.
  - intros Hneg.
    destruct (Z.leb_spec (Z.of_nat (String.length text)) maxLength); [lia|].
    destruct (Z.leb_spec maxLength 3); [|lia].
    by destruct (Z.ltb_spec maxLength 0); [|lia].
  - intros Hpos.
    destruct (Z.leb_spec (Z.of_nat (String.length text)) maxLength).
    { exists text. repeat split; lia. }
    destruct (Z.leb_spec maxLength 3).
    + destruct (Z.ltb_spec maxLength 0); [lia|].
      eexists. split; [done|]. rewrite substring_0_length. split; lia.
    + eexists. split; [done|]. rewrite string_length_app, substring_0_length.
      cbn [String.length]. split; lia.
Qed.

(** The theorem at a bound of -1 and at a bound of 8 on a text of 12 bytes. *)
Lemma TruncateString_length_witness :
  Utils.TruncateString "subscription" (-1) = Panicked
  /\ exists s,
       Utils.TruncateString "subscription" 8 = Returned s
       /\ Z.of_nat (String.length s) = Z.min (Z.of_nat (String.length "subscription")) 8
       /\ (Z.of_nat (String.length "subscription") <= 8 -> s = "subscription").
Proof.
  split.
  - apply (proj1 (TruncateString_length "subscription" (-1))). lia.
  - apply (proj2 (TruncateString_length "subscription" 8)). lia.
Defined.

(** ** The user-triggered transitions, row by row *)

(* lemmas *)
Lemma GetSubscriptionByIDForReactivation_run id w :
  GetSubscriptionByIDForReactivation id w
  = (if fault_at 0 w then inr ErrDriver
     else match subscriptions w !! id with
          | None => inr (Errorf "subscription not found")
          | Some sub => inl sub
          end,
     send (SelectSubscriptionRow id) w).
Proof. rewrite <- fault_at_0. run. by repeat mcase. Qed.

(** An [Update] of the row read under a primary key rewrites that row. *)
Lemma Update_keyed_row w w0 id r subscription :
  keyed w -> subscriptions w0 = subscriptions w -> clock w0 = clock w ->
  subscriptions w !! id = Some r ->
  ID subscription = ID r -> 
  fst (Update subscription w0) = None ->
  subscriptions (snd (Update subscription w0))
  = <[id := updated_row subscription r (clock w)]> (subscriptions w).
Proof.
  intros Hk Hs Hc Hr Hid Hnil.
  destruct (Update_subscriptions subscription w0 Hnil) as (r' & Hr' & ->).
  rewrite Hs, Hid, (Hk id r Hr) in Hr'. rewrite Hr in Hr'. injection Hr' as <-.
  by rewrite Hs, Hc, Hid, (Hk id r Hr).
Qed.

(** [ReactivateSubscription], test by test. *)
Lemma ReactivateSubscription_run subscriptionID userID w :
  ReactivateSubscription subscriptionID userID w
  = let w0 := send (SelectSubscriptionRow subscriptionID) w in
    if fault_at 0 w
    then (None, Some (Wrapf "failed to get subscription" ErrDriver), w0)
    else match subscriptions w !! subscriptionID with
    | None =>
        (None, Some (Wrapf "failed to get subscription" (Errorf "subscription not found")),
         w0)
    | Some r =>
        if negb (String.eqb (UserID r) userID) then (None, Some ErrUnauthorizedAccess, w0)
        else if negb (bool_decide (Status r = StatusCancelled))
        then (None,
              Some (Errorf
                      ("only cancelled subscriptions can be reactivated, current status: "
                       ++ status_string (Status r))), w0)
        else
          let subscription :=
            set_UpdatedAt (clock w)
              (set_PauseEndDate None (set_PauseStartDate None (set_Status StatusActive r))) in
          match Update subscription w0 with
          | (Some e, w1) => (None, Some (Wrapf "failed to reactivate subscription" e), w1)
          | (None, w1) =>
              let w2 := send (SelectSubscriptionJoinPlan subscriptionID) w1 in
              if fault_at 0 w1 then
                (if fault_at 0 w2 then None
                 else match meal_plans w1 !! MealPlanID r with
                      | Some mp => Some {| Sub := subscription; Plan := mp |}
                      | None => None
                      end,
                 None, send (SelectMealPlan (MealPlanID r)) w2)
              else (joined_row w1 subscriptionID, None, w2)
          end
    end.
Proof.
  unfold ReactivateSubscription. unfold bind at 1.
  rewrite GetSubscriptionByIDForReactivation_run. cbv zeta.
  destruct (fault_at 0 w); [done|].
  destruct (subscriptions w !! subscriptionID) as [r|]; [|done].
  destruct (negb (String.eqb (UserID r) userID)); [done|].
  destruct (negb (bool_decide (Status r = StatusCancelled))); [done|].
  cbv [bind timeNow gets]. mred.
  match goal with |- context [Update ?s ?w0] => destruct (Update s w0) as [[e|] w1] end;
    [done|].
  rewrite GetByID_run. destruct (fault_at 0 w1); [|done].
  rewrite MealPlanRepository_GetByID_run.
  cbn [MealPlanID set_UpdatedAt set_PauseEndDate set_PauseStartDate set_Status meal_plans send].
  destruct (fault_at 0 _); [done|].
  by destruct (meal_plans w1 !! MealPlanID r).
Qed.

(** The tables after each user-triggered transition that went through. *)
Lemma PauseSubscription_table w subscriptionID userID startDate endDate :
  keyed w ->
  fst (PauseSubscription subscriptionID userID startDate endDate w) = None ->
  exists r,
    subscriptions w !! subscriptionID = Some r
    /\ UserID r = userID /\ Status r = StatusActive
    /\ clock w <= startDate <= endDate
    /\ subscriptions (snd (PauseSubscription subscriptionID userID startDate endDate w))
       = <[subscriptionID :=
             moved_row StatusPaused (Some (startDate, endDate)) (clock w) r]>
           (subscriptions w).
Proof.
  intros Hk.
  cbv [PauseSubscription After Before bind ret gets timeNow]. mred.
  destruct (Z.ltb_spec endDate startDate); mred; [done|].
  destruct (Z.ltb_spec startDate (clock w)); mred; [done|].
  rewrite GetByID_run. destruct (fault_at 0 w); [done|].
  destruct (joined_row w subscriptionID) as [d|] eqn:Hd; [|done].
  destruct (joined_row_keyed w subscriptionID d Hk Hd) as [Hsub Hid].
  destruct (String.eqb_spec (UserID (Sub d)) userID) as [Hu|]; [|done]. cbn [negb].
  case_bool_decide as Hs; [|done]. cbn [negb].
  match goal with
  | |- context [Update ?s ?w0] =>
      pose proof (Update_keyed_row w w0 subscriptionID (Sub d) s Hk eq_refl eq_refl
                    Hsub eq_refl) as Hupd;
      destruct (Update s w0) as [[e|] w1]
  end; [done|].
  intros _. exists (Sub d). repeat split; try done. by apply Hupd.
Qed.

Lemma ResumeSubscription_table w subscriptionID userID :
  keyed w ->
  fst (ResumeSubscription subscriptionID userID w) = None ->
  exists r,
    subscriptions w !! subscriptionID = Some r
    /\ UserID r = userID /\ Status r = StatusPaused
    /\ subscriptions (snd (ResumeSubscription subscriptionID userID w))
       = <[subscriptionID := moved_row StatusActive None (clock w) r]> (subscriptions w).
Proof.
  intros Hk. unfold ResumeSubscription, bind, ret. rewrite GetByID_run.
  destruct (fault_at 0 w); [done|].
  destruct (joined_row w subscriptionID) as [d|] eqn:Hd; [|done].
  destruct (joined_row_keyed w subscriptionID d Hk Hd) as [Hsub Hid].
  destruct (String.eqb_spec (UserID (Sub d)) userID) as [Hu|]; [|done]. cbn [negb].
  case_bool_decide as Hs; [|done]. cbn [negb].
  match goal with
  | |- context [Update ?s ?w0] =>
      pose proof (Update_keyed_row w w0 subscriptionID (Sub d) s Hk eq_refl eq_refl
                    Hsub eq_refl) as Hupd;
      destruct (Update s w0) as [[e|] w1]
  end; [done|].
  intros _. exists (Sub d). repeat split; try done. by apply Hupd.
Qed.

Lemma CancelSubscription_table w subscriptionID userID :
  keyed w ->
  fst (CancelSubscription subscriptionID userID w) = None ->
  exists r,
    subscriptions w !! subscriptionID = Some r
    /\ UserID r = userID /\ Status r <> StatusCancelled
    /\ subscriptions (snd (CancelSubscription subscriptionID userID w))
       = <[subscriptionID := moved_row StatusCancelled None (clock w) r]>
           (subscriptions w).
Proof.
  intros Hk. unfold CancelSubscription, bind, ret. rewrite GetByID_run.
  destruct (fault_at 0 w); [done|].
  destruct (joined_row w subscriptionID) as [d|] eqn:Hd; [|done].
  destruct (joined_row_keyed w subscriptionID d Hk Hd) as [Hsub Hid].
  destruct (String.eqb_spec (UserID (Sub d)) userID) as [Hu|]; [|done]. cbn [negb].
  case_bool_decide as Hs; [done|].
  match goal with
  | |- context [Update ?s ?w0] =>
      pose proof (Update_keyed_row w w0 subscriptionID (Sub d) s Hk eq_refl eq_refl
                    Hsub eq_refl) as Hupd;
      destruct (Update s w0) as [[e|] w1]
  end; [done|].
  intros _. exists (Sub d). repeat split; try done. by apply Hupd.
Qed.

Lemma ReactivateSubscription_table w subscriptionID userID :
  keyed w ->
  snd (fst (ReactivateSubscription subscriptionID userID w)) = None ->
  exists r,
    subscriptions w !! subscriptionID = Some r
    /\ UserID r = userID /\ Status r = StatusCancelled
    /\ subscriptions (snd (ReactivateSubscription subscriptionID userID w))
       = <[subscriptionID := moved_row StatusActive None (clock w) r]> (subscriptions w).
Proof.
  intros Hk. rewrite ReactivateSubscription_run. cbv zeta.
  destruct (fault_at 0 w); [done|].
  destruct (subscriptions w !! subscriptionID) as [r|] eqn:Hsub; [|done].
  destruct (String.eqb_spec (UserID r) userID) as [Hu|]; [|done]. cbn [negb].
  case_bool_decide as Hs; [|done]. cbn [negb].
  match goal with
  | |- context [Update ?s ?w0] =>
      pose proof (Update_keyed_row w w0 subscriptionID r s Hk eq_refl eq_refl
                    Hsub eq_refl) as Hupd;
      destruct (Update s w0) as [[e|] w1]
  end; [done|].
  specialize (Hupd eq_refl). cbn [snd] in Hupd.
  intros _. exists r. repeat split; try done.
  by destruct (fault_at 0 w1).
Qed.

(** On a store whose rows are filed under their id, each user-triggered
    transition that returns without an error found the caller's row in the
    status it starts from (active for a pause, paused for a resume, not
    cancelled for a cancel, cancelled for a reactivation) and left the table
    as it was but for that row, which has the new status, the new pause
    window (the requested one for a pause, none otherwise) and the clock as
    [updated_at]. *)
Theorem lifecycle_transitions w subscriptionID userID :
  keyed w ->
  (forall startDate endDate,
      fst (PauseSubscription subscriptionID userID startDate endDate w) = None ->
      exists r,
        subscriptions w !! subscriptionID = Some r
        /\ UserID r = userID /\ Status r = StatusActive
        /\ clock w <= startDate <= endDate
        /\ subscriptions (snd (PauseSubscription subscriptionID userID startDate endDate w))
           = <[subscriptionID :=
                 moved_row StatusPaused (Some (startDate, endDate)) (clock w) r]>
               (subscriptions w))
  /\ (fst (ResumeSubscription subscriptionID userID w) = None ->
      exists r,
        subscriptions w !! subscriptionID = Some r
        /\ UserID r = userID /\ Status r = StatusPaused
        /\ subscriptions (snd (ResumeSubscription subscriptionID userID w))
           = <[subscriptionID := moved_row StatusActive None (clock w) r]>
               (subscriptions w))
  /\ (fst (CancelSubscription subscriptionID userID w) = None ->
      exists r,
        subscriptions w !! subscriptionID = Some r
        /\ UserID r = userID /\ Status r <> StatusCancelled
        /\ subscriptions (snd (CancelSubscription subscriptionID userID w))
           = <[subscriptionID := moved_row StatusCancelled None (clock w) r]>
               (subscriptions w))
  /\ (snd (fst (ReactivateSubscription subscriptionID userID w)) = None ->
      exists r,
        subscriptions w !! subscriptionID = Some r
        /\ UserID r = userID /\ Status r = StatusCancelled
        /\ subscriptions (snd (ReactivateSubscription subscriptionID userID w))
           = <[subscriptionID := moved_row StatusActive None (clock w) r]>
               (subscriptions w)).
Proof.
  intros Hk. split; [|split; [|split]].
  - intros startDate endDate. by apply PauseSubscription_table.
  - by apply ResumeSubscription_table.
  - by apply CancelSubscription_table.
  - by apply ReactivateSubscription_table.
Qed.

(** The theorem for a cancel of the active sample subscription. *)
Lemma lifecycle_transitions_witness :
  exists r,
    subscriptions (Sample.one_sub StatusActive None) !! "sub-1" = Some r
    /\ UserID r = "user-1" /\ Status r <> StatusCancelled
    /\ subscriptions (snd (CancelSubscription "sub-1" "user-1"
                             (Sample.one_sub StatusActive None)))
       = <["sub-1" := moved_row StatusCancelled None 1000 r]>
           (subscriptions (Sample.one_sub StatusActive None)).
Proof.
  destruct (lifecycle_transitions (Sample.one_sub StatusActive None) "sub-1" "user-1")
    as (_ & _ & Hcancel & _).
  - intros k r. unfold Sample.one_sub, Sample.store. cbn [subscriptions].
    intros [<- <-]%lookup_singleton_Some. reflexivity.
  - apply Hcancel. vm_compute. reflexivity.
Defined.

(** [UpdateSubscription], test by test. *)
Lemma UpdateSubscription_run subscriptionID userID req w :
  UpdateSubscription subscriptionID userID req w
  = match Utils.ValidateMealTypes
            (convertMealTypesToStrings (CreateSubscriptionRequest.MealTypes req)) with
    | Some _ => (None, Some ErrInvalidMealTypes, w)
    | None =>
    match Utils.ValidateDeliveryDays
            (convertDeliveryDaysToStrings
               (CreateSubscriptionRequest.DeliveryDays req)) with
    | Some _ => (None, Some ErrInvalidDeliveryDays, w)
    | None =>
      let w0 := send (SelectSubscriptionJoinPlan subscriptionID) w in
      if fault_at 0 w
      then (None, Some (Wrapf "failed to get subscription" ErrDriver), w0)
      else match joined_row w subscriptionID with
      | None => (None, Some ErrSubscriptionNotFound, w0)
      | Some d =>
          if negb (String.eqb (UserID (Sub d)) userID)
          then (None, Some ErrUnauthorizedAccess, w0)
          else if bool_decide (Status (Sub d) = StatusCancelled)
          then (None, Some (Errorf "cannot update cancelled subscription"), w0)
          else
            let planID := CreateSubscriptionRequest.MealPlanID req in
            let w1 := send (SelectMealPlan planID) w0 in
            if fault_at 1 w then (None, Some ErrInvalidMealPlan, w1)
            else match meal_plans w !! planID with
            | None => (None, Some ErrInvalidMealPlan, w1)
            | Some mealPlan =>
                match Update (edited_entity req (MealPlan.Price mealPlan) (Sub d)) w1 with
                | (Some e, w2) =>
                    (None, Some (Wrapf "failed to update subscription" e), w2)
                | (None, w2) =>
                    (if fault_at 0 w2
                     then (None, Some (Wrapf "failed to get updated subscription"
                                         ErrDriver))
                     else (joined_row w2 subscriptionID, None),
                     send (SelectSubscriptionJoinPlan subscriptionID) w2)
                end
            end
      end
    end
    end.
Proof.
  unfold UpdateSubscription.
  destruct (Utils.ValidateMealTypes _); [done|].
  destruct (Utils.ValidateDeliveryDays _); [done|].
  unfold bind at 1. rewrite GetByID_run. cbv zeta.
  destruct (fault_at 0 w); [done|].
  destruct (joined_row w subscriptionID) as [d|]; [|done].
  destruct (negb (String.eqb (UserID (Sub d)) userID)); [done|].
  destruct (bool_decide (Status (Sub d) = StatusCancelled)); [done|].
  unfold bind at 1. rewrite MealPlanRepository_GetByID_run, fault_at_send.
  destruct (fault_at 1 w); [done|]. cbn [meal_plans send].
  destruct (meal_plans w !! _) as [mealPlan|]; [|done].
  unfold bind at 1. fold (edited_entity req (MealPlan.Price mealPlan) (Sub d)).
  destruct (Update _ _) as [[e|] w2]; [done|].
  unfold bind, ret. rewrite GetByID_run. by destruct (fault_at 0 w2).
Qed.

(** [Update] leaves the plans, the clock and the ULID source alone. *)
Lemma Update_frame subscription w :
  let w' := snd (Update subscription w) in
  meal_plans w' = meal_plans w /\ clock w' = clock w /\ ulids w' = ulids w.
Proof.
  rewrite Update_run. cbv zeta.
  destruct (fault_at 1 w); [done|].
  destruct (subscriptions w !! ID subscription) as [r|]; [|done].
  match goal with
  | |- context [LogSubscriptionAction ?a ?b ?c ?d ?e ?w0] =>
      destruct (LogSubscriptionAction_frame a b c d e w0) as (_ & -> & -> & ->)
  end.
  done.
Qed.

(** An [UpdateSubscription] that returns without an error rewrote the
    caller's row, which was not cancelled: the meal types, the delivery
    days and the allergies are the request's and the price is computed from
    the plan the request names, while the status, the pause dates and the
    meal plan id stay as stored.  The row keeps the plan it was subscribed
    to also when the request names another one, and the details returned
    show that plan. *)
Theorem UpdateSubscription_keeps_plan_and_status w subscriptionID userID req details :
  keyed w ->
  fst (UpdateSubscription subscriptionID userID req w) = (details, None) ->
  exists r mealPlan subscribedPlan,
    subscriptions w !! subscriptionID = Some r
    /\ UserID r = userID /\ Status r <> StatusCancelled
    /\ meal_plans w !! CreateSubscriptionRequest.MealPlanID req = Some mealPlan
    /\ meal_plans w !! MealPlanID r = Some subscribedPlan
    /\ let row := edited_row req (MealPlan.Price mealPlan) (clock w) r in
       subscriptions (snd (UpdateSubscription subscriptionID userID req w))
       = <[subscriptionID := row]> (subscriptions w)
       /\ details = Some {| Sub := row; Plan := joined_plan row subscribedPlan |}
       /\ MealPlanID row = MealPlanID r
       /\ Status row = Status r
       /\ PauseStartDate row = PauseStartDate r
       /\ PauseEndDate row = PauseEndDate r
       /\ TotalPrice row
          = Utils.CalculateSubscriptionPrice (MealPlan.Price mealPlan)
              (CreateSubscriptionRequest.MealTypes req)
              (CreateSubscriptionRequest.DeliveryDays req).
Proof.
  intros Hk. rewrite UpdateSubscription_run.
  destruct (Utils.ValidateMealTypes _); [done|].
  destruct (Utils.ValidateDeliveryDays _); [done|].
  cbv zeta. destruct (fault_at 0 w); [done|].
  destruct (joined_row w subscriptionID) as [d|] eqn:Hd; [|done].
  destruct (joined_row_keyed w subscriptionID d Hk Hd) as [Hsub Hid].
  destruct (String.eqb_spec (UserID (Sub d)) userID) as [Hu|]; [|done]. cbn [negb].
  case_bool_decide as Hs; [done|].
  destruct (fault_at 1 w); [done|].
  destruct (meal_plans w !! _) as [mealPlan|] eqn:Hplan; [|done].
  match goal with
  | |- context [Update ?s ?w0] =>
      pose proof (Update_keyed_row w w0 subscriptionID (Sub d) s Hk eq_refl eq_refl
                    Hsub eq_refl) as Hupd;
      pose proof (Update_frame s w0) as (Hmp & _);
      destruct (Update s w0) as [[e|] w2]
  end; [done|].
  specialize (Hupd eq_refl). cbn [snd meal_plans send] in Hupd, Hmp.
  change (updated_row _ _ _)
    with (edited_row req (MealPlan.Price mealPlan) (clock w) (Sub d)) in Hupd.
  destruct (fault_at 0 w2); [done|]. cbn [fst snd]. intros [= <-].
  assert (exists subscribedPlan, meal_plans w !! MealPlanID (Sub d) = Some subscribedPlan)
    as [subscribedPlan Hsp].
  { unfold joined_row in Hd. rewrite Hsub in Hd.
    destruct (meal_plans w !! MealPlanID (Sub d)); [by eexists|done]. }
  exists (Sub d), mealPlan, subscribedPlan.
  do 5 (split; [done|]). cbv zeta.
  split; [done|]. split.
  { unfold joined_row. cbn [subscriptions send]. rewrite Hupd, lookup_insert_eq, Hmp.
    cbn [MealPlanID edited_row]. by rewrite Hsp. }
  do 4 (split; [done|]).
  cbn [TotalPrice edited_row].
  unfold Utils.CalculateSubscriptionPrice, convertMealTypesToStrings,
    convertDeliveryDaysToStrings.
  by rewrite !length_map.
Qed.

(** The theorem for a request that names plan-royal on the subscription to
    plan-diet. *)
Lemma UpdateSubscription_keeps_plan_and_status_witness :
  exists r mealPlan subscribedPlan,
    subscriptions Sample.two_plans !! "sub-1" = Some r
    /\ UserID r = "user-1" /\ Status r <> StatusCancelled
    /\ meal_plans Sample.two_plans !! "plan-royal" = Some mealPlan
    /\ meal_plans Sample.two_plans !! MealPlanID r = Some subscribedPlan
    /\ let row := edited_row Sample.request_royal (MealPlan.Price mealPlan) 1000 r in
       subscriptions (snd (UpdateSubscription "sub-1" "user-1" Sample.request_royal
                             Sample.two_plans))
       = <["sub-1" := row]> (subscriptions Sample.two_plans)
       /\ fst (fst (UpdateSubscription "sub-1" "user-1" Sample.request_royal
                      Sample.two_plans))
          = Some {| Sub := row; Plan := joined_plan row subscribedPlan |}
       /\ MealPlanID row = MealPlanID r
       /\ Status row = Status r
       /\ PauseStartDate row = PauseStartDate r
       /\ PauseEndDate row = PauseEndDate r
       /\ TotalPrice row
          = Utils.CalculateSubscriptionPrice (MealPlan.Price mealPlan)
              [MealTypeLunch] [DayMonday; DayWednesday; DayFriday].
Proof.
  apply (UpdateSubscription_keeps_plan_and_status Sample.two_plans "sub-1" "user-1"
           Sample.request_royal).
  - intros k r. unfold Sample.two_plans, Sample.store. cbn [subscriptions].
    intros [<- <-]%lookup_singleton_Some. reflexivity.
  - vm_compute. reflexivity.
Defined.

(** ** Round trips on a store without faults *)

Lemma fault_at_nil n w : faults w = [] -> fault_at n w = false.
Proof. unfold fault_at. intros ->. by destruct n. Qed.

Lemma faults_send s w : faults w = [] -> faults (send s w) = [].
Proof. cbn [faults send]. by intros ->. Qed.

Lemma LogSubscriptionAction_ok subscriptionID userID act oldStatus newStatus w :
  faults w = [] ->
  leaves (snd (LogSubscriptionAction subscriptionID userID act oldStatus newStatus w))
    (subscriptions w)
    (append_row (audit_row subscriptionID userID act oldStatus newStatus (clock w))
       (subscription_audit w))
    w.
Proof.
  intros Hf. rewrite LogSubscriptionAction_run. cbn [snd].
  rewrite !fault_at_nil by done.
  destruct (subscription_audit w) as [rows|] eqn:Ha;
    split; cbn [subscriptions subscription_audit meal_plans clock faults
                set_subscription_audit send]; try done; by rewrite Hf.
Qed.

Lemma Update_ok subscription w r :
  faults w = [] ->
  subscriptions w !! ID subscription = Some r ->
  fst (Update subscription w) = None
  /\ leaves (snd (Update subscription w))
       (<[ID subscription := updated_row subscription r (clock w)]> (subscriptions w))
       (append_row
          (audit_row (ID subscription) (UserID subscription)
             (update_action (status_string (Status r)) (Status subscription))
             (status_string (Status r))
             (status_string (Status subscription)) (clock w))
          (subscription_audit w))
       w.
Proof.
  intros Hf Hr. rewrite Update_run. cbv zeta.
  rewrite !fault_at_nil, Hr by done.
  split; [apply LogSubscriptionAction_nil|].
  match goal with
  | |- context [LogSubscriptionAction ?a ?b ?c ?d ?e ?w0] =>
      destruct (LogSubscriptionAction_ok a b c d e w0) as [H1 H2 H3 H4 H5]
  end; [by cbn [faults set_subscriptions send]; rewrite Hf|].
  by split.
Qed.

Lemma joined_row_Some w id r :
  subscriptions w !! id = Some r -> is_Some (meal_plans w !! MealPlanID r) ->
  exists mp, joined_row w id = Some {| Sub := r; Plan := joined_plan r mp |}.
Proof. intros Hr [mp Hmp]. exists mp. unfold joined_row. by rewrite Hr, Hmp. Qed.

Lemma CancelSubscription_ok w subscriptionID r :
  keyed w -> faults w = [] ->
  subscriptions w !! subscriptionID = Some r ->
  is_Some (meal_plans w !! MealPlanID r) ->
  Status r <> StatusCancelled ->
  fst (CancelSubscription subscriptionID (UserID r) w) = None
  /\ leaves (snd (CancelSubscription subscriptionID (UserID r) w))
       (<[subscriptionID := moved_row StatusCancelled None (clock w) r]> (subscriptions w))
       (append_row (transition_audit subscriptionID (UserID r) "cancelled"
                     (Status r) StatusCancelled (clock w))
          (subscription_audit w))
       w.
Proof.
  intros Hk Hf Hr Hmp Hs.
  destruct (joined_row_Some w subscriptionID r Hr Hmp) as [mp Hd].
  pose proof (Hk _ _ Hr) as Hid.
  unfold CancelSubscription, bind, ret. rewrite GetByID_run, fault_at_nil, Hd by done.
  cbn [Sub]. rewrite String.eqb_refl, bool_decide_eq_false_2 by done. cbn [negb].
  match goal with
  | |- context [Update ?s ?w0] =>
      destruct (Update_ok s w0 r) as [Hnil Hl]
  end; [by apply faults_send|by cbn [ID set_PauseEndDate set_PauseStartDate set_Status subscriptions send]; rewrite Hid|].
  match goal with
  | |- context [Update ?s ?w0] => destruct (Update s w0) as [e w1]
  end.
  cbn [fst snd] in *. subst e. split; [done|].
  destruct Hl as [H1 H2 H3 H4 H5].
  cbn [ID UserID Status set_PauseEndDate set_PauseStartDate set_Status subscriptions
       subscription_audit clock send meal_plans] in *.
  rewrite Hid in *. split; try done.
  cbn [snd]. rewrite H2. unfold transition_audit, update_action.
  by destruct (Status r).
Qed.

(** The steps shared by the proofs below: the [Update] of a row of a
    store without faults, then the bookkeeping. *)
Ltac finish_transition r Hid :=
  match goal with
  | |- context [Update ?s ?w0] =>
      let Hnil := fresh "Hnil" in
      let Hl := fresh "Hl" in
      let e := fresh "e" in
      let w1 := fresh "w1" in
      destruct (Update_ok s w0 r) as [Hnil Hl];
      [by apply faults_send
      |by cbn [ID set_UpdatedAt set_PauseEndDate set_PauseStartDate set_Status
               subscriptions send]; rewrite Hid
      |];
      destruct (Update s w0) as [e w1];
      cbn [fst snd] in *; subst e;
      destruct Hl as [? Haudit ? ? ?];
      cbn [ID UserID Status set_UpdatedAt set_PauseEndDate set_PauseStartDate set_Status
           subscriptions subscription_audit clock send meal_plans faults] in *;
      rewrite Hid in *
  end.

Lemma PauseSubscription_ok w subscriptionID r startDate endDate :
  keyed w -> faults w = [] ->
  subscriptions w !! subscriptionID = Some r ->
  is_Some (meal_plans w !! MealPlanID r) ->
  Status r = StatusActive ->
  clock w <= startDate <= endDate ->
  fst (PauseSubscription subscriptionID (UserID r) startDate endDate w) = None
  /\ leaves (snd (PauseSubscription subscriptionID (UserID r) startDate endDate w))
       (<[subscriptionID :=
            moved_row StatusPaused (Some (startDate, endDate)) (clock w) r]>
          (subscriptions w))
       (append_row (transition_audit subscriptionID (UserID r) "paused"
                     StatusActive StatusPaused (clock w))
          (subscription_audit w))
       w.
Proof.
  intros Hk Hf Hr Hmp Hs Hdates.
  destruct (joined_row_Some w subscriptionID r Hr Hmp) as [mp Hd].
  pose proof (Hk _ _ Hr) as Hid.
  cbv [PauseSubscription After Before bind ret gets timeNow]. mred.
  destruct (Z.ltb_spec endDate startDate); [lia|]. mred.
  destruct (Z.ltb_spec startDate (clock w)); [lia|]. mred.
  rewrite GetByID_run, fault_at_nil, Hd by done.
  cbn [Sub]. rewrite String.eqb_refl, bool_decide_eq_true_2 by done. cbn [negb].
  finish_transition r Hid.
  split; [done|]. split; try done.
  cbn [snd]. rewrite Haudit. unfold transition_audit, update_action. by rewrite Hs.
Qed.

Lemma ResumeSubscription_ok w subscriptionID r :
  keyed w -> faults w = [] ->
  subscriptions w !! subscriptionID = Some r ->
  is_Some (meal_plans w !! MealPlanID r) ->
  Status r = StatusPaused ->
  fst (ResumeSubscription subscriptionID (UserID r) w) = None
  /\ leaves (snd (ResumeSubscription subscriptionID (UserID r) w))
       (<[subscriptionID := moved_row StatusActive None (clock w) r]> (subscriptions w))
       (append_row (transition_audit subscriptionID (UserID r) "resumed"
                     StatusPaused StatusActive (clock w))
          (subscription_audit w))
       w.
Proof.
  intros Hk Hf Hr Hmp Hs.
  destruct (joined_row_Some w subscriptionID r Hr Hmp) as [mp Hd].
  pose proof (Hk _ _ Hr) as Hid.
  unfold ResumeSubscription, bind, ret. rewrite GetByID_run, fault_at_nil, Hd by done.
  cbn [Sub]. rewrite String.eqb_refl, bool_decide_eq_true_2 by done. cbn [negb].
  finish_transition r Hid.
  split; [done|]. split; try done.
  cbn [snd]. rewrite Haudit. unfold transition_audit, update_action. by rewrite Hs.
Qed.

Lemma ReactivateSubscription_ok w subscriptionID r :
  keyed w -> faults w = [] ->
  subscriptions w !! subscriptionID = Some r ->
  Status r = StatusCancelled ->
  snd (fst (ReactivateSubscription subscriptionID (UserID r) w)) = None
  /\ leaves (snd (ReactivateSubscription subscriptionID (UserID r) w))
       (<[subscriptionID := moved_row StatusActive None (clock w) r]> (subscriptions w))
       (append_row (transition_audit subscriptionID (UserID r) "reactivated"
                     StatusCancelled StatusActive (clock w))
          (subscription_audit w))
       w.
Proof.
  intros Hk Hf Hr Hs.
  pose proof (Hk _ _ Hr) as Hid.
  rewrite ReactivateSubscription_run. cbv zeta.
  rewrite fault_at_nil, Hr by done.
  rewrite String.eqb_refl, bool_decide_eq_true_2 by done. cbn [negb].
  finish_transition r Hid.
  rewrite (fault_at_nil 0 w1) by done. cbn [fst snd].
  split; [done|]. split; try done.
  - cbn [subscription_audit send]. rewrite Haudit.
    unfold transition_audit, update_action. by rewrite Hs.
  - by apply faults_send.
Qed.

Lemma keyed_insert w w' id row :
  keyed w -> ID row = id -> subscriptions w' = <[id := row]> (subscriptions w) ->
  keyed w'.
Proof.
  intros Hk Hid Hs k r. rewrite Hs, lookup_insert_Some.
  intros [[<- <-]|[_ Hr]]; [done|by apply Hk].
Qed.

(** On a store without faults ahead and with an audit table: cancelling a
    subscription and reactivating it at a later time, and pausing an active
    subscription and resuming it, succeed and leave the row active, with no
    pause window and the later time as [updated_at], every other row as it
    was, and two more audit rows, one per transition, with the status
    before and after. *)
Theorem round_trips_leave_active w subscriptionID r rows later :
  keyed w -> faults w = [] -> subscription_audit w = Some rows ->
  subscriptions w !! subscriptionID = Some r ->
  is_Some (meal_plans w !! MealPlanID r) ->
  (Status r <> StatusCancelled ->
   let '(err, w1) := CancelSubscription subscriptionID (UserID r) w in
   let '(res, w2) :=
     ReactivateSubscription subscriptionID (UserID r) (set_clock later w1) in
   err = None /\ snd res = None
   /\ subscriptions w2
      = <[subscriptionID := moved_row StatusActive None later r]> (subscriptions w)
   /\ subscription_audit w2
      = Some (rows
              ++ [transition_audit subscriptionID (UserID r) "cancelled"
                    (Status r) StatusCancelled (clock w);
                  transition_audit subscriptionID (UserID r) "reactivated"
                    StatusCancelled StatusActive later])%list)
  /\ (Status r = StatusActive ->
      forall startDate endDate,
        clock w <= startDate <= endDate ->
        let '(err, w1) :=
          PauseSubscription subscriptionID (UserID r) startDate endDate w in
        let '(err', w2) :=
          ResumeSubscription subscriptionID (UserID r) (set_clock later w1) in
        err = None /\ err' = None
        /\ subscriptions w2
           = <[subscriptionID := moved_row StatusActive None later r]> (subscriptions w)
        /\ subscription_audit w2
           = Some (rows
                   ++ [transition_audit subscriptionID (UserID r) "paused"
                         StatusActive StatusPaused (clock w);
                       transition_audit subscriptionID (UserID r) "resumed"
                         StatusPaused StatusActive later])%list).
Proof.
  intros Hk Hf Ha Hr Hmp. split.
  - intros Hs.
    destruct (CancelSubscription_ok w subscriptionID r Hk Hf Hr Hmp Hs)
      as [Herr [H1 H2 H3 H4 H5]].
    destruct (CancelSubscription subscriptionID (UserID r) w) as [err w1].
    cbn [fst snd] in *.
    set (r1 := moved_row StatusCancelled None (clock w) r) in *.
    destruct (ReactivateSubscription_ok (set_clock later w1) subscriptionID r1)
      as [Herr' [H1' H2' H3' H4' H5']]; try done.
    { apply (keyed_insert w _ subscriptionID r1 Hk); [exact (Hk _ _ Hr)|done]. }
    { cbn [subscriptions set_clock]. by rewrite H1, lookup_insert_eq. }
    change (UserID r1) with (UserID r) in *.
    destruct (ReactivateSubscription subscriptionID (UserID r) (set_clock later w1))
      as [res w2].
    cbn [fst snd subscriptions subscription_audit clock set_clock] in *.
    split; [done|]. split; [done|]. split.
    + by rewrite H1', H1, insert_insert_eq.
    + rewrite H2', H2, Ha. cbn. by rewrite <- app_assoc.
  - intros Hs startDate endDate Hdates.
    destruct (PauseSubscription_ok w subscriptionID r startDate endDate
                Hk Hf Hr Hmp Hs Hdates) as [Herr [H1 H2 H3 H4 H5]].
    destruct (PauseSubscription subscriptionID (UserID r) startDate endDate w)
      as [err w1].
    cbn [fst snd] in *.
    set (r1 := moved_row StatusPaused (Some (startDate, endDate)) (clock w) r) in *.
    destruct (ResumeSubscription_ok (set_clock later w1) subscriptionID r1)
      as [Herr' [H1' H2' H3' H4' H5']]; try done.
    { apply (keyed_insert w _ subscriptionID r1 Hk); [exact (Hk _ _ Hr)|done]. }
    { cbn [subscriptions set_clock]. by rewrite H1, lookup_insert_eq. }
    { cbn [meal_plans set_clock]. by rewrite H3. }
    change (UserID r1) with (UserID r) in *.
    destruct (ResumeSubscription subscriptionID (UserID r) (set_clock later w1))
      as [err' w2].
    cbn [fst snd subscriptions subscription_audit clock set_clock] in *.
    split; [done|]. split; [done|]. split.
    + by rewrite H1', H1, insert_insert_eq.
    + rewrite H2', H2, Ha. cbn. by rewrite <- app_assoc.
Qed.

(** The theorem for a cancel at 1000 and a reactivation at 2000 on an
    empty audit table. *)
Lemma round_trips_leave_active_witness :
  let '(err, w1) :=
    CancelSubscription "sub-1" "user-1" (Sample.one_sub StatusActive None) in
  let '(res, w2) := ReactivateSubscription "sub-1" "user-1" (set_clock 2000 w1) in
  err = None /\ snd res = None
  /\ subscriptions w2
     = <["sub-1" := moved_row StatusActive None 2000 (Sample.sub "sub-1" StatusActive None)]>
         (subscriptions (Sample.one_sub StatusActive None))
  /\ subscription_audit w2
     = Some [transition_audit "sub-1" "user-1" "cancelled"
               StatusActive StatusCancelled 1000;
             transition_audit "sub-1" "user-1" "reactivated"
               StatusCancelled StatusActive 2000].
Proof.
  destruct (round_trips_leave_active (Sample.one_sub StatusActive None) "sub-1"
              (Sample.sub "sub-1" StatusActive None) [] 2000) as [Hcancel _].
  - intros k r. unfold Sample.one_sub, Sample.store. cbn [subscriptions].
    intros [<- <-]%lookup_singleton_Some. reflexivity.
  - reflexivity.
  - reflexivity.
  - vm_compute. reflexivity.
  - vm_compute. eauto.
  - apply Hcancel. vm_compute. discriminate.
Defined.

(** ** The primary key is an invariant *)

Section keeps_keys.
Context {A B : Type}.

Lemma keeps_ret (a : A) : keeps_keys (ret a).
Proof. by intros w. Qed.

Lemma keeps_bind (m : M A) (k : A -> M B) :
  keeps_keys m -> (forall a, keeps_keys (k a)) -> keeps_keys (bind m k).
Proof.
  intros Hm Hk w Hw. unfold bind. specialize (Hm w Hw).
  destruct (m w) as [a w']. by apply Hk.
Qed.

Lemma keeps_same_table (m : M A) :
  (forall w, subscriptions (snd (m w)) = subscriptions w) -> keeps_keys m.
Proof. intros Hm w Hw k r. rewrite Hm. apply Hw. Qed.

End keeps_keys.

Lemma keeps_dbCall s : keeps_keys (dbCall s).
Proof. by apply keeps_same_table. Qed.

Lemma keeps_timeNow : keeps_keys timeNow.
Proof. by apply keeps_same_table. Qed.

Lemma keeps_GenerateULID : keeps_keys GenerateULID.
Proof. by apply keeps_same_table. Qed.

Lemma keeps_GetByID id : keeps_keys (GetByID id).
Proof. apply keeps_same_table. intros w. by rewrite GetByID_run. Qed.

Lemma keeps_MealPlanRepository_GetByID id : keeps_keys (MealPlanRepository.GetByID id).
Proof. apply keeps_same_table. intros w. by rewrite MealPlanRepository_GetByID_run. Qed.

Lemma keeps_GetSubscriptionByIDForReactivation id :
  keeps_keys (GetSubscriptionByIDForReactivation id).
Proof.
  apply keeps_same_table. intros w. by rewrite GetSubscriptionByIDForReactivation_run.
Qed.

Lemma keeps_GetExpiredSubscriptions : keeps_keys GetExpiredSubscriptions.
Proof. apply keeps_same_table. intros w. by rewrite GetExpiredSubscriptions_run. Qed.

Lemma keeps_LogSubscriptionAction a b c d e : keeps_keys (LogSubscriptionAction a b c d e).
Proof.
  apply keeps_same_table. intros w.
  by destruct (LogSubscriptionAction_frame a b c d e w) as [-> _].
Qed.

(** [Update] rewrites the row it finds under the id: the key stays. *)
Lemma keeps_Update subscription : keeps_keys (Update subscription).
Proof.
  intros w Hw. rewrite Update_run. cbv zeta.
  destruct (fault_at 1 w); [done|].
  destruct (subscriptions w !! ID subscription) as [r|] eqn:Hr; [|done].
  apply keeps_LogSubscriptionAction.
  apply (keyed_insert w _ (ID subscription) (updated_row subscription r (clock w)) Hw);
    [exact (Hw _ _ Hr)|done].
Qed.

(** [Create] files the new row under its id. *)
Lemma keeps_Create subscription : keeps_keys (Create subscription).
Proof.
  intros w Hw. rewrite Create_run. cbv zeta.
  destruct (fault_at 0 w || _); [done|].
  apply keeps_LogSubscriptionAction.
  by apply (keyed_insert w _ (ID subscription)
              (set_PauseEndDate None (set_PauseStartDate None subscription)) Hw).
Qed.

(** [BulkUpdateStatus] writes the status and [updated_at] only. *)
Lemma keeps_BulkUpdateStatus ids status : keeps_keys (BulkUpdateStatus ids status).
Proof.
  intros w Hw. rewrite BulkUpdateStatus_run.
  destruct (length ids =? 0)%nat; [done|]. destruct (fault_at 0 w); [done|].
  intros k r. cbn [snd subscriptions set_subscriptions send]. rewrite lookup_fmap.
  destruct (subscriptions w !! k) as [r0|] eqn:Hr0; [|done].
  intros [= <-]. unfold bulk_row. case_bool_decide; exact (Hw _ _ Hr0).
Qed.

Lemma keeps_ForceCancelSubscription id reason adminComments :
  keeps_keys (AdminRepository.ForceCancelSubscription id reason adminComments).
Proof.
  intros w Hw. run. destruct (hd false (faults w)); mred; [done|].
  destruct (subscriptions w !! id) as [r|] eqn:Hr; mred; [|done].
  case_bool_decide; mred; [|done].
  eapply (keyed_insert w _ id); [done| |done]. exact (Hw _ _ Hr).
Qed.

Ltac keeps :=
  repeat first
    [ apply keeps_ret
    | apply keeps_dbCall
    | apply keeps_timeNow
    | apply keeps_GetByID
    | apply keeps_MealPlanRepository_GetByID
    | apply keeps_GetSubscriptionByIDForReactivation
    | apply keeps_GetExpiredSubscriptions
    | apply keeps_GenerateULID
    | apply keeps_Update
    | apply keeps_Create
    | apply keeps_BulkUpdateStatus
    | apply keeps_bind; [|intros]
    | match goal with
      | |- keeps_keys (let '(_, _) := ?p in _) => destruct p
      | |- keeps_keys (match ?x with _ => _ end) => destruct x
      end ].

(** Every operation of the subscription service, and the admin's
    force-cancel, keeps every row filed under its own id, whatever the
    faults; a store without subscriptions has the property.  So has every
    store that these operations reach from an empty table. *)
Theorem primary_key_is_invariant :
  (forall ctx req, keeps_keys (CreateSubscription ctx req))
  /\ (forall subscriptionID userID startDate endDate,
        keeps_keys (PauseSubscription subscriptionID userID startDate endDate))
  /\ (forall subscriptionID userID, keeps_keys (ResumeSubscription subscriptionID userID))
  /\ (forall subscriptionID userID, keeps_keys (CancelSubscription subscriptionID userID))
  /\ (forall subscriptionID userID,
        keeps_keys (ReactivateSubscription subscriptionID userID))
  /\ (forall subscriptionID userID req,
        keeps_keys (UpdateSubscription subscriptionID userID req))
  /\ keeps_keys ProcessExpiredPauses
  /\ (forall subscriptionID reason adminComments,
        keeps_keys (AdminRepository.ForceCancelSubscription
                      subscriptionID reason adminComments))
  /\ (forall w, subscriptions w = ∅ -> keyed w).
Proof.
  repeat split.
  - intros ctx req. unfold CreateSubscription. keeps.
  - intros. unfold PauseSubscription. keeps.
  - intros. unfold ResumeSubscription. keeps.
  - intros. unfold CancelSubscription. keeps.
  - intros. unfold ReactivateSubscription. keeps.
  - intros. unfold UpdateSubscription. keeps.
  - unfold ProcessExpiredPauses. keeps.
  - intros. apply keeps_ForceCancelSubscription.
  - intros w Hw k r. by rewrite Hw, lookup_empty.
Qed.

(** ** What the bulk resume touches *)

Lemma listed_is_expired w r :
  r ∈ List.filter (expired (clock w)) (snd <$> map_to_list (subscriptions w)) ->
  expired (clock w) r = true
  /\ exists k, subscriptions w !! k = Some r.
Proof.
  intros [Hin He]%list_elem_of_In%filter_In. split; [done|].
  apply list_elem_of_In, list_elem_of_fmap in Hin as [[k r'] [-> Hin]].
  exists k. by apply elem_of_map_to_list.
Qed.

Lemma bulk_row_expired w k r :
  keyed w -> subscriptions w !! k = Some r ->
  bulk_row (map ID (List.filter (expired (clock w))
                      (snd <$> map_to_list (subscriptions w))))
    StatusActive (clock w) r
  = resumed_if_expired (clock w) r.
Proof.
  intros Hk Hr. unfold bulk_row, resumed_if_expired.
  destruct (expired (clock w) r) eqn:He.
  - rewrite bool_decide_eq_true_2; [done|].
    apply list_elem_of_In, in_map, list_elem_of_In. by apply (expired_row_listed w k).
  - rewrite bool_decide_eq_false_2; [done|].
    intros Hin%list_elem_of_In%in_map_iff. destruct Hin as (r2 & Hid & Hin).
    apply list_elem_of_In, listed_is_expired in Hin as [He2 [k2 Hr2]].
    pose proof (Hk _ _ Hr) as H1. pose proof (Hk _ _ Hr2) as H2.
    assert (k2 = k) as -> by congruence.
    rewrite Hr in Hr2. injection Hr2 as <-. congruence.
Qed.

Lemma expired_resumed now r : expired now (resumed_if_expired now r) = false.
Proof.
  unfold resumed_if_expired. destruct (expired now r) eqn:He; [|done].
  unfold expired. cbn [Status set_UpdatedAt set_Status]. done.
Qed.

(** When neither statement fails, [ProcessExpiredPauses] makes active
    exactly the rows that are paused with a pause end before the clock,
    stamps them with the clock, and leaves every other row as it is;
    afterwards no row meets the condition of the expiry query. *)
Theorem ProcessExpiredPauses_resumes_the_expired w :
  keyed w -> fault_at 0 w = false -> fault_at 1 w = false ->
  fst (ProcessExpiredPauses w) = None
  /\ subscriptions (snd (ProcessExpiredPauses w))
     = resumed_if_expired (clock w) <$> subscriptions w
  /\ (forall k r',
        subscriptions (snd (ProcessExpiredPauses w)) !! k = Some r' ->
        expired (clock w) r' = false)
  /\ meal_plans (snd (ProcessExpiredPauses w)) = meal_plans w.
Proof.
  intros Hk H0 H1.
  assert (fst (ProcessExpiredPauses w) = None
          /\ subscriptions (snd (ProcessExpiredPauses w))
             = resumed_if_expired (clock w) <$> subscriptions w
          /\ meal_plans (snd (ProcessExpiredPauses w)) = meal_plans w)
    as (Hnil & Hsubs & Hplans).
  { rewrite (ProcessExpiredPauses_run w H0 H1). cbv zeta.
    destruct (length _ =? 0)%nat eqn:Hlen.
    - split; [done|]. split; [|done]. cbn [snd subscriptions send].
      apply Nat.eqb_eq, length_zero_iff_nil in Hlen.
      rewrite <- (map_fmap_id (subscriptions w)) at 1.
      apply map_fmap_ext. intros k r Hr. unfold resumed_if_expired.
      destruct (expired (clock w) r) eqn:He; [|done].
      pose proof (expired_row_listed w k r Hr He) as Hin.
      rewrite Hlen in Hin. by apply elem_of_nil in Hin.
    - split; [done|]. split; [|done]. cbn [snd subscriptions set_subscriptions send].
      apply map_fmap_ext. intros k r Hr. by apply (bulk_row_expired w k). }
  split; [done|]. split; [done|]. split; [|done].
  intros k r'. rewrite Hsubs, lookup_fmap.
  destruct (subscriptions w !! k) as [r|]; [|done].
  intros [= <-]. apply expired_resumed.
Qed.

(** The theorem on a subscription paused from 100 to 200, the clock at 1000. *)
Lemma ProcessExpiredPauses_resumes_the_expired_witness :
  let w := Sample.one_sub StatusPaused (Some (100, 200)) in
  fst (ProcessExpiredPauses w) = None
  /\ subscriptions (snd (ProcessExpiredPauses w))
     = resumed_if_expired 1000 <$> subscriptions w
  /\ (forall k r',
        subscriptions (snd (ProcessExpiredPauses w)) !! k = Some r' ->
        expired 1000 r' = false)
  /\ meal_plans (snd (ProcessExpiredPauses w)) = meal_plans w.
Proof.
  apply (ProcessExpiredPauses_resumes_the_expired
           (Sample.one_sub StatusPaused (Some (100, 200)))).
  - intros k r. unfold Sample.one_sub, Sample.store. cbn [subscriptions].
    intros [<- <-]%lookup_singleton_Some. reflexivity.
  - reflexivity.
  - reflexivity.
Defined.

(** ** The admin's force-cancel *)

Lemma ForceCancelSubscription_run subscriptionID reason adminComments w :
  AdminRepository.ForceCancelSubscription subscriptionID reason adminComments w
  = let w0 := send (UpdateForceCancel subscriptionID) w in
    if fault_at 0 w then (Some (Wrapf "failed to cancel subscription" ErrDriver), w0)
    else match subscriptions w !! subscriptionID with
         | Some r =>
             if bool_decide (Status r ≠ StatusCancelled)
             then (None,
                   set_subscriptions
                     (insert subscriptionID (moved_row StatusCancelled None (clock w) r))
                     w0)
             else (Some (Errorf "subscription not found or already cancelled"), w0)
         | None => (Some (Errorf "subscription not found or already cancelled"), w0)
         end.
Proof. rewrite <- fault_at_0. run. by repeat mcase. Qed.

(** [ForceCancelSubscription] of the admin repository, when its statement
    does not fail: it returns [nil] exactly when the row exists and is not
    cancelled, and then the row is cancelled with no pause window, which is
    the table the owner's own [CancelSubscription] leaves; otherwise the
    error reads "subscription not found or already cancelled" and the table
    is as it was.  The plans and the audit table are never touched. *)
Theorem ForceCancelSubscription_cancels w subscriptionID reason adminComments :
  fault_at 0 w = false ->
  let '(err, w') :=
    AdminRepository.ForceCancelSubscription subscriptionID reason adminComments w in
  (err = None
   <-> exists r, subscriptions w !! subscriptionID = Some r /\ Status r <> StatusCancelled)
  /\ (forall r,
        subscriptions w !! subscriptionID = Some r -> Status r <> StatusCancelled ->
        subscriptions w'
        = <[subscriptionID := moved_row StatusCancelled None (clock w) r]> (subscriptions w)
        /\ (keyed w -> faults w = [] -> is_Some (meal_plans w !! MealPlanID r) ->
            subscriptions w'
            = subscriptions (snd (CancelSubscription subscriptionID (UserID r) w))))
  /\ (err <> None ->
      err = Some (Errorf "subscription not found or already cancelled")
      /\ subscriptions w' = subscriptions w)
  /\ meal_plans w' = meal_plans w
  /\ subscription_audit w' = subscription_audit w.
Proof.
  intros H0. rewrite ForceCancelSubscription_run, H0. cbv zeta.
  destruct (subscriptions w !! subscriptionID) as [r|] eqn:Hr.
  - case_bool_decide as Hs.
    + split; [split; [by exists r|done]|].
      split; [|done]. intros ? [= <-] _. split; [done|].
      intros Hk Hf Hmp. cbn [subscriptions set_subscriptions send].
      destruct (CancelSubscription_table w subscriptionID (UserID r) Hk)
        as (r' & Hr' & _ & _ & ->).
      { destruct (joined_row_Some w subscriptionID r Hr Hmp) as [mp Hd].
        rewrite CancelSubscription_result, fault_at_nil, Hd by done. cbn [Sub].
        rewrite String.eqb_refl, bool_decide_eq_false_2 by done. cbn [negb].
        rewrite Update_result, fault_at_nil by (by apply faults_send).
        cbn [ID set_PauseEndDate set_PauseStartDate set_Status subscriptions send].
        by rewrite (Hk _ _ Hr), Hr. }
      rewrite Hr in Hr'. by injection Hr' as <-.
    + split; [split; [done|]|].
      { intros (r' & [= <-] & ?). done. }
      split; [by intros ? [= <-] ?|]. done.
  - split; [split; [done|by intros (? & ? & _)]|].
    split; [done|]. done.
Qed.

(** The theorem on a paused subscription. *)
Lemma ForceCancelSubscription_cancels_witness :
  let w := Sample.one_sub StatusPaused (Some (1100, 1200)) in
  let '(err, w') := AdminRepository.ForceCancelSubscription "sub-1" "fraud" "" w in
  (err = None
   <-> exists r, subscriptions w !! "sub-1" = Some r /\ Status r <> StatusCancelled)
  /\ (forall r,
        subscriptions w !! "sub-1" = Some r -> Status r <> StatusCancelled ->
        subscriptions w'
        = <["sub-1" := moved_row StatusCancelled None 1000 r]> (subscriptions w)
        /\ (keyed w -> faults w = [] -> is_Some (meal_plans w !! MealPlanID r) ->
            subscriptions w'
            = subscriptions (snd (CancelSubscription "sub-1" (UserID r) w))))
  /\ (err <> None ->
      err = Some (Errorf "subscription not found or already cancelled")
      /\ subscriptions w' = subscriptions w)
  /\ meal_plans w' = meal_plans w
  /\ subscription_audit w' = subscription_audit w.
Proof.
  apply (ForceCancelSubscription_cancels (Sample.one_sub StatusPaused (Some (1100, 1200)))
           "sub-1" "fraud" "").
  reflexivity.
Defined.

(** ** Errors and writes *)

Lemma Update_failed subscription w :
  fst (Update subscription w) <> None ->
  same_tables (snd (Update subscription w)) w.
Proof.
  rewrite Update_run. cbv zeta.
  destruct (fault_at 1 w); [done|].
  destruct (subscriptions w !! ID subscription) as [r|]; [|done].
  by rewrite LogSubscriptionAction_nil.
Qed.

(** The last step of the transitions: the [Update], whose error is wrapped. *)
Ltac after_failed_update :=
  match goal with
  | |- context [Update ?s ?w0] =>
      pose proof (Update_failed s w0) as Hupd;
      destruct (Update s w0) as [[e|] w1]; [|done];
      intros _; by apply Hupd
  end.

(** A [PauseSubscription], [ResumeSubscription], [CancelSubscription] or
    [ReactivateSubscription] that returns an error has written nothing: the
    three tables are as they were.  So has an [UpdateSubscription], unless
    its error is that of the read after the write, "failed to get updated
    subscription". *)
Theorem refused_transition_writes_nothing w subscriptionID userID :
  (forall startDate endDate,
      fst (PauseSubscription subscriptionID userID startDate endDate w) <> None ->
      same_tables (snd (PauseSubscription subscriptionID userID startDate endDate w)) w)
  /\ (fst (ResumeSubscription subscriptionID userID w) <> None ->
      same_tables (snd (ResumeSubscription subscriptionID userID w)) w)
  /\ (fst (CancelSubscription subscriptionID userID w) <> None ->
      same_tables (snd (CancelSubscription subscriptionID userID w)) w)
  /\ (snd (fst (ReactivateSubscription subscriptionID userID w)) <> None ->
      same_tables (snd (ReactivateSubscription subscriptionID userID w)) w)
  /\ (forall req e,
        snd (fst (UpdateSubscription subscriptionID userID req w)) = Some e ->
        e <> Wrapf "failed to get updated subscription" ErrDriver ->
        same_tables (snd (UpdateSubscription subscriptionID userID req w)) w).
Proof.
  split; [|split; [|split; [|split]]].
  - intros startDate endDate.
    cbv [PauseSubscription After Before bind ret gets timeNow]. mred.
    destruct (endDate <? startDate); mred; [done|].
    destruct (startDate <? clock w); mred; [done|].
    rewrite GetByID_run. destruct (fault_at 0 w); [done|].
    destruct (joined_row w subscriptionID) as [d|]; [|done].
    destruct (negb (String.eqb (UserID (Sub d)) userID)); [done|].
    destruct (negb (bool_decide (Status (Sub d) = StatusActive))); [done|].
    after_failed_update.
  - unfold ResumeSubscription, bind, ret. rewrite GetByID_run.
    destruct (fault_at 0 w); [done|].
    destruct (joined_row w subscriptionID) as [d|]; [|done].
    destruct (negb (String.eqb (UserID (Sub d)) userID)); [done|].
    destruct (negb (bool_decide (Status (Sub d) = StatusPaused))); [done|].
    after_failed_update.
  - unfold CancelSubscription, bind, ret. rewrite GetByID_run.
    destruct (fault_at 0 w); [done|].
    destruct (joined_row w subscriptionID) as [d|]; [|done].
    destruct (negb (String.eqb (UserID (Sub d)) userID)); [done|].
    destruct (bool_decide (Status (Sub d) = StatusCancelled)); [done|].
    after_failed_update.
  - rewrite ReactivateSubscription_run. cbv zeta.
    destruct (fault_at 0 w); [done|].
    destruct (subscriptions w !! subscriptionID) as [r|]; [|done].
    destruct (negb (String.eqb (UserID r) userID)); [done|].
    destruct (negb (bool_decide (Status r = StatusCancelled))); [done|].
    match goal with
    | |- context [Update ?s ?w0] =>
        pose proof (Update_failed s w0) as Hupd;
        destruct (Update s w0) as [[e|] w1]
    end.
    + intros _. by apply Hupd.
    + by destruct (fault_at 0 w1).
  - intros req e. rewrite UpdateSubscription_run.
    destruct (Utils.ValidateMealTypes _); [done|].
    destruct (Utils.ValidateDeliveryDays _); [done|].
    cbv zeta. destruct (fault_at 0 w); [done|].
    destruct (joined_row w subscriptionID) as [d|]; [|done].
    destruct (negb (String.eqb (UserID (Sub d)) userID)); [done|].
    destruct (bool_decide (Status (Sub d) = StatusCancelled)); [done|].
    destruct (fault_at 1 w); [done|].
    destruct (meal_plans w !! _) as [mealPlan|]; [|done].
    match goal with
    | |- context [Update ?s ?w0] =>
        pose proof (Update_failed s w0) as Hupd;
        destruct (Update s w0) as [[e'|] w2]
    end.
    + intros _ _. by apply Hupd.
    + destruct (fault_at 0 w2); cbn [fst snd]; [|done]. by intros [= <-].
Qed.

(** The errors of [CreateSubscription]: one of the three validation
    errors or the wrapped failure of the INSERT, with nothing written; or
    the wrapped failure of the read after the INSERT, and then the
    subscription is stored although the caller got an error.
    [ErrSubscriptionAlreadyExists] is not among them. *)
Theorem CreateSubscription_errors ctx req w details e :
  fst (CreateSubscription ctx req w) = Returned (details, Some e) ->
  details = None
  /\ ((e = ErrInvalidMealTypes \/ e = ErrInvalidDeliveryDays \/ e = ErrInvalidMealPlan
       \/ e = Wrapf "failed to create subscription" ErrDriver)
      /\ same_tables (snd (CreateSubscription ctx req w)) w
      \/ e = Wrapf "failed to get subscription details" ErrDriver
         /\ exists mealPlan userID,
              meal_plans w !! CreateSubscriptionRequest.MealPlanID req = Some mealPlan
              /\ Value ctx "user_id" = Some (AnyString userID)
              /\ subscriptions (snd (CreateSubscription ctx req w))
                 = <[hd "" (ulids w) :=
                       new_subscription (hd "" (ulids w)) userID req
                         (MealPlan.Price mealPlan) (clock w)]> (subscriptions w)).
Proof.
  rewrite CreateSubscription_run.
  destruct (Utils.ValidateMealTypes _).
  { intros [= <- <-]. split; [done|]. left. split; [tauto|done]. }
  destruct (Utils.ValidateDeliveryDays _).
  { intros [= <- <-]. split; [done|]. left. split; [tauto|done]. }
  cbv zeta. destruct (fault_at 0 w).
  { intros [= <- <-]. split; [done|]. left. split; [tauto|done]. }
  destruct (meal_plans w !! _) as [mealPlan|].
  2:{ intros [= <- <-]. split; [done|]. left. split; [tauto|done]. }
  destruct (Value ctx "user_id") as [[userID| |]|]; try done.
  destruct (fault_at 1 w || _).
  { intros [= <- <-]. split; [done|]. left. split; [tauto|done]. }
  match goal with
  | |- context [LogSubscriptionAction ?a ?b ?c ?d ?e ?w0] =>
      destruct (LogSubscriptionAction_frame a b c d e w0) as (Hs & _);
      destruct (LogSubscriptionAction a b c d e w0) as [x w4]
  end.
  cbn [fst snd] in *.
  destruct (fault_at 0 w4); [|done].
  intros [= <- <-]. split; [done|]. right. split; [done|].
  exists mealPlan, userID. repeat split. cbn [subscriptions send]. by rewrite Hs.
Qed.

(** The theorem for a request whose meal type is written with U+212A, on a
    store where the INSERT goes through and the read after it fails: the
    caller gets the error, and the subscription is stored. *)
Lemma CreateSubscription_errors_witness :
  (None : option SubscriptionWithDetails) = None
  /\ ((Wrapf "failed to get subscription details" ErrDriver = ErrInvalidMealTypes
       \/ Wrapf "failed to get subscription details" ErrDriver = ErrInvalidDeliveryDays
       \/ Wrapf "failed to get subscription details" ErrDriver = ErrInvalidMealPlan
       \/ Wrapf "failed to get subscription details" ErrDriver
          = Wrapf "failed to create subscription" ErrDriver)
      /\ same_tables (snd (CreateSubscription Sample.ctx_user Sample.kelvin_request
                             Sample.read_back_fails)) Sample.read_back_fails
      \/ Wrapf "failed to get subscription details" ErrDriver
         = Wrapf "failed to get subscription details" ErrDriver
         /\ exists mealPlan userID,
              meal_plans Sample.read_back_fails
                !! CreateSubscriptionRequest.MealPlanID Sample.kelvin_request
              = Some mealPlan
              /\ Value Sample.ctx_user "user_id" = Some (AnyString userID)
              /\ subscriptions (snd (CreateSubscription Sample.ctx_user
                                       Sample.kelvin_request Sample.read_back_fails))
                 = <[hd "" (ulids Sample.read_back_fails) :=
                       new_subscription (hd "" (ulids Sample.read_back_fails)) userID
                         Sample.kelvin_request (MealPlan.Price mealPlan)
                         (clock Sample.read_back_fails)]>
                     (subscriptions Sample.read_back_fails)).
Proof.
  apply (CreateSubscription_errors Sample.ctx_user Sample.kelvin_request
           Sample.read_back_fails None
           (Wrapf "failed to get subscription details" ErrDriver)).
  vm_compute. reflexivity.
Defined.

(** ** Subscriptions the user already holds *)

Lemma LogSubscriptionAction_faults a b c d e w :
  faults w = [] -> faults (snd (LogSubscriptionAction a b c d e w)) = [].
Proof.
  intros Hf. rewrite LogSubscriptionAction_run. cbn [snd].
  rewrite !fault_at_nil by done.
  destruct (subscription_audit w); cbn [faults set_subscription_audit send];
    by rewrite Hf.
Qed.

Lemma elem_of_all_rows w r :
  r ∈ all_rows w <-> exists k, subscriptions w !! k = Some r.
Proof.
  unfold all_rows. rewrite list_elem_of_fmap. split.
  - intros [[k r'] [-> Hin]]. exists k. by apply elem_of_map_to_list.
  - intros [k Hk]. exists (k, r). split; [done|]. by apply elem_of_map_to_list.
Qed.

Lemma ExistsByUserAndPlan_run userID planID w :
  ExistsByUserAndPlan userID planID w
  = (if fault_at 0 w then (false, Some ErrDriver)
     else (existsb (λ r, String.eqb (UserID r) userID
                         && String.eqb (MealPlanID r) planID
                         && (bool_decide (Status r = StatusActive)
                             || bool_decide (Status r = StatusPaused)))
             (all_rows w), None),
     set_faults (tail (faults w)) w).
Proof.
  cbv [ExistsByUserAndPlan bind ret gets roundTrip]. rewrite <- fault_at_0.
  destruct (hd false (faults w)); done.
Qed.

(** With valid meal types and delivery days, an existing plan, a user id
    in the context, a free id and no fault ahead, [CreateSubscription]
    stores and returns the new subscription whatever the user holds
    already: [ExistsByUserAndPlan] is not asked, and answers true
    afterwards. *)
Theorem CreateSubscription_ignores_existing ctx req w userID mealPlan :
  Utils.ValidateMealTypes
    (convertMealTypesToStrings (CreateSubscriptionRequest.MealTypes req)) = None ->
  Utils.ValidateDeliveryDays
    (convertDeliveryDaysToStrings (CreateSubscriptionRequest.DeliveryDays req)) = None ->
  meal_plans w !! CreateSubscriptionRequest.MealPlanID req = Some mealPlan ->
  Value ctx "user_id" = Some (AnyString userID) ->
  faults w = [] ->
  subscriptions w !! hd "" (ulids w) = None ->
  let '(result, w') := CreateSubscription ctx req w in
  let row := new_subscription (hd "" (ulids w)) userID req
               (MealPlan.Price mealPlan) (clock w) in
  result = Returned (Some {| Sub := row; Plan := joined_plan row mealPlan |}, None)
  /\ subscriptions w' = <[hd "" (ulids w) := row]> (subscriptions w)
  /\ fst (ExistsByUserAndPlan userID (CreateSubscriptionRequest.MealPlanID req) w')
     = (true, None).
Proof.
  intros Hmt Hdd Hplan Hv Hf Hfree.
  rewrite CreateSubscription_run, Hmt, Hdd. cbv zeta.
  rewrite !fault_at_nil, Hplan, Hv, Hfree by done. cbn [orb present].
  match goal with
  | |- context [LogSubscriptionAction ?a ?b ?c ?d ?e ?w0] =>
      destruct (LogSubscriptionAction_frame a b c d e w0) as (Hs & Hm & _);
      pose proof (LogSubscriptionAction_faults a b c d e w0) as Hf4;
      destruct (LogSubscriptionAction a b c d e w0) as [x w4]
  end.
  cbn [fst snd subscriptions meal_plans faults send set_subscriptions set_ulids] in *.
  specialize (Hf4 ltac:(by rewrite Hf)).
  rewrite fault_at_nil by done.
  assert (joined_row w4 (hd "" (ulids w))
          = Some {| Sub := new_subscription (hd "" (ulids w)) userID req
                             (MealPlan.Price mealPlan) (clock w);
                    Plan := joined_plan (new_subscription (hd "" (ulids w)) userID req
                                           (MealPlan.Price mealPlan) (clock w))
                              mealPlan |}) as ->.
  { unfold joined_row. rewrite Hs, lookup_insert_eq, Hm.
    cbn [MealPlanID new_subscription]. by rewrite Hplan. }
  split; [done|]. split; [done|].
  rewrite ExistsByUserAndPlan_run, fault_at_nil by (by apply faults_send).
  cbn [fst]. f_equal. apply existsb_exists.
  eexists. split.
  - apply list_elem_of_In, elem_of_all_rows. exists (hd "" (ulids w)).
    cbn [subscriptions send]. rewrite Hs. apply lookup_insert_eq.
  - cbn [UserID MealPlanID Status new_subscription]. by rewrite !String.eqb_refl.
Qed.

(** The theorem for user-1, who holds an active subscription to plan-diet
    and asks for another one. *)
Lemma CreateSubscription_ignores_existing_witness :
  fst (ExistsByUserAndPlan "user-1" "plan-diet" (Sample.one_sub StatusActive None))
  = (true, None)
  /\ let '(result, w') :=
       CreateSubscription Sample.ctx_user (Sample.request [MealTypeLunch])
         (Sample.one_sub StatusActive None) in
     let row :=
       new_subscription (hd "" (ulids (Sample.one_sub StatusActive None))) "user-1"
         (Sample.request [MealTypeLunch]) (MealPlan.Price (Sample.plan true))
         (clock (Sample.one_sub StatusActive None)) in
     result = Returned (Some {| Sub := row; Plan := joined_plan row (Sample.plan true) |},
                        None)
     /\ subscriptions w'
        = <[hd "" (ulids (Sample.one_sub StatusActive None)) := row]>
            (subscriptions (Sample.one_sub StatusActive None))
     /\ fst (ExistsByUserAndPlan "user-1"
               (CreateSubscriptionRequest.MealPlanID (Sample.request [MealTypeLunch])) w')
        = (true, None).
Proof.
  split; [vm_compute; reflexivity|].
  apply (CreateSubscription_ignores_existing Sample.ctx_user
           (Sample.request [MealTypeLunch]) (Sample.one_sub StatusActive None)
           "user-1" (Sample.plan true));
    vm_compute; reflexivity.
Defined.

(** ** Statistics *)

Lemma count_rows_bounds {A} (p : A -> bool) rows :
  0 <= count_rows p rows <= Z.of_nat (length rows).
Proof.
  unfold count_rows. pose proof (List.filter_length_le p rows). lia.
Qed.

Lemma count_rows_all {A} (rows : list A) :
  count_rows (λ _, true) rows = Z.of_nat (length rows).
Proof.
  unfold count_rows. f_equal. induction rows as [|r rows IH]; cbn; [done|].
  by rewrite IH.
Qed.

(** Every row has exactly one of the three statuses. *)
Lemma count_rows_by_status rows :
  count_rows (λ r, bool_decide (Status r = StatusActive)) rows
  + count_rows (λ r, bool_decide (Status r = StatusPaused)) rows
  + count_rows (λ r, bool_decide (Status r = StatusCancelled)) rows
  = Z.of_nat (length rows).
Proof.
  unfold count_rows. induction rows as [|r rows IH]; [done|].
  cbn [List.filter length]. destruct (Status r); cbn [bool_decide]; 
    repeat case_bool_decide; try done; cbn [length]; lia.
Qed.

Lemma fault_at_set_faults_tail n w :
  fault_at n (set_faults (tail (faults w)) w) = fault_at (S n) w.
Proof.
  unfold fault_at. cbn [faults set_faults].
  destruct (faults w); cbn; [by destruct n|done].
Qed.

Lemma GetReactivationsCount_run startDate endDate w :
  GetReactivationsCount startDate endDate w
  = let w1 := set_faults (tail (faults w)) w in
    match (if fault_at 0 w then None else subscription_audit w) with
    | Some rows => (audit_reactivations startDate endDate rows, None, w1)
    | None =>
        (if fault_at 1 w then (0, Some ErrDriver)
         else (fallback_reactivations startDate endDate w, None),
         set_faults (tail (faults w1)) w1)
    end.
Proof.
  rewrite <- fault_at_0, <- fault_at_1.
  cbv [GetReactivationsCount bind ret gets roundTrip]. mred.
  destruct (hd false (faults w)); mred.
  - by destruct (hd false (tail (faults w))).
  - destruct (subscription_audit w); mred; [done|].
    by destruct (hd false (tail (faults w))).
Qed.

Lemma GetReactivationsCount_read_only startDate endDate w :
  read_only (snd (GetReactivationsCount startDate endDate w)) w
  /\ 0 <= reactivations_or_zero (fst (GetReactivationsCount startDate endDate w)).
Proof.
  rewrite GetReactivationsCount_run. cbv zeta. unfold reactivations_or_zero.
  destruct (if fault_at 0 w then None else subscription_audit w) as [rows|].
  - split; [done|]. cbn. unfold audit_reactivations, count_distinct. lia.
  - split; [done|]. destruct (fault_at 1 w); cbn; [done|].
    unfold fallback_reactivations, count_distinct. lia.
Qed.

Lemma Repository_GetSubscriptionStats_run startDate endDate w :
  SubscriptionRepository.GetSubscriptionStats startDate endDate w
  = let w1 := set_faults (tail (faults w)) w in
    if fault_at 0 w then (None, Some ErrDriver, w1)
    else
      let '(counted, w2) := GetReactivationsCount startDate endDate w1 in
      let rows := all_rows w in
      (Some {| SubscriptionStats.TotalSubscriptions := count_rows (λ _, true) rows;
               SubscriptionStats.ActiveSubscriptions :=
                 count_rows (λ r, bool_decide (Status r = StatusActive)) rows;
               SubscriptionStats.PausedSubscriptions :=
                 count_rows (λ r, bool_decide (Status r = StatusPaused)) rows;
               SubscriptionStats.CancelledSubscriptions :=
                 count_rows (λ r, bool_decide (Status r = StatusCancelled)) rows;
               SubscriptionStats.NewSubscriptions :=
                 count_rows (λ r, between startDate endDate (CreatedAt r)) rows;
               SubscriptionStats.MonthlyRevenue := monthly_revenue w;
               SubscriptionStats.Reactivations := reactivations_or_zero counted;
               SubscriptionStats.SubscriptionsByPlan :=
                 if fault_at 0 w2 then ∅ else subscriptions_by_plan w2 |},
       None, set_faults (tail (faults w2)) w2).
Proof.
  rewrite <- fault_at_0.
  cbv [SubscriptionRepository.GetSubscriptionStats bind ret gets roundTrip]. mred.
  destruct (hd false (faults w)); [done|].
  destruct (GetReactivationsCount _ _ _) as [[n err] w2]. mred.
  unfold reactivations_or_zero. cbn [fst snd]. rewrite <- fault_at_0. done.
Qed.

Lemma tail_drop {A} n (l : list A) : tail (drop n l) = drop (S n) l.
Proof. revert n. induction l as [|x l IH]; intros [|n]; cbn; try done. Qed.

Lemma fault_at_set_faults_drop k n w :
  fault_at n (set_faults (drop k (faults w)) w) = fault_at (k + n) w.
Proof. unfold fault_at. cbn [faults set_faults]. by rewrite drop_drop. Qed.

Lemma GetReactivationsCount_from startDate endDate w :
  GetReactivationsCount startDate endDate w
  = (if fault_at 0 w || negb (present (subscription_audit w))
     then if fault_at 1 w then (0, Some ErrDriver)
          else (fallback_reactivations startDate endDate w, None)
     else (reactivations_from 0 startDate endDate w, None),
     set_faults (drop (reactivation_queries 0 w) (faults w)) w).
Proof.
  rewrite GetReactivationsCount_run. unfold reactivations_from, reactivation_queries.
  cbv zeta. destruct (fault_at 0 w); cbn [orb].
  - cbn [faults set_faults]. by destruct (faults w) as [|? [|? ?]].
  - destruct (subscription_audit w); cbn [present negb].
    + by destruct (faults w).
    + cbn [faults set_faults]. by destruct (faults w) as [|? [|? ?]].
Qed.

Lemma reactivations_or_zero_from startDate endDate w :
  reactivations_or_zero (fst (GetReactivationsCount startDate endDate w))
  = reactivations_from 0 startDate endDate w.
Proof.
  rewrite GetReactivationsCount_from. unfold reactivations_from, reactivations_or_zero.
  cbn [fst]. destruct (fault_at 0 w); cbn [orb].
  - by destruct (fault_at 1 w).
  - destruct (subscription_audit w); cbn [present negb]; [done|].
    by destruct (fault_at 1 w).
Qed.

Lemma reactivation_queries_shift k n w :
  reactivation_queries n (set_faults (drop k (faults w)) w)
  = reactivation_queries (k + n) w.
Proof. unfold reactivation_queries. by rewrite fault_at_set_faults_drop. Qed.

Lemma reactivations_from_shift k n startDate endDate w :
  reactivations_from n startDate endDate (set_faults (drop k (faults w)) w)
  = reactivations_from (k + n) startDate endDate w.
Proof.
  unfold reactivations_from. rewrite !fault_at_set_faults_drop.
  by replace (k + S n)%nat with (S (k + n)) by lia.
Qed.

Lemma Repository_GetSubscriptionStats_from startDate endDate w :
  SubscriptionRepository.GetSubscriptionStats startDate endDate w
  = if fault_at 0 w then (None, Some ErrDriver, set_faults (drop 1 (faults w)) w)
    else
      let k := reactivation_queries 1 w in
      let rows := all_rows w in
      (Some {| SubscriptionStats.TotalSubscriptions := count_rows (λ _, true) rows;
               SubscriptionStats.ActiveSubscriptions :=
                 count_rows (λ r, bool_decide (Status r = StatusActive)) rows;
               SubscriptionStats.PausedSubscriptions :=
                 count_rows (λ r, bool_decide (Status r = StatusPaused)) rows;
               SubscriptionStats.CancelledSubscriptions :=
                 count_rows (λ r, bool_decide (Status r = StatusCancelled)) rows;
               SubscriptionStats.NewSubscriptions :=
                 count_rows (λ r, between startDate endDate (CreatedAt r)) rows;
               SubscriptionStats.MonthlyRevenue := monthly_revenue w;
               SubscriptionStats.Reactivations :=
                 reactivations_from 1 startDate endDate w;
               SubscriptionStats.SubscriptionsByPlan :=
                 if fault_at (1 + k) w then ∅ else subscriptions_by_plan w |},
       None, set_faults (drop (2 + k) (faults w)) w).
Proof.
  rewrite Repository_GetSubscriptionStats_run. cbv zeta.
  destruct (fault_at 0 w); [done|].
  change (set_faults (tail (faults w)) w) with (set_faults (drop 1 (faults w)) w).
  pose proof (reactivations_or_zero_from startDate endDate
                (set_faults (drop 1 (faults w)) w)) as Hr.
  rewrite reactivations_from_shift in Hr.
  rewrite GetReactivationsCount_from in Hr |- *.
  cbn [fst] in Hr. rewrite Hr.
  rewrite reactivation_queries_shift. change (1 + 0)%nat with 1%nat.
  cbn [faults set_faults]. rewrite drop_drop.
  change (fault_at 0 (set_faults ?fs _)) with (hd false fs).
  apply (f_equal2 pair); [reflexivity|].
  unfold set_faults. cbn. f_equal. apply tail_drop.
Qed.


Lemma Service_GetSubscriptionStats_run startDate endDate w :
  SubscriptionService.GetSubscriptionStats startDate endDate w
  = if fault_at 0 w
    then (Returned (None, Some (Wrapf "failed to get subscription stats" ErrDriver)),
          set_faults (drop 1 (faults w)) w)
    else
      let k := reactivation_queries 1 w in
      let rows := all_rows w in
      (Returned
         (Some {| TotalSubscriptions := count_rows (λ _, true) rows;
                  ActiveSubscriptions :=
                    count_rows (λ r, bool_decide (Status r = StatusActive)) rows;
                  PausedSubscriptions :=
                    count_rows (λ r, bool_decide (Status r = StatusPaused)) rows;
                  CancelledSubscriptions :=
                    count_rows (λ r, bool_decide (Status r = StatusCancelled)) rows;
                  MonthlyRevenue := monthly_revenue w;
                  NewSubscriptions :=
                    count_rows (λ r, between startDate endDate (CreatedAt r)) rows;
                  Reactivations := reactivations_from (2 + k) startDate endDate w;
                  SubscriptionsByPlan :=
                    if fault_at (1 + k) w then ∅ else subscriptions_by_plan w |},
          None),
       set_faults (drop (2 + k + reactivation_queries (2 + k) w) (faults w)) w).
Proof.
  unfold SubscriptionService.GetSubscriptionStats. unfold bind at 1.
  rewrite Repository_GetSubscriptionStats_from. cbv zeta.
  destruct (fault_at 0 w); [done|].
  unfold bind, ret.
  pose proof (reactivations_or_zero_from startDate endDate
                (set_faults (drop (2 + reactivation_queries 1 w) (faults w)) w)) as Hr.
  rewrite reactivations_from_shift in Hr.
  rewrite GetReactivationsCount_from in Hr |- *.
  unfold reactivations_or_zero in Hr. cbn [fst snd] in Hr.
  rewrite reactivation_queries_shift, Nat.add_0_r.
  rewrite Nat.add_0_r in Hr.
  match goal with
  | |- context [if fault_at 0 ?w2 || ?b then ?x else ?y] =>
      destruct (if fault_at 0 w2 || b then x else y) as [n err]
  end.
  cbn [fst snd] in Hr. cbv beta iota. rewrite Hr.
  apply (f_equal2 pair); [reflexivity|].
  unfold set_faults. cbn. f_equal. by rewrite drop_drop.
Qed.
(** [GetSubscriptionStats] of the service does not panic and fails only
    when the first query fails.  Otherwise the total is the number of rows
    and the sum of the active, paused and cancelled counts, the new
    subscriptions are between 0 and the total, and the revenue is the sum
    over the active rows.  The reactivations are those of the service's own
    call of [GetReactivationsCount], which follows the queries of the
    repository: the count of the audit table or of the fallback query, and
    0 when both of its queries fail.  The counts by plan are those of the
    plan query, and empty when that query fails.  Without faults both are
    the counts of the store.  Nothing is written. *)
Theorem GetSubscriptionStats_counts startDate endDate w :
  let '(result, w') := SubscriptionService.GetSubscriptionStats startDate endDate w in
  match result with
  | Returned (Some stats, None) =>
      fault_at 0 w = false
      /\ TotalSubscriptions stats = Z.of_nat (size (subscriptions w))
      /\ TotalSubscriptions stats
         = ActiveSubscriptions stats + PausedSubscriptions stats
           + CancelledSubscriptions stats
      /\ 0 <= ActiveSubscriptions stats /\ 0 <= PausedSubscriptions stats
      /\ 0 <= CancelledSubscriptions stats
      /\ 0 <= NewSubscriptions stats <= TotalSubscriptions stats
      /\ 0 <= Reactivations stats
      /\ MonthlyRevenue stats = monthly_revenue w
      /\ (let k := reactivation_queries 1 w in
          SubscriptionsByPlan stats
          = (if fault_at (1 + k) w then ∅ else subscriptions_by_plan w)
          /\ Reactivations stats = reactivations_from (2 + k) startDate endDate w
          /\ (fault_at (2 + k) w = true -> fault_at (3 + k) w = true ->
              Reactivations stats = 0))
      /\ (faults w = [] ->
          SubscriptionsByPlan stats = subscriptions_by_plan w
          /\ Reactivations stats
             = match subscription_audit w with
               | Some rows => audit_reactivations startDate endDate rows
               | None => fallback_reactivations startDate endDate w
               end)
  | Returned (None, Some e) =>
      fault_at 0 w = true /\ e = Wrapf "failed to get subscription stats" ErrDriver
  | _ => False
  end
  /\ read_only w' w.
Proof.
  rewrite Service_GetSubscriptionStats_run. cbv zeta.
  destruct (fault_at 0 w) eqn:H0; [done|].
  split; [|done].
  cbn [TotalSubscriptions ActiveSubscriptions PausedSubscriptions
       CancelledSubscriptions NewSubscriptions Reactivations MonthlyRevenue
       SubscriptionsByPlan].
  rewrite count_rows_all, count_rows_by_status.
  pose proof (count_rows_bounds (λ r, bool_decide (Status r = StatusActive)) (all_rows w)).
  pose proof (count_rows_bounds (λ r, bool_decide (Status r = StatusPaused)) (all_rows w)).
  pose proof (count_rows_bounds (λ r, bool_decide (Status r = StatusCancelled))
                (all_rows w)).
  pose proof (count_rows_bounds (λ r, between startDate endDate (CreatedAt r))
                (all_rows w)).
  assert (forall n, 0 <= reactivations_from n startDate endDate w) as Hpos.
  { intros n. unfold reactivations_from.
    destruct (if fault_at n w then None else subscription_audit w) as [rows|].
    - unfold audit_reactivations, count_distinct. lia.
    - destruct (fault_at (S n) w); [done|].
      unfold fallback_reactivations, count_distinct. lia. }
  unfold all_rows in *. rewrite length_fmap, length_map_to_list in *.
  repeat (split; [done || lia || apply Hpos|]).
  split; [split; [done|split; [done|]]|].
  - intros Ha Hb. unfold reactivations_from.
    change (S (2 + reactivation_queries 1 w)) with (3 + reactivation_queries 1 w)%nat.
    by rewrite Ha, Hb.
  - intros Hf.
    assert (forall n, fault_at n w = false) as Hn.
    { intros n. unfold fault_at. rewrite Hf. by destruct n. }
    unfold reactivations_from. rewrite !Hn. split; [done|].
    by destruct (subscription_audit w).
Qed.

Lemma audit_reactivations_size startDate endDate rows :
  audit_reactivations startDate endDate rows
  = Z.of_nat (size (reactivated_in startDate endDate rows)).
Proof. reflexivity. Qed.

Lemma reactivated_in_snoc startDate endDate rows a :
  reactivated_in startDate endDate (rows ++ [a])
  = if String.eqb (action a) "reactivated" && between startDate endDate (created_at a)
    then reactivated_in startDate endDate rows ∪ {[subscription_id a]}
    else reactivated_in startDate endDate rows.
Proof.
  unfold reactivated_in. rewrite List.filter_app. cbn [List.filter].
  destruct (String.eqb (action a) "reactivated" && _).
  - by rewrite fmap_app, list_to_set_app_L; cbn; rewrite (right_id_L ∅ (∪)).
  - by rewrite app_nil_r.
Qed.

(** On a store without faults and with an audit table,
    [GetReactivationsCount] is the number of subscriptions with a
    "reactivated" audit row in the period; a [ReactivateSubscription] at a
    time within the period raises it by one if the subscription had no such
    row yet, and leaves it as it is otherwise. *)
Theorem reactivation_is_counted_once w subscriptionID r rows startDate endDate :
  keyed w -> faults w = [] -> subscription_audit w = Some rows ->
  subscriptions w !! subscriptionID = Some r ->
  Status r = StatusCancelled ->
  startDate <= clock w <= endDate ->
  let w' := snd (ReactivateSubscription subscriptionID (UserID r) w) in
  fst (GetReactivationsCount startDate endDate w)
  = (Z.of_nat (size (reactivated_in startDate endDate rows)), None)
  /\ fst (GetReactivationsCount startDate endDate w')
     = (Z.of_nat (size (reactivated_in startDate endDate rows))
        + (if bool_decide (subscriptionID ∈ reactivated_in startDate endDate rows)
           then 0 else 1),
        None).
Proof.
  intros Hk Hf Ha Hr Hs Hin w'.
  destruct (ReactivateSubscription_ok w subscriptionID r Hk Hf Hr Hs)
    as [_ [_ Ha' _ _ Hf']].
  fold w' in Ha', Hf'. rewrite Ha in Ha'. cbn in Ha'.
  rewrite !GetReactivationsCount_run. cbv zeta.
  rewrite !fault_at_nil, Ha, Ha' by done. cbn [fst].
  rewrite !audit_reactivations_size, reactivated_in_snoc.
  split; [done|]. f_equal.
  unfold transition_audit, audit_row. cbn [action created_at subscription_id].
  unfold between. rewrite String.eqb_refl.
  destruct (Z.leb_spec startDate (clock w)); [|lia].
  destruct (Z.leb_spec (clock w) endDate); [|lia]. cbn [andb].
  case_bool_decide as Hmem.
  - rewrite (comm_L (∪)),
      (subseteq_union_1_L {[subscriptionID]} (reactivated_in startDate endDate rows)).
    + lia.
    + by apply singleton_subseteq_l.
  - rewrite size_union, size_singleton; [lia|].
    by apply disjoint_singleton_r.
Qed.

(** The theorem on a cancelled subscription and an empty audit table: the
    count goes from 0 to 1. *)
Lemma reactivation_is_counted_once_witness :
  let w := Sample.one_sub StatusCancelled None in
  let w' := snd (ReactivateSubscription "sub-1" "user-1" w) in
  fst (GetReactivationsCount 0 5000 w) = (0, None)
  /\ fst (GetReactivationsCount 0 5000 w') = (1, None).
Proof.
  apply (reactivation_is_counted_once (Sample.one_sub StatusCancelled None) "sub-1"
           (Sample.sub "sub-1" StatusCancelled None) [] 0 5000).
  - intros k r. unfold Sample.one_sub, Sample.store. cbn [subscriptions].
    intros [<- <-]%lookup_singleton_Some. reflexivity.
  - reflexivity.
  - reflexivity.
  - vm_compute. reflexivity.
  - reflexivity.
  - vm_compute. split; discriminate.
Defined.

(** Without the audit table the count comes from the fallback query,
    which looks at the active rows updated in the period: a subscription
    created before the period and resumed (not reactivated) in it, more
    than an hour after its creation, is counted. *)
Theorem fallback_counts_a_resume w subscriptionID r startDate endDate :
  keyed w -> faults w = [] -> subscription_audit w = None ->
  subscriptions w !! subscriptionID = Some r ->
  is_Some (meal_plans w !! MealPlanID r) ->
  Status r = StatusPaused ->
  CreatedAt r < startDate -> startDate <= clock w <= endDate ->
  CreatedAt r + one_hour < clock w ->
  let w' := snd (ResumeSubscription subscriptionID (UserID r) w) in
  fst (ResumeSubscription subscriptionID (UserID r) w) = None
  /\ subscription_audit w' = None
  /\ fst (GetReactivationsCount startDate endDate w')
     = (Z.of_nat (size (fallback_ids startDate endDate w')), None)
  /\ subscriptionID ∈ fallback_ids startDate endDate w'.
Proof.
  intros Hk Hf Ha Hr Hmp Hs Hold Hin Hhour w'.
  destruct (ResumeSubscription_ok w subscriptionID r Hk Hf Hr Hmp Hs)
    as [Hnil [Hsubs Ha' _ _ Hf']].
  fold w' in Hsubs, Ha', Hf'. rewrite Ha in Ha'. cbn in Ha'.
  split; [done|]. split; [done|]. split.
  - rewrite GetReactivationsCount_run. cbv zeta.
    by rewrite !fault_at_nil, Ha' by done.
  - unfold fallback_ids. apply elem_of_list_to_set, list_elem_of_fmap.
    exists (moved_row StatusActive None (clock w) r). split; [symmetry; exact (Hk _ _ Hr)|].
    apply list_elem_of_In, filter_In. split.
    + apply list_elem_of_In, elem_of_all_rows. exists subscriptionID.
      rewrite Hsubs. apply lookup_insert_eq.
    + cbn [Status UpdatedAt CreatedAt moved_row set_UpdatedAt set_PauseEndDate
           set_PauseStartDate set_Status]. unfold between.
      rewrite bool_decide_eq_true_2 by done.
      repeat match goal with
             | |- context [?a <=? ?b] => destruct (Z.leb_spec a b); [|lia]
             | |- context [?a <? ?b] => destruct (Z.ltb_spec a b); [|lia]
             end.
      done.
Qed.

(** The theorem on a store without audit table, for a subscription created
    at 10 and resumed at 4000000000000 (more than an hour later). *)
Lemma fallback_counts_a_resume_witness :
  let w := set_clock 4000000000000
             (set_subscription_audit None
                (Sample.one_sub StatusPaused (Some (1100, 1200)))) in
  let w' := snd (ResumeSubscription "sub-1" "user-1" w) in
  fst (ResumeSubscription "sub-1" "user-1" w) = None
  /\ subscription_audit w' = None
  /\ fst (GetReactivationsCount 20 5000000000000 w')
     = (Z.of_nat (size (fallback_ids 20 5000000000000 w')), None)
  /\ "sub-1" ∈ fallback_ids 20 5000000000000 w'.
Proof.
  apply (fallback_counts_a_resume
           (set_clock 4000000000000
              (set_subscription_audit None
                 (Sample.one_sub StatusPaused (Some (1100, 1200)))))
           "sub-1" (Sample.sub "sub-1" StatusPaused (Some (1100, 1200)))
           20 5000000000000).
  - intros k r. unfold Sample.one_sub, Sample.store.
    cbn [subscriptions set_clock set_subscription_audit].
    intros [<- <-]%lookup_singleton_Some. reflexivity.
  - reflexivity.
  - reflexivity.
  - vm_compute. reflexivity.
  - vm_compute. eauto.
  - reflexivity.
  - vm_compute. reflexivity.
  - vm_compute. split; discriminate.
  - vm_compute. reflexivity.
Defined.

(** ** Listings *)

#[local] Instance newer_first_total : Total newer_first.
Proof. intros a b. unfold newer_first. lia. Qed.

#[local] Instance newer_first_trans : Transitive newer_first.
Proof. intros a b c. unfold newer_first. lia. Qed.

Lemma elem_of_joined_rows w d :
  d ∈ joined_rows w <-> exists id, joined_row w id = Some d.
Proof.
  unfold joined_rows. rewrite list_elem_of_omap. split.
  - intros (sub & [k Hk]%elem_of_all_rows & Hd). exists k.
    unfold joined_row. by rewrite Hk.
  - intros [id Hd]. unfold joined_row in Hd.
    destruct (subscriptions w !! id) as [sub|] eqn:Hsub; [|done].
    exists sub. split; [|done]. apply elem_of_all_rows. by exists id.
Qed.

Lemma GetByUserID_run userID w :
  GetByUserID userID w
  = (if fault_at 0 w then ([], Some ErrDriver)
     else (merge_sort newer_first
             (List.filter (λ d, String.eqb (UserID (Sub d)) userID) (joined_rows w)),
           None),
     set_faults (tail (faults w)) w).
Proof.
  rewrite <- fault_at_0. cbv [GetByUserID bind ret gets roundTrip]. mred.
  by destruct (hd false (faults w)).
Qed.

Lemma GetUserSubscriptions_run userID w :
  GetUserSubscriptions userID w
  = (if fault_at 0 w
     then ([], Some (Wrapf "failed to get user subscriptions" ErrDriver))
     else (merge_sort newer_first
             (List.filter (λ d, String.eqb (UserID (Sub d)) userID) (joined_rows w)),
           None),
     set_faults (tail (faults w)) w).
Proof.
  unfold GetUserSubscriptions, bind, ret. rewrite GetByUserID_run.
  by destruct (fault_at 0 w).
Qed.

Lemma GetActiveSubscriptions_run w :
  GetActiveSubscriptions w
  = (if fault_at 0 w then ([], Some ErrDriver)
     else (merge_sort newer_first
             (List.filter (λ d, bool_decide (Status (Sub d) = StatusActive))
                (joined_rows w)),
           None),
     set_faults (tail (faults w)) w).
Proof.
  rewrite <- fault_at_0. cbv [GetActiveSubscriptions bind ret gets roundTrip]. mred.
  by destruct (hd false (faults w)).
Qed.

(** Under the primary key no row comes twice out of the table. *)
Lemma NoDup_all_rows w : keyed w -> NoDup (all_rows w).
Proof.
  intros Hk. unfold all_rows. apply NoDup_fmap_2_strong; [|apply NoDup_map_to_list].
  intros [k1 r1] [k2 r2] H1%elem_of_map_to_list H2%elem_of_map_to_list Heq.
  cbn in Heq. subst r2. f_equal.
  by rewrite <- (Hk _ _ H1), <- (Hk _ _ H2).
Qed.

Lemma NoDup_joined_rows w : keyed w -> NoDup (joined_rows w).
Proof.
  intros Hk. unfold joined_rows. pose proof (NoDup_all_rows w Hk) as Hnd.
  induction Hnd as [|r rows Hr Hnd IH]; [constructor|].
  cbn [omap list_omap]. destruct (meal_plans w !! MealPlanID r) as [mp|]; [|exact IH].
  constructor; [|exact IH].
  intros (r' & Hin & Hd)%list_elem_of_omap.
  destruct (meal_plans w !! MealPlanID r') as [mp'|]; [|done].
  injection Hd as -> _. contradiction.
Qed.

Lemma NoDup_List_filter {A} (p : A -> bool) (l : list A) :
  NoDup l -> NoDup (List.filter p l).
Proof.
  induction 1 as [|x l Hx Hnd IH]; cbn [List.filter]; [constructor|].
  destruct (p x); [|done]. constructor; [|done].
  rewrite list_elem_of_In, filter_In, <- list_elem_of_In. tauto.
Qed.

(** The rows of a listing: a rearrangement of the rows of the join that
    meet the condition, so each as often as the join has it, and once under
    the primary key. *)
Lemma listing_rows (p : SubscriptionWithDetails -> bool) w :
  merge_sort newer_first (List.filter p (joined_rows w))
    ≡ₚ List.filter p (joined_rows w)
  /\ (keyed w -> NoDup (merge_sort newer_first (List.filter p (joined_rows w)))).
Proof.
  split; [apply merge_sort_Permutation|].
  intros Hk. rewrite merge_sort_Permutation.
  apply NoDup_List_filter, NoDup_joined_rows, Hk.
Qed.
(** When the query does not fail, [GetUserSubscriptions] lists exactly the
    subscriptions of the user that have their plan, and
    [GetActiveSubscriptions] exactly the active ones: the list is a
    rearrangement of the rows of the join that meet the condition, each row
    as often as the join has it, which under the primary key is once, with
    a row for every id that has one; both lists are newest first, and
    neither call writes anything. *)
Theorem listings_are_filtered_and_ordered w :
  fault_at 0 w = false ->
  (forall userID,
      let '(subs, err, w') := GetUserSubscriptions userID w in
      err = None
      /\ (forall d, d ∈ subs
                    <-> UserID (Sub d) = userID /\ exists id, joined_row w id = Some d)
      /\ subs ≡ₚ List.filter (λ d, String.eqb (UserID (Sub d)) userID) (joined_rows w)
      /\ (keyed w -> NoDup subs)
      /\ StronglySorted (λ a b, CreatedAt (Sub b) <= CreatedAt (Sub a)) subs
      /\ read_only w' w)
  /\ (let '(subs, err, w') := GetActiveSubscriptions w in
      err = None
      /\ (forall d, d ∈ subs
                    <-> Status (Sub d) = StatusActive
                        /\ exists id, joined_row w id = Some d)
      /\ subs ≡ₚ List.filter (λ d, bool_decide (Status (Sub d) = StatusActive))
                   (joined_rows w)
      /\ (keyed w -> NoDup subs)
      /\ StronglySorted (λ a b, CreatedAt (Sub b) <= CreatedAt (Sub a)) subs
      /\ read_only w' w)
  /\ (keyed w ->
      NoDup (joined_rows w)
      /\ forall id d, joined_row w id = Some d -> ID (Sub d) = id).
Proof.
  intros H0. split; [|split].
  - intros userID. rewrite GetUserSubscriptions_run, H0.
    split; [done|]. split; [|split; [|split; [|split; [|done]]]].
    + intros d. rewrite merge_sort_Permutation.
      rewrite list_elem_of_In, filter_In, <- list_elem_of_In, elem_of_joined_rows.
      rewrite String.eqb_eq. tauto.
    + apply listing_rows.
    + apply listing_rows.
    + apply (StronglySorted_merge_sort newer_first).
  - rewrite GetActiveSubscriptions_run, H0.
    split; [done|]. split; [|split; [|split; [|split; [|done]]]].
    + intros d. rewrite merge_sort_Permutation.
      rewrite list_elem_of_In, filter_In, <- list_elem_of_In, elem_of_joined_rows.
      rewrite bool_decide_eq_true. tauto.
    + apply listing_rows.
    + apply listing_rows.
    + apply (StronglySorted_merge_sort newer_first).
  - intros Hk. split; [by apply NoDup_joined_rows|].
    intros id d Hd. unfold joined_row in Hd.
    destruct (subscriptions w !! id) as [r|] eqn:Hr; [|done].
    destruct (meal_plans w !! MealPlanID r); [|done].
    injection Hd as <-. cbn. by apply Hk.
Qed.

(** The theorem for user-1 on the sample store, whose one row is listed
    once. *)
Lemma listings_are_filtered_and_ordered_witness :
  let '(subs, err, w') :=
    GetUserSubscriptions "user-1" (Sample.one_sub StatusActive None) in
  err = None
  /\ (forall d, d ∈ subs
                <-> UserID (Sub d) = "user-1"
                    /\ exists id, joined_row (Sample.one_sub StatusActive None) id = Some d)
  /\ subs ≡ₚ List.filter (λ d, String.eqb (UserID (Sub d)) "user-1")
               (joined_rows (Sample.one_sub StatusActive None))
  /\ NoDup subs
  /\ StronglySorted (λ a b, CreatedAt (Sub b) <= CreatedAt (Sub a)) subs
  /\ read_only w' (Sample.one_sub StatusActive None).
Proof.
  pose proof (proj1 (listings_are_filtered_and_ordered (Sample.one_sub StatusActive None)
                       eq_refl) "user-1") as H.
  destruct (GetUserSubscriptions "user-1" (Sample.one_sub StatusActive None))
    as [[subs err] w'].
  destruct H as (Herr & Hmem & Hperm & Hnodup & Hsorted & Hro).
  repeat (split; [assumption|]). split; [|split; assumption].
  apply Hnodup. intros k r. unfold Sample.one_sub, Sample.store. cbn [subscriptions].
  intros [<- <-]%lookup_singleton_Some. reflexivity.
Defined.

(** [GetAllSubscriptions] of the handler, when the query does not fail,
    answers 200 with the subscriptions whose user id is the empty string,
    whatever the page and the limit: none at all on a store where every
    subscription has an owner. *)
Theorem GetAllSubscriptions_asks_for_no_user page limit w :
  fault_at 0 w = false ->
  let '(status, subs) := fst (SubscriptionHandler.GetAllSubscriptions page limit w) in
  status = 200
  /\ (forall d, d ∈ subs -> UserID (Sub d) = "")
  /\ ((forall k r, subscriptions w !! k = Some r -> UserID r <> "") -> subs = []).
Proof.
  intros H0. unfold SubscriptionHandler.GetAllSubscriptions, bind, ret.
  rewrite GetUserSubscriptions_run, H0. cbn [fst].
  split; [done|].
  assert (forall d,
            d ∈ merge_sort newer_first
                  (List.filter (λ d, String.eqb (UserID (Sub d)) "") (joined_rows w)) ->
            UserID (Sub d) = "" /\ exists id, joined_row w id = Some d) as Hmem.
  { intros d. rewrite merge_sort_Permutation.
    rewrite list_elem_of_In, filter_In, <- list_elem_of_In, elem_of_joined_rows.
    rewrite String.eqb_eq. tauto. }
  split; [intros d Hd; by apply Hmem|].
  intros Howned.
  destruct (merge_sort newer_first _) as [|d rest] eqn:Hl; [done|].
  destruct (Hmem d) as [Hu [id Hd]]; [by left|].
  unfold joined_row in Hd.
  destruct (subscriptions w !! id) as [sub|] eqn:Hsub; [|done].
  destruct (meal_plans w !! MealPlanID sub); [|done].
  injection Hd as <-. by destruct (Howned id sub Hsub).
Qed.

(** The theorem on the sample store, whose subscription belongs to user-1. *)
Lemma GetAllSubscriptions_asks_for_no_user_witness :
  let '(status, subs) :=
    fst (SubscriptionHandler.GetAllSubscriptions 1 10 (Sample.one_sub StatusActive None)) in
  status = 200
  /\ (forall d, d ∈ subs -> UserID (Sub d) = "")
  /\ ((forall k r, subscriptions (Sample.one_sub StatusActive None) !! k = Some r ->
                   UserID r <> "") -> subs = []).
Proof.
  apply (GetAllSubscriptions_asks_for_no_user 1 10 (Sample.one_sub StatusActive None)).
  reflexivity.
Defined.

(** ** The status codes of the handlers *)

Lemma GetSubscriptionByID_run subscriptionID w :
  GetSubscriptionByID subscriptionID w
  = (if fault_at 0 w then (None, Some (Wrapf "failed to get subscription" ErrDriver))
     else match joined_row w subscriptionID with
          | None => (None, Some ErrSubscriptionNotFound)
          | Some d => (Some d, None)
          end,
     send (SelectSubscriptionJoinPlan subscriptionID) w).
Proof.
  unfold GetSubscriptionByID, bind, ret. rewrite GetByID_run.
  destruct (fault_at 0 w); [done|]. by destruct (joined_row w subscriptionID).
Qed.

(** [GetSubscription] of the handler does not panic: it answers 200 with
    the row for its owner, 403 for another user, and 500 when the query
    fails and also when there is no such subscription (the service's
    [ErrSubscriptionNotFound] goes through [errHandler.Handle]); never
    404.  A row in the answer is the caller's. *)
Theorem GetSubscription_status w subscriptionID userID :
  SubscriptionHandler.GetSubscription subscriptionID userID w
  = (Returned
       (if fault_at 0 w then (500, None)
        else match joined_row w subscriptionID with
             | None => (500, None)
             | Some d =>
                 if String.eqb (UserID (Sub d)) userID then (200, Some d)
                 else (403, None)
             end),
     send (SelectSubscriptionJoinPlan subscriptionID) w)
  /\ (forall body,
        fst (SubscriptionHandler.GetSubscription subscriptionID userID w)
        <> Returned (404, body))
  /\ (forall status d,
        fst (SubscriptionHandler.GetSubscription subscriptionID userID w)
        = Returned (status, Some d) ->
        status = 200 /\ UserID (Sub d) = userID
        /\ joined_row w subscriptionID = Some d).
Proof.
  assert (SubscriptionHandler.GetSubscription subscriptionID userID w
          = (Returned
               (if fault_at 0 w then (500, None)
                else match joined_row w subscriptionID with
                     | None => (500, None)
                     | Some d =>
                         if String.eqb (UserID (Sub d)) userID then (200, Some d)
                         else (403, None)
                     end),
             send (SelectSubscriptionJoinPlan subscriptionID) w)) as Hrun.
  { unfold SubscriptionHandler.GetSubscription, bind, ret.
    rewrite GetSubscriptionByID_run.
    destruct (fault_at 0 w); [done|].
    destruct (joined_row w subscriptionID) as [d|]; [|done].
    by destruct (String.eqb (UserID (Sub d)) userID). }
  split; [done|]. rewrite Hrun. cbn [fst]. split.
  - intros body. destruct (fault_at 0 w); [done|].
    destruct (joined_row w subscriptionID) as [d|]; [|done].
    by destruct (String.eqb (UserID (Sub d)) userID).
  - intros status d'. destruct (fault_at 0 w); [done|].
    destruct (joined_row w subscriptionID) as [d|]; [|done].
    destruct (String.eqb_spec (UserID (Sub d)) userID); [|done].
    by intros [= <- <-].
Qed.

Lemma not_found_text driver :
  String.eqb ("failed to get subscription" ++ ": " ++ driver)
    "failed to get subscription: subscription not found"
  = String.eqb driver "subscription not found".
Proof. reflexivity. Qed.

(** The status of the reactivate handler for a non-empty id, on a store
    whose rows are filed under their id: 404 when there is no such row, 403
    for the row of another user, 400 for an active or a paused one, 200 for
    a cancelled one unless the UPDATE fails (500).  When the first query
    fails the answer is 500, or 404 if the driver's message reads
    "subscription not found". *)
Theorem ReactivateSubscription_status driver w subscriptionID userID :
  keyed w -> subscriptionID <> "" ->
  fst (SubscriptionHandler.ReactivateSubscription driver subscriptionID userID w)
  = if fault_at 0 w
    then (if String.eqb driver "subscription not found" then 404 else 500)
    else match subscriptions w !! subscriptionID with
         | None => 404
         | Some r =>
             if negb (String.eqb (UserID r) userID) then 403
             else match Status r with
                  | StatusCancelled => if fault_at 2 w then 500 else 200
                  | _ => 400
                  end
         end.
Proof.
  intros Hk Hne. unfold SubscriptionHandler.ReactivateSubscription.
  apply String.eqb_neq in Hne. rewrite Hne. unfold bind, ret.
  rewrite ReactivateSubscription_run. cbv zeta.
  destruct (fault_at 0 w).
  { cbn [fst snd SubscriptionHandler.Error]. rewrite not_found_text.
    by destruct (String.eqb driver "subscription not found"). }
  destruct (subscriptions w !! subscriptionID) as [r|] eqn:Hr; [|done].
  destruct (negb (String.eqb (UserID r) userID)); [done|].
  destruct (Status r) eqn:Hs; try done.
  rewrite bool_decide_eq_true_2 by done. cbn [negb].
  match goal with
  | |- context [Update ?s ?w0] =>
      pose proof (Update_result s w0) as Hres; destruct (Update s w0) as [e w1]
  end.
  cbn [fst ID set_UpdatedAt set_PauseEndDate set_PauseStartDate set_Status subscriptions
       send] in Hres.
  rewrite fault_at_send, (Hk _ _ Hr), Hr in Hres. subst e.
  destruct (fault_at 2 w); [done|]. by destruct (fault_at 0 w1).
Qed.

(** The theorem for an id that is not in the store (404) and for a paused
    subscription (400). *)
Lemma ReactivateSubscription_status_witness :
  fst (SubscriptionHandler.ReactivateSubscription "connection refused" "sub-9" "user-1"
         (Sample.one_sub StatusActive None)) = 404
  /\ fst (SubscriptionHandler.ReactivateSubscription "connection refused" "sub-1" "user-1"
            (Sample.one_sub StatusPaused (Some (1100, 1200)))) = 400.
Proof.
  split.
  - rewrite (ReactivateSubscription_status "connection refused"
               (Sample.one_sub StatusActive None) "sub-9" "user-1").
    + vm_compute. reflexivity.
    + intros k r. unfold Sample.one_sub, Sample.store. cbn [subscriptions].
      intros [<- <-]%lookup_singleton_Some. reflexivity.
    + discriminate.
  - rewrite (ReactivateSubscription_status "connection refused"
               (Sample.one_sub StatusPaused (Some (1100, 1200))) "sub-1" "user-1").
    + vm_compute. reflexivity.
    + intros k r. unfold Sample.one_sub, Sample.store. cbn [subscriptions].
      intros [<- <-]%lookup_singleton_Some. reflexivity.
    + discriminate.
Defined.

(** ** The growth figures of the dashboard *)

(** A positive [float64] is +infinity or a finite number with the sign bit
    clear. *)
Lemma positive_float x :
  (0 <? x)%float = true ->
  x = infinity \/ exists m e, Prim2SF x = S754_finite false m e.
Proof.
  rewrite ltb_spec. change (Prim2SF 0) with (S754_zero false).
  destruct (Prim2SF x) as [s|s| |s m e] eqn:Hx; cbn; try done.
  - destruct s; [done|]. intros _. left. by apply Prim2SF_inj.
  - destruct s; [done|]. intros _. right. by exists m, e.
Qed.

(** A finite [float64] less itself is +0, and +0 over a positive finite
    number is +0. *)
Lemma finite_sub_diag x m e :
  Prim2SF x = S754_finite false m e -> ((x - x) / x)%float = 0%float.
Proof.
  intros Hx. apply Prim2SF_inj. rewrite div_spec, sub_spec, Hx.
  unfold SF64sub, SFsub. cbv zeta.
  assert (IntDef.Z.min e e = e) as -> by apply Z.min_id.
  assert (forall z, IntDef.Z.sub z z = 0) as Hdiag by apply Z.sub_diag.
  unfold shl_align. rewrite !Hdiag. reflexivity.
Qed.

Lemma RevenueGrowth_same x :
  x <> infinity -> AdminService.RevenueGrowth x x = 0%float.
Proof.
  intros Hinf. unfold AdminService.RevenueGrowth.
  destruct (0 <? x)%float eqn:Hpos; [|done].
  destruct (positive_float x Hpos) as [->|(m & e & Hx)]; [done|].
  rewrite (finite_sub_diag x m e Hx). vm_compute. reflexivity.
Qed.

Lemma Repository_GetSubscriptionStats_outcome startDate endDate w :
  let '(result, w') := SubscriptionRepository.GetSubscriptionStats startDate endDate w in
  read_only w' w
  /\ if fault_at 0 w then result = (None, Some ErrDriver)
     else exists stats,
         result = (Some stats, None)
         /\ SubscriptionStats.MonthlyRevenue stats = monthly_revenue w.
Proof.
  rewrite Repository_GetSubscriptionStats_run. cbv zeta.
  destruct (fault_at 0 w); [done|].
  pose proof (GetReactivationsCount_read_only startDate endDate
                (set_faults (tail (faults w)) w)) as [Hro _].
  destruct (GetReactivationsCount _ _ _) as [counted w2].
  split; [exact Hro|]. by eexists.
Qed.

Lemma monthly_revenue_read_only w' w : read_only w' w -> monthly_revenue w' = monthly_revenue w.
Proof. intros [Hs _]. unfold monthly_revenue, all_rows. by rewrite Hs. Qed.

(** [GetDashboardStatsWithFilter]: it returns the error of the first
    statistics query; it panics when the query for the period before fails
    (the fields of the debug log read [prevStats.MonthlyRevenue] on [nil]);
    otherwise both revenues are the sum over the subscriptions that are
    active now, whatever the two periods, so that the revenue growth
    compares a number with itself: it is 0 unless that sum is +infinity. *)
Theorem DashboardGrowth_revenue startDate endDate prevStartDate w :
  let w1 := snd (SubscriptionRepository.GetSubscriptionStats startDate endDate w) in
  match fst (AdminService.DashboardGrowth startDate endDate prevStartDate w) with
  | Returned (None, Some e) => fault_at 0 w = true /\ e = ErrDriver
  | Panicked => fault_at 0 w = false /\ fault_at 0 w1 = true
  | Returned (Some (subscriptionGrowth, revenueGrowth), None) =>
      fault_at 0 w = false /\ fault_at 0 w1 = false
      /\ revenueGrowth
         = AdminService.RevenueGrowth (monthly_revenue w) (monthly_revenue w)
      /\ (monthly_revenue w <> infinity -> revenueGrowth = 0%float)
  | _ => False
  end.
Proof.
  intros w1. subst w1. cbv [AdminService.DashboardGrowth bind ret].
  pose proof (Repository_GetSubscriptionStats_outcome startDate endDate w) as H1.
  destruct (SubscriptionRepository.GetSubscriptionStats startDate endDate w)
    as [result w1].
  destruct H1 as [Hro H1]. cbn [snd].
  destruct (fault_at 0 w); [by subst result|].
  destruct H1 as (stats & -> & Hrev).
  pose proof (Repository_GetSubscriptionStats_outcome prevStartDate (startDate - 1) w1)
    as H2.
  destruct (SubscriptionRepository.GetSubscriptionStats prevStartDate (startDate - 1) w1)
    as [result2 w2].
  destruct H2 as [Hro2 H2].
  destruct (fault_at 0 w1); [by subst result2|].
  destruct H2 as (prev & -> & Hrev2). cbn [fst present].
  rewrite Hrev, Hrev2, (monthly_revenue_read_only w1 w Hro).
  repeat split. apply RevenueGrowth_same.
Qed.
